(** * Archive extraction (lutris/util/extract.py)

    A shallow embedding of the extraction orchestration code of
    [lutris/util/extract.py]: format detection, backend dispatch, the staging
    directory and the merge of staged content into the destination.

    Layout: the Python string and path primitives the code calls, the pure
    functions of the module, a model of the file system and of the [os] /
    [shutil] calls, the effectful functions of the module in a state and
    exception monad, and then the theorems. *)

From stdpp Require Import gmap strings list fin_maps.
From Stdlib Require Import String Ascii ZArith Lia.

Local Open Scope Z_scope.
Local Open Scope nat_scope.
Local Open Scope string_scope.

#[local] Arguments String.append !s1 s2 : simpl nomatch.

(** ** Python [str] primitives *)

Module Str.

(** [s[n:]] *)
Fixpoint drop (n : nat) (s : string) : string :=
  match n, s with
  | O, _ => s
  | S n', String _ s' => drop n' s'
  | S _, EmptyString => EmptyString
  end.

(** [s[:n]] *)
Fixpoint take (n : nat) (s : string) : string :=
  match n, s with
  | O, _ => EmptyString
  | S n', String c s' => String c (take n' s')
  | S _, EmptyString => EmptyString
  end.

(** [s.startswith(p)] *)
Fixpoint startswith (s p : string) : bool :=
  match p, s with
  | EmptyString, _ => true
  | String a p', String b s' => if Ascii.eqb a b then startswith s' p' else false
  | String _ _, EmptyString => false
  end.

(** [s.endswith(suf)]: the last [len(suf)] characters of [s] are [suf]. *)
Definition endswith (s suf : string) : bool :=
  Nat.leb (String.length suf) (String.length s)
  && String.eqb (drop (String.length s - String.length suf) s) suf.

(** [s.endswith((suf1, suf2, ...))] *)
Definition endswith_any (s : string) (sufs : list string) : bool :=
  existsb (endswith s) sufs.

(** [c.lower()] on one character of the ASCII range. *)
Definition lower_char (c : ascii) : ascii :=
  let n := nat_of_ascii c in
  if Nat.leb 65 n && Nat.leb n 90 then ascii_of_nat (n + 32) else c.

(** [s.lower()].  A string holds the UTF-8 bytes of the text.  The letters
    [A] to [Z] are folded, and the Kelvin sign U+212A (the bytes 226, 132,
    170), the one character outside ASCII whose lower-case form is ASCII,
    becomes [k].  The other characters outside ASCII are kept as they are:
    their lower-case forms are not ASCII either, and the module compares
    the result with ASCII words only. *)
Fixpoint lower (s : string) : string :=
  match s with
  | EmptyString => EmptyString
  | String c s' =>
      if Ascii.eqb c "226" then
        match s' with
        | String c1 (String c2 s'') =>
            if Ascii.eqb c1 "132" && Ascii.eqb c2 "170"
            then String "k" (lower s'')
            else String c (lower s')
        | _ => String c (lower s')
        end
      else String (lower_char c) (lower s')
  end.

(** The string starts with the last two bytes of the Kelvin sign. *)
Definition kelvin_tail (s : string) : bool :=
  match s with
  | String c1 (String c2 _) => Ascii.eqb c1 "132" && Ascii.eqb c2 "170"
  | _ => false
  end.

(** [s.lstrip(c)] for a one-character argument. *)
Fixpoint lstrip (c : ascii) (s : string) : string :=
  match s with
  | EmptyString => EmptyString
  | String a s' => if Ascii.eqb a c then lstrip c s' else s
  end.

(** [s.rstrip(c)] for a one-character argument. *)
Fixpoint rstrip (c : ascii) (s : string) : string :=
  match s with
  | EmptyString => EmptyString
  | String a s' =>
      match rstrip c s' with
      | EmptyString => if Ascii.eqb a c then EmptyString else String a EmptyString
      | r => String a r
      end
  end.

(** [s.rfind(c)], counted from position [i] of the whole string: the highest
    index at which [c] occurs, [-1] when it does not occur. *)
Fixpoint rfind_from (i : Z) (c : ascii) (s : string) : Z :=
  match s with
  | EmptyString => (-1)%Z
  | String a s' =>
      let r := rfind_from (i + 1)%Z c s' in
      if (0 <=? r)%Z then r else if Ascii.eqb a c then i else (-1)%Z
  end.

Definition rfind (s : string) (c : ascii) : Z := rfind_from 0%Z c s.

(** [x in (t1, t2, ...)] for strings. *)
Definition mem (x : string) (l : list string) : bool := existsb (String.eqb x) l.

(** [s.split(c)] for a one-character separator. *)
Fixpoint split (c : ascii) (s : string) : list string :=
  match s with
  | EmptyString => [EmptyString]
  | String a s' =>
      if Ascii.eqb a c then EmptyString :: split c s'
      else match split c s' with
           | w :: ws => String a w :: ws
           | [] => [String a EmptyString]
           end
  end.

End Str.

(** ** [os.path] on POSIX *)

Module OsPath.

Definition sep : ascii := "/"%char.

(** [posixpath.join(a, b)] *)
Definition join (a b : string) : string :=
  if Str.startswith b "/" then b
  else if String.eqb a "" || Str.endswith a "/" then a +:+ b
  else a +:+ "/" +:+ b.

(** [posixpath.split(p)]: head and tail around the last slash; trailing
    slashes are stripped from the head unless it consists of slashes only. *)
Definition split (p : string) : string * string :=
  let i := Z.to_nat (Str.rfind p sep + 1)%Z in
  let head := Str.take i p in
  let tail := Str.drop i p in
  let head' := if String.eqb (Str.rstrip sep head) "" then head else Str.rstrip sep head in
  (head', tail).

Definition basename (p : string) : string := Str.drop (Z.to_nat (Str.rfind p sep + 1)%Z) p.
Definition dirname (p : string) : string := fst (split p).

(** The loop of [genericpath._splitext] that skips the leading dots of the
    file name: it looks at positions [filenameIndex .. dotIndex - 1], [n] of
    them, and reports whether one holds something else than a dot. *)
Fixpoint splitext_scan (p : string) (filenameIndex n : nat) : bool :=
  match n with
  | O => false
  | S n' =>
      if negb (String.eqb (Str.take 1 (Str.drop filenameIndex p)) ".") then true
      else splitext_scan p (S filenameIndex) n'
  end.

(** [posixpath.splitext(p)] *)
Definition splitext (p : string) : string * string :=
  let sepIndex := Str.rfind p sep in
  let dotIndex := Str.rfind p "."%char in
  if (sepIndex <? dotIndex)%Z then
    let filenameIndex := Z.to_nat (sepIndex + 1)%Z in
    if splitext_scan p filenameIndex (Z.to_nat dotIndex - filenameIndex)
    then (Str.take (Z.to_nat dotIndex) p, Str.drop (Z.to_nat dotIndex) p)
    else (p, "")
  else (p, "").

End OsPath.

(** ** Format detection *)

(** Truth value of an optional string argument: [None] and [""] are false. *)
Definition truthy (x : option string) : bool :=
  match x with
  | Some s => negb (String.eqb s "")
  | None => false
  end.

Definition supported_extractors : list string :=
  [ "7z"; "xz"; "bzip2"; "gzip"; "tar"; "zip"; "ar"; "arj"; "cab"; "chm";
    "cpio"; "cramfs"; "dmg"; "ext"; "fat"; "gpt"; "hfs"; "ihex"; "iso";
    "lzh"; "lzma"; "mbr"; "msi"; "nsis"; "ntfs"; "qcow2"; "rar"; "rpm";
    "squashfs"; "udf"; "uefi"; "vdi"; "vhd"; "vmdk"; "wim"; "xar"; "z";
    "auto" ].

(** [is_7zip_supported(path, extractor)].  The result is a Python value:
    [Some b] is the boolean [b], [None] is Python's [None], which is what a
    function returns when control reaches its end without a [return]. *)
Definition is_7zip_supported (path : string) (extractor : option string) : option bool :=
  if truthy extractor then
    Some (Str.mem (Str.lower (default "" extractor)) supported_extractors)
  else
    let ext := snd (OsPath.splitext path) in
    if negb (String.eqb ext "") then
      let ext := Str.lower (Str.lstrip "."%char ext) in
      Some (Str.mem ext supported_extractors)
    else None.

(** [guess_extractor(path)]; the result [None] is Python's [None]. *)
Definition guess_extractor (path : string) : option string :=
  if Str.endswith path ".tar" then Some "tar"
  else if Str.endswith_any path [".tar.gz"; ".tgz"] then Some "tgz"
  else if Str.endswith_any path [".tar.xz"; ".txz"; ".tar.lzma"] then Some "txz"
  else if Str.endswith_any path [".tar.bz2"; ".tbz2"; ".tbz"] then Some "tbz2"
  else if Str.endswith_any path [".tar.zst"; ".tzst"] then Some "tzst"
  else if Str.endswith path ".gz" then Some "gzip"
  else if Str.endswith path ".exe" then Some "exe"
  else if Str.endswith path ".deb" then Some "deb"
  else if Str.endswith path ".AppImage" then Some "AppImage"
  else None.

(** The suffix table of the documentation: each supported suffix with the
    extractor kind documented for it. *)
Definition documented_suffixes : list (string * string) :=
  [ (".tar", "tar");
    (".tar.gz", "tgz"); (".tgz", "tgz");
    (".tar.xz", "txz"); (".txz", "txz"); (".tar.lzma", "txz");
    (".tar.bz2", "tbz2"); (".tbz2", "tbz2"); (".tbz", "tbz2");
    (".tar.zst", "tzst"); (".tzst", "tzst");
    (".gz", "gzip"); (".exe", "exe"); (".deb", "deb");
    (".AppImage", "AppImage") ].


(** ** Random identifiers *)

Module Uuid.

Definition hex_digit (d : Z) : ascii :=
  match d with
  | 0%Z => "0" | 1%Z => "1" | 2%Z => "2" | 3%Z => "3"
  | 4%Z => "4" | 5%Z => "5" | 6%Z => "6" | 7%Z => "7"
  | 8%Z => "8" | 9%Z => "9" | 10%Z => "a" | 11%Z => "b"
  | 12%Z => "c" | 13%Z => "d" | 14%Z => "e" | _ => "f"
  end%char.

(** ['%0<w>x' % n] for [0 <= n < 16^w]: [w] digits, most significant first. *)
Fixpoint hex_fixed (w : nat) (n : Z) : string :=
  match w with
  | O => EmptyString
  | S w' => String (hex_digit ((n / 16 ^ Z.of_nat w') mod 16)%Z) (hex_fixed w' n)
  end.

(** [uuid.uuid4()]: 128 random bits [r], with the variant and version bits
    forced as [UUID.__init__] does for [version=4]. *)
Definition uuid4 (r : Z) : Z :=
  let i := (r mod 2 ^ 128)%Z in
  let i := Z.land i (Z.lnot (Z.shiftl 49152 48)) in   (* int &= ~(0xc000 << 48) *)
  let i := Z.lor i (Z.shiftl 32768 48) in             (* int |= 0x8000 << 48 *)
  let i := Z.land i (Z.lnot (Z.shiftl 61440 64)) in   (* int &= ~(0xf000 << 64) *)
  Z.lor i (Z.shiftl 4 76).                            (* int |= version << 76 *)

(** [str(u)]: the 32 hexadecimal digits in groups of 8-4-4-4-12. *)
Definition str (u : Z) : string :=
  let hex := hex_fixed 32 u in
  Str.take 8 hex +:+ "-" +:+ Str.take 4 (Str.drop 8 hex) +:+ "-"
  +:+ Str.take 4 (Str.drop 12 hex) +:+ "-" +:+ Str.take 4 (Str.drop 16 hex)
  +:+ "-" +:+ Str.drop 20 hex.

End Uuid.

(** [random_id()], as a function of the 128 random bits that [uuid4] draws. *)
Definition random_id_of (r : Z) : string := Str.take 8 (Uuid.str (Uuid.uuid4 r)).

(** The path of the staging directory that [extract_archive] computes for
    the destination [to_directory] when [uuid4] draws [r]. *)
Definition staging_path (to_directory : string) (r : Z) : string :=
  OsPath.join to_directory (".extract-" +:+ random_id_of r).

Definition is_lower_hex (c : ascii) : bool :=
  let n := nat_of_ascii c in
  (Nat.leb 48 n && Nat.leb n 57) || (Nat.leb 97 n && Nat.leb n 102).

Fixpoint string_forallb (f : ascii -> bool) (s : string) : bool :=
  match s with
  | EmptyString => true
  | String c s' => f c && string_forallb f s'
  end.

(** ** The file system *)

Module Fs.

(** A file-system object: a regular file with its contents, or a directory
    with its entries by name.  Links and permissions are not modelled. *)
#[warnings="-register-all"] Inductive node : Type :=
| File (data : string)
| Dir (entries : gmap string node).

Definition is_file (o : option node) : bool :=
  match o with Some (File _) => true | _ => false end.

Definition is_dir (o : option node) : bool :=
  match o with Some (Dir _) => true | _ => false end.

(** The entries of a directory (none for a regular file). *)
Definition entries (n : node) : gmap string node :=
  match n with Dir m => m | File _ => ∅ end.

(** [s.split("/")] *)
Fixpoint split_slash (s : string) : list string :=
  match s with
  | EmptyString => [EmptyString]
  | String c s' =>
      if Ascii.eqb c "/" then EmptyString :: split_slash s'
      else match split_slash s' with
           | w :: ws => String c w :: ws
           | [] => [String c EmptyString]
           end
  end.

(** The components a path string resolves through, from the root: empty
    components (doubled or trailing slashes) are skipped.  A relative path is
    resolved from the root, and [.] and [..] are ordinary names. *)
Definition components (p : string) : list string :=
  List.filter (fun w => negb (String.eqb w "")) (split_slash p).

(** A path the kernel accepts: the empty string is refused ([ENOENT]). *)
Definition resolve (p : string) : option (list string) :=
  if String.eqb p "" then None else Some (components p).

Definition slash_free (s : string) : bool :=
  string_forallb (fun c => negb (Ascii.eqb c "/")) s.

(** What a directory entry can be called: not empty, no slash. *)
Definition valid_name (n : string) : bool :=
  negb (String.eqb n "") && slash_free n.

(** A canonical path: absolute, with no component [.] or [..].  The
    components of such a path, read from the root, name the entry that the
    system reaches by it (the model has no symbolic links). *)
Definition canonical (p : string) : bool :=
  Str.startswith p "/"
  && forallb (fun c => negb (String.eqb c ".") && negb (String.eqb c ".."))
       (components p).

(** The names of the entries of a directory, as a listing returns them. *)
Definition names (m : gmap string node) : list string :=
  List.filter valid_name (fst <$> map_to_list m).

Fixpoint lookup (p : list string) (n : node) : option node :=
  match p with
  | [] => Some n
  | c :: p' =>
      match n with
      | Dir m => match m !! c with Some n' => lookup p' n' | None => None end
      | File _ => None
      end
  end.

(** Put [x] at path [p]: the entry is created or replaced when its parent is
    an existing directory, and nothing changes otherwise. *)
Fixpoint put (p : list string) (x : node) (n : node) : node :=
  match p with
  | [] => x
  | c :: p' =>
      match n with
      | File _ => n
      | Dir m =>
          match p', m !! c with
          | [], _ => Dir (<[c := x]> m)
          | _, Some n' => Dir (<[c := put p' x n']> m)
          | _, None => n
          end
      end
  end.

(** Delete the entry at path [p] (with all it contains), when there is one. *)
Fixpoint del (p : list string) (n : node) : node :=
  match p with
  | [] => n
  | c :: p' =>
      match n with
      | File _ => n
      | Dir m =>
          match p', m !! c with
          | [], _ => Dir (delete c m)
          | _, Some n' => Dir (<[c := del p' n']> m)
          | _, None => n
          end
      end
  end.

(** Create the directories along [p] that do not exist yet; [None] when a
    regular file stands in the way. *)
Fixpoint mkdirs (p : list string) (n : node) : option node :=
  match n with
  | File _ => None
  | Dir m =>
      match p with
      | [] => Some n
      | c :: p' =>
          match mkdirs p' (default (Dir ∅) (m !! c)) with
          | Some n' => Some (Dir (<[c := n']> m))
          | None => None
          end
      end
  end.

(** [p] is [q] or lies below [q]. *)
Definition under (q p : list string) : Prop := exists r, p = (q ++ r)%list.

End Fs.

Abbreviation node := Fs.node.
Abbreviation File := Fs.File.
Abbreviation Dir := Fs.Dir.

(** ** Exceptions, the world, and the monad of effects *)

(** The exception classes the module raises, catches or lets through.
    [OSError] stands for the class with all its subclasses
    ([FileNotFoundError], [FileExistsError], [NotADirectoryError],
    [shutil.Error], [gzip.BadGzipFile], ...); [OtherError cls msg] is an
    exception of any other class. *)
Inductive exn : Type :=
| OSError (msg : string)
| ZlibError (msg : string)
| TarReadError (msg : string)
| EOFError (msg : string)
| RuntimeError (msg : string)
| MissingExecutableError (msg : string)
| ExtractError (msg : string)
| UnboundLocalError (msg : string)
| IndexError (msg : string)
| TypeError (msg : string)
| RecursionError (msg : string)
| OtherError (cls msg : string).

(** [str(ex)] *)
Definition str_of_exn (ex : exn) : string :=
  match ex with
  | OSError m | ZlibError m | TarReadError m | EOFError m | RuntimeError m
  | MissingExecutableError m | ExtractError m | UnboundLocalError m
  | IndexError m | TypeError m | RecursionError m | OtherError _ m => m
  end.

(** The state the code acts on: the file-system tree, and the source of
    random bits ([urandom k] is the [k]-th 128-bit draw, [drawn] counts the
    draws made so far). *)
Record world : Type := World {
  root : node;
  urandom : nat -> Z;
  drawn : nat
}.

Definition set_root (r : node) (w : world) : world :=
  World r (urandom w) (drawn w).

(** The world in which the directory at path [d] has the entries [m]. *)
Definition put_dir (d : string) (m : gmap string node) (w : world) : world :=
  set_root (Fs.put (Fs.components d) (Dir m) (root w)) w.

Inductive result (A : Type) : Type :=
| Ok (a : A)
| Raise (e : exn).
Arguments Ok {A} a.
Arguments Raise {A} e.

(** A computation: from a world to a value or an exception, and the world
    it leaves (an exception does not undo what was done before it). *)
Definition M (A : Type) : Type := world -> result A * world.

Definition ret {A} (a : A) : M A := fun w => (Ok a, w).

Definition bind {A B} (c : M A) (k : A -> M B) : M B :=
  fun w => match c w with
           | (Ok a, w') => k a w'
           | (Raise e, w') => (Raise e, w')
           end.

Definition raise {A} (e : exn) : M A := fun w => (Raise e, w).

(** [try: c  except ... as ex: handler ex] *)
Definition try_except {A} (c : M A) (handler : exn -> M A) : M A :=
  fun w => match c w with
           | (Ok a, w') => (Ok a, w')
           | (Raise e, w') => handler e w'
           end.

(** Reading the world, and replacing the file-system tree. *)
Definition gets {A} (f : world -> A) : M A := fun w => (Ok (f w), w).
Definition modify_root (f : node -> node) : M unit :=
  fun w => (Ok tt, set_root (f (root w)) w).

Declare Scope monad_scope.
Delimit Scope monad_scope with monad.
Notation "x <- c ;; k" := (bind c (fun x => k))
  (at level 100, c at next level, k at level 200, right associativity) : monad_scope.
Notation "c ;; k" := (bind c (fun _ => k))
  (at level 100, k at level 200, right associativity) : monad_scope.
Local Open Scope monad_scope.

(** [for x in l: body x] *)
Fixpoint for_each {A} (l : list A) (body : A -> M unit) : M unit :=
  match l with
  | [] => ret tt
  | x :: l' => body x ;; for_each l' body
  end.

(** [uuid.uuid4()]: one draw of random bits. *)
Definition draw : M Z :=
  fun w => (Ok (urandom w (drawn w)), World (root w) (urandom w) (S (drawn w))).

(** [random_id()] *)
Definition random_id : M string := r <- draw ;; ret (random_id_of r).

(** ** The [os] calls *)

Module Os.

Definition ENOENT (p : string) : exn := OSError ("[Errno 2] No such file or directory: " +:+ p).
Definition EEXIST (p : string) : exn := OSError ("[Errno 17] File exists: " +:+ p).
Definition ENOTDIR (p : string) : exn := OSError ("[Errno 20] Not a directory: " +:+ p).
Definition EISDIR (p : string) : exn := OSError ("[Errno 21] Is a directory: " +:+ p).
Definition EINVAL (p : string) : exn := OSError ("[Errno 22] Invalid argument: " +:+ p).
Definition ENOTEMPTY (p : string) : exn := OSError ("[Errno 39] Directory not empty: " +:+ p).
Definition EBUSY (p : string) : exn := OSError ("[Errno 16] Device or resource busy: " +:+ p).

(** What is at path [p], if anything. *)
Definition stat (p : string) (w : world) : option node :=
  match Fs.resolve p with
  | Some cp => Fs.lookup cp (root w)
  | None => None
  end.

Definition is_empty_dir (m : gmap string node) : bool :=
  match Fs.names m with [] => true | _ => false end.

(** [os.path.exists], [os.path.isfile], [os.path.isdir] *)
Definition path_exists (p : string) : M bool :=
  gets (fun w => match stat p w with Some _ => true | None => false end).
Definition path_isfile (p : string) : M bool := gets (fun w => Fs.is_file (stat p w)).
Definition path_isdir (p : string) : M bool := gets (fun w => Fs.is_dir (stat p w)).

(** [os.getcwd]: the working directory of the process is the root, the
    directory from which [Fs.resolve] reads a relative path. *)
Definition getcwd : string := "/".

(** The number of leading slashes [posixpath.normpath] keeps: two when the
    path starts with exactly two, one when it starts with one or with three
    or more, none otherwise. *)
Definition initial_slashes (path : string) : nat :=
  if Str.startswith path "/" then
    if Str.startswith path "//" && negb (Str.startswith path "///") then 2 else 1
  else 0.

(** One round of the loop of [posixpath.normpath] over the components of
    the path: empty components and [.] are skipped; [..] removes the last
    component kept, unless there is none in a relative path or the last one
    is itself [..], when it is kept; at the start of an absolute path it is
    dropped. *)
Definition normpath_step (initial : nat) (new_comps : list string) (comp : string)
    : list string :=
  if String.eqb comp "" || String.eqb comp "." then new_comps
  else if negb (String.eqb comp "..")
          || (Nat.eqb initial 0 && match new_comps with [] => true | _ => false end)
          || String.eqb (List.last new_comps "") ".."
       then (new_comps ++ [comp])%list
       else List.removelast new_comps.

(** [os.path.normpath] *)
Definition normpath (path : string) : string :=
  if String.eqb path "" then "."
  else
    let initial := initial_slashes path in
    let comps := List.fold_left (normpath_step initial) (Fs.split_slash path) [] in
    let path := String.concat "/" comps in
    let path := Str.take initial "//" +:+ path in
    if String.eqb path "" then "." else path.

(** [os.path.abspath]: a relative path is joined to the working directory,
    and the result is normalised. *)
Definition abspath (p : string) : string :=
  normpath (if Str.startswith p "/" then p else OsPath.join getcwd p).

(** [os.listdir] *)
Definition listdir (p : string) : M (list string) := fun w =>
  match stat p w with
  | Some (Dir m) => (Ok (Fs.names m), w)
  | Some (File _) => (Raise (ENOTDIR p), w)
  | None => (Raise (ENOENT p), w)
  end.

(** [os.remove] *)
Definition remove (p : string) : M unit := fun w =>
  match Fs.resolve p with
  | None => (Raise (ENOENT p), w)
  | Some cp =>
      match Fs.lookup cp (root w) with
      | Some (File _) => (Ok tt, set_root (Fs.del cp (root w)) w)
      | Some (Dir _) => (Raise (EISDIR p), w)
      | None => (Raise (ENOENT p), w)
      end
  end.

(** [os.rmdir] *)
Definition rmdir (p : string) : M unit := fun w =>
  match Fs.resolve p with
  | None => (Raise (ENOENT p), w)
  | Some cp =>
      match Fs.lookup cp (root w) with
      | Some (Dir m) =>
          if negb (is_empty_dir m) then (Raise (ENOTEMPTY p), w)
          else match cp with
               | [] => (Raise (EBUSY p), w)
               | _ => (Ok tt, set_root (Fs.del cp (root w)) w)
               end
      | Some (File _) => (Raise (ENOTDIR p), w)
      | None => (Raise (ENOENT p), w)
      end
  end.

(** [os.rename] on one device: a file replaces a file, a directory replaces
    an empty directory, and the target's parent must be a directory. *)
Definition rename (src dst : string) : M unit := fun w =>
  match Fs.resolve src, Fs.resolve dst with
  | Some cs, Some cd =>
      match Fs.lookup cs (root w) with
      | None => (Raise (ENOENT src), w)
      | Some x =>
          let go := (Ok tt, set_root (Fs.put cd x (Fs.del cs (root w))) w) in
          if bool_decide (cs = cd) then (Ok tt, w)
          else if bool_decide (cs `prefix_of` cd) then (Raise (EINVAL dst), w)
          else if negb (Fs.is_dir (Fs.lookup (List.removelast cd) (root w)))
          then (Raise (ENOENT dst), w)
          else match x, Fs.lookup cd (root w) with
               | _, None => go
               | File _, Some (File _) => go
               | File _, Some (Dir _) => (Raise (EISDIR dst), w)
               | Dir _, Some (File _) => (Raise (ENOTDIR dst), w)
               | Dir _, Some (Dir m) =>
                   if is_empty_dir m then go else (Raise (ENOTEMPTY dst), w)
               end
      end
  | None, _ => (Raise (ENOENT src), w)
  | _, None => (Raise (ENOENT dst), w)
  end.

(** [os.makedirs(p, exist_ok=...)] *)
Definition makedirs (p : string) (exist_ok : bool) : M unit := fun w =>
  match Fs.resolve p with
  | None => (Raise (ENOENT p), w)
  | Some cp =>
      match Fs.lookup cp (root w) with
      | Some n =>
          if exist_ok && Fs.is_dir (Some n) then (Ok tt, w)
          else (Raise (EEXIST p), w)
      | None =>
          match Fs.mkdirs cp (root w) with
          | Some r => (Ok tt, set_root r w)
          | None => (Raise (ENOTDIR p), w)
          end
      end
  end.

(** The loop of [os.removedirs] over the ancestors: remove each one while
    that succeeds.  [n] bounds the number of ancestors. *)
Fixpoint removedirs_up (n : nat) (head tail : string) : M unit :=
  match n with
  | O => ret tt
  | S n' =>
      if negb (String.eqb head "") && negb (String.eqb tail "") then
        try_except
          (rmdir head ;;
           removedirs_up n' (fst (OsPath.split head)) (snd (OsPath.split head)))
          (fun _ => ret tt)
      else ret tt
  end.

(** [os.removedirs] *)
Definition removedirs (name : string) : M unit :=
  rmdir name ;;
  let (head, tail) := OsPath.split name in
  let (head, tail) := if String.eqb tail "" then OsPath.split head else (head, tail) in
  removedirs_up (String.length name) head tail.

(** [open(p, "rb").read()] *)
Definition read_file (p : string) : M string := fun w =>
  match stat p w with
  | Some (File data) => (Ok data, w)
  | Some (Dir _) => (Raise (EISDIR p), w)
  | None => (Raise (ENOENT p), w)
  end.

(** [open(p, "wb").write(data)]: the file is created or truncated. *)
Definition write_file (p : string) (data : string) : M unit := fun w =>
  match Fs.resolve p with
  | None => (Raise (ENOENT p), w)
  | Some cp =>
      if Fs.is_dir (Fs.lookup cp (root w)) then (Raise (EISDIR p), w)
      else if Fs.is_dir (Fs.lookup (List.removelast cp) (root w))
      then (Ok tt, set_root (Fs.put cp (File data) (root w)) w)
      else (Raise (ENOENT p), w)
  end.

End Os.

(** ** The [shutil] calls *)

Module Shutil.

(** [shutil._basename] *)
Definition basename (path : string) : string :=
  OsPath.basename (Str.rstrip OsPath.sep path).

(** [shutil._samefile]: both paths name the same existing object. *)
Definition samefile (src dst : string) (w : world) : bool :=
  match Os.stat src w, Os.stat dst w with
  | Some _, Some _ => bool_decide (Fs.components src = Fs.components dst)
  | _, _ => false
  end.

(** [shutil._destinsrc] *)
Definition destinsrc (src dst : string) : bool :=
  bool_decide (Fs.components src `prefix_of` Fs.components dst).

Definition Error (msg : string) : exn := OSError msg.

(** [shutil.rmtree] *)
Definition rmtree (p : string) : M unit := fun w =>
  match Fs.resolve p with
  | None => (Raise (Os.ENOENT p), w)
  | Some cp =>
      match Fs.lookup cp (root w) with
      | Some (Dir _) =>
          match cp with
          | [] => (Raise (Os.EBUSY p), w)
          | _ => (Ok tt, set_root (Fs.del cp (root w)) w)
          end
      | Some (File _) => (Raise (Os.ENOTDIR p), w)
      | None => (Raise (Os.ENOENT p), w)
      end
  end.

(** [shutil.copyfile] *)
Definition copyfile (src dst : string) : M unit :=
  same <- gets (samefile src dst) ;;
  if same then raise (Error (src +:+ " and " +:+ dst +:+ " are the same file"))
  else data <- Os.read_file src ;; Os.write_file dst data.

(** [shutil.copy] *)
Definition copy (src dst : string) : M unit :=
  d <- Os.path_isdir dst ;;
  let dst := if d then OsPath.join dst (OsPath.basename src) else dst in
  copyfile src dst.

(** [shutil.copytree] into a new directory [dst]. *)
Definition copytree (src dst : string) : M unit :=
  names <- Os.listdir src ;;
  Os.makedirs dst false ;;
  fun w =>
    match Os.stat src w, Fs.resolve dst with
    | Some x, Some cd => (Ok tt, set_root (Fs.put cd x (root w)) w)
    | _, _ => (Raise (Os.ENOENT src), w)
    end.

(** [shutil.move]: a rename, into [dst] when [dst] is a directory; when the
    rename fails the source is copied and then removed. *)
Definition move (src dst : string) : M unit :=
  d <- Os.path_isdir dst ;;
  same <- gets (samefile src dst) ;;
  if d && same then Os.rename src dst
  else
    let real_dst := if d then OsPath.join dst (basename src) else dst in
    e <- (if d then Os.path_exists real_dst else ret false) ;;
    if e then raise (Error ("Destination path '" +:+ real_dst +:+ "' already exists"))
    else
      try_except (Os.rename src real_dst)
        (fun _ =>
           sd <- Os.path_isdir src ;;
           if sd then
             if destinsrc src dst
             then raise (Error ("Cannot move a directory '" +:+ src
                                +:+ "' into itself '" +:+ dst +:+ "'."))
             else copytree src real_dst ;; rmtree src
           else copyfile src real_dst ;; Os.remove src).

End Shutil.

(** ** The helpers of [lutris.util.system] *)

Module System.

(** Modelled from the spec: [lutris.util.system.path_exists] is not among
    the sources; the merge rules speak of an entry existing at the
    destination path, which is what [os.path.exists] reports. *)
Definition path_exists (p : string) : M bool :=
  if String.eqb p "" then ret false else Os.path_exists p.

(** Modelled from the spec: [lutris.util.system.create_folder] is not among
    the sources; it creates the directory (and its parents) when it does not
    exist yet, as the staging directory is created before a tool writes to
    it. *)
Definition create_folder (p : string) : M unit :=
  if String.eqb p "" then ret tt else Os.makedirs p true.

(** Modelled from the spec: [lutris.util.system.delete_folder] is not among
    the sources; it deletes the staging directory tree entirely. *)
Definition delete_folder (p : string) : M unit :=
  e <- Os.path_exists p ;;
  if e then Shutil.rmtree p else ret tt.

End System.

(** ** Backend dispatch *)

(** The value [get_archive_opener] returns as opener: the function
    [tarfile.open], or a string naming another backend. *)
Inductive opener : Type :=
| TarfileOpen
| Tag (name : string).

Definition opener_is (o : opener) (name : string) : bool :=
  match o with
  | Tag s => String.eqb s name
  | TarfileOpen => false
  end.

Definition extractor_is (extractor : option string) (name : string) : bool :=
  match extractor with
  | Some s => String.eqb s name
  | None => false
  end.

(** [get_archive_opener(extractor)] *)
Definition get_archive_opener (extractor : option string) : opener * option string :=
  if extractor_is extractor "tar" then (TarfileOpen, Some "r:")
  else if extractor_is extractor "tgz" then (TarfileOpen, Some "r:gz")
  else if extractor_is extractor "txz" then (TarfileOpen, Some "r:xz")
  else if extractor_is extractor "tbz2" || extractor_is extractor "bz2"
  then (TarfileOpen, Some "r:bz2")
  else if extractor_is extractor "tzst" then (TarfileOpen, Some "r:zst")
  else if extractor_is extractor "gzip" then (Tag "gz", None)
  else if extractor_is extractor "gog" then (Tag "innoextract", None)
  else if extractor_is extractor "exe" then (Tag "exe", None)
  else if extractor_is extractor "deb" then (Tag "deb", None)
  else if extractor_is extractor "AppImage" then (Tag "AppImage", None)
  else (Tag "7zip", None).

(** The exceptions that [extract_archive] catches around the backend:
    [except (OSError, zlib.error, tarfile.ReadError, EOFError)]. *)
Definition caught_by_extract_archive (ex : exn) : bool :=
  match ex with
  | OSError _ | ZlibError _ | TarReadError _ | EOFError _ => true
  | _ => false
  end.

Definition lift_result {A} (r : result A) : M A := fun w => (r, w).

(** A call that reads the world and may raise. *)
Definition reads {A} (f : world -> result A) : M A := fun w => (f w, w).

Section Extract.

(** What the module takes from its environment. *)

(** [settings.RUNTIME_DIR] *)
Variable RUNTIME_DIR : string.

(** [lutris.util.system.find_executable]: a lookup of the name on the
    system [PATH]; it reads the world and raises [MissingExecutableError]
    when nothing is found. *)
Variable find_executable : string -> world -> result string.

(** [lutris.util.system.merge_folders(source, destination)] *)
Variable merge_folders : string -> string -> M unit.

(** [subprocess.call(command)]: runs the external tool and returns its exit
    code. *)
Variable subprocess_call : list string -> M Z.

(** [tarfile.open(archive, mode)], and [extractall] and [close] of the
    object it returns. *)
Variable TarFile : Type.
Variable tarfile_open : string -> option string -> M TarFile.
Variable TarFile_extractall : TarFile -> string -> M unit.
Variable TarFile_close : TarFile -> M unit.

(** What [gzip.open(...).read()] makes of the bytes of a file. *)
Variable gunzip : string -> result string.

(** [extract_7zip(path, dest, archive_type=None)] *)
Definition extract_7zip (path dest : string) (archive_type : option string) : M unit :=
  let _7zip_path := OsPath.join RUNTIME_DIR "p7zip/7z" in
  found <- System.path_exists _7zip_path ;;
  _7zip_path <- (if negb found then reads (find_executable "7z")
                 else ret _7zip_path) ;;
  let command := [_7zip_path; "x"; path; "-o" +:+ dest; "-aoa"] in
  let command :=
    if truthy archive_type && negb (extractor_is archive_type "auto")
    then (command ++ ["-t" +:+ default "" archive_type])%list
    else command in
  subprocess_call command ;;
  ret tt.

(** [get_innoextract_path()] *)
Fixpoint get_innoextract_path_loop (inno_dirs : list string) : M (option string) :=
  match inno_dirs with
  | [] => ret None
  | inno_dir :: rest =>
      let inno_path := OsPath.join (OsPath.join RUNTIME_DIR inno_dir) "innoextract" in
      found <- System.path_exists inno_path ;;
      if found then ret (Some inno_path) else get_innoextract_path_loop rest
  end.

Definition get_innoextract_path : M string :=
  listing <- Os.listdir RUNTIME_DIR ;;
  let inno_dirs := List.filter (fun path => Str.startswith path "innoextract") listing in
  r <- get_innoextract_path_loop inno_dirs ;;
  match r with
  | Some inno_path => ret inno_path
  | None => reads (find_executable "innoextract")
  end.

(** [check_inno_exe(path)] *)
Definition check_inno_exe (path : string) : M bool :=
  r <- try_except (p <- get_innoextract_path ;; ret (Some p))
         (fun ex => match ex with
                    | MissingExecutableError _ => ret None
                    | _ => raise ex
                    end) ;;
  match r with
  | None => ret false
  | Some innoextract_path =>
      let command := [innoextract_path; "-i"; path] in
      return_code <- subprocess_call command ;;
      ret (Z.eqb return_code 0)
  end.

(** [lutris.util.system.read_process_output(command)]: runs the command and
    returns what it printed. *)
Variable read_process_output : list string -> M string.

(** The comprehension of [get_innoextract_list]:
    [[line[3:] for line in output.split("\n") if line]]. *)
Definition innoextract_list_of (output : string) : list string :=
  List.map (Str.drop 3)
    (List.filter (fun line => negb (String.eqb line "")) (Str.split "010" output)).

(** [get_innoextract_list(file_path)] *)
Definition get_innoextract_list (file_path : string) : M (list string) :=
  innoextract_path <- get_innoextract_path ;;
  output <- read_process_output [innoextract_path; "-lmq"; file_path] ;;
  ret (innoextract_list_of output).

(** [decompress_gog(file_path, destination_path)] *)
Definition decompress_gog (file_path destination_path : string) : M unit :=
  innoextract_path <- get_innoextract_path ;;
  System.create_folder destination_path ;;
  return_code <- subprocess_call
    [innoextract_path; "-m"; "-g"; "-d"; destination_path; "-e"; file_path] ;;
  if negb (Z.eqb return_code 0)
  then raise (RuntimeError "innoextract failed to extract GOG setup file")
  else ret tt.

(** [extract_gog(path, dest)] *)
Definition extract_gog (path dest : string) : M unit :=
  inno <- check_inno_exe path ;;
  if inno then decompress_gog path dest
  else raise (RuntimeError "specified exe is not a GOG setup file").

(** The second branch of [extract_exe], for an executable that is not an
    InnoSetup installer: "use 7za to check if exe is an archive". *)
Definition extract_exe_archive (path dest : string) : M unit :=
  let _7zip_path := OsPath.join RUNTIME_DIR "p7zip/7za" in
  found <- System.path_exists _7zip_path ;;
  _7zip_path <- (if negb found then reads (find_executable "7za")
                 else ret _7zip_path) ;;
  let command := [_7zip_path; "t"; path] in
  return_code <- subprocess_call command ;;
  if Z.eqb return_code 0 then extract_7zip path dest None
  else raise (RuntimeError "specified exe is not an archive or GOG setup file").

(** [extract_exe(path, dest)] *)
Definition extract_exe (path dest : string) : M unit :=
  inno <- check_inno_exe path ;;
  if inno then decompress_gog path dest
  else extract_exe_archive path dest.

(** [extract_AppImage(path, dest)] *)
Definition extract_AppImage (path dest : string) : M unit :=
  System.create_folder dest ;;
  Shutil.copy path dest.

(** [decompress_gz(file_path, dest_path)] *)
Definition decompress_gz (file_path dest_path : string) : M unit :=
  let stem := Str.take (String.length file_path - 3) file_path in
  let dest_filename :=
    if negb (String.eqb dest_path "")
    then OsPath.join dest_path (OsPath.basename stem)
    else stem in
  Os.makedirs (OsPath.dirname dest_filename) true ;;
  Os.write_file dest_filename "" ;;
  compressed <- Os.read_file file_path ;;
  data <- lift_result (gunzip compressed) ;;
  Os.write_file dest_filename data.

(** The two loops of [extract_deb]: the first extension whose file exists is
    handled, and the loop stops there ([break]). *)
Fixpoint extract_deb_control (dest debian_folder : string) (exts : list string) : M unit :=
  match exts with
  | [] => ret tt
  | extension :: rest =>
      let control_tar_path := OsPath.join dest ("control.tar" +:+ extension) in
      found <- Os.path_exists control_tar_path ;;
      if found then Shutil.move control_tar_path debian_folder
      else extract_deb_control dest debian_folder rest
  end.

Fixpoint extract_deb_data
    (extract_archive : string -> string -> bool -> option string -> M (string * string))
    (dest : string) (exts : list string) : M unit :=
  match exts with
  | [] => ret tt
  | extension :: rest =>
      let data_tar_path := OsPath.join dest ("data.tar" +:+ extension) in
      found <- Os.path_exists data_tar_path ;;
      if found then
        extract_archive data_tar_path dest true None ;;
        Os.remove data_tar_path
      else extract_deb_data extract_archive dest rest
  end.

Definition control_file_exts : list string := [".gz"; ".xz"; ".zst"; ""].
Definition data_file_exts : list string := [".gz"; ".xz"; ".zst"; ".bz2"; ".lzma"; ""].

(** [extract_deb(archive, dest)]; [extract_archive] is the function it calls
    back for the data tarball. *)
Definition extract_deb
    (extract_archive : string -> string -> bool -> option string -> M (string * string))
    (archive dest : string) : M unit :=
  extract_7zip archive dest (Some "ar") ;;
  let debian_folder := OsPath.join dest "debian" in
  Os.makedirs debian_folder false ;;
  extract_deb_control dest debian_folder control_file_exts ;;
  extract_deb_data extract_archive dest data_file_exts.

(** [_do_extract(archive, dest, opener, mode, extractor)] *)
Definition _do_extract
    (extract_archive : string -> string -> bool -> option string -> M (string * string))
    (archive dest : string) (opener : opener) (mode extractor : option string) : M unit :=
  if opener_is opener "gz" then decompress_gz archive dest
  else if opener_is opener "7zip" then extract_7zip archive dest extractor
  else if opener_is opener "exe" then extract_exe archive dest
  else if opener_is opener "innoextract" then extract_gog archive dest
  else if opener_is opener "deb" then extract_deb extract_archive archive dest
  else if opener_is opener "AppImage" then extract_AppImage archive dest
  else
    match opener with
    | TarfileOpen =>
        handler <- tarfile_open archive mode ;;
        TarFile_extractall handler dest ;;
        TarFile_close handler
    | Tag _ => raise (TypeError "'str' object is not callable")
    end.

(** The body of the merge loop of [extract_archive], for one entry
    [archive_file] of the staged directory [temp_path]. *)
Definition merge_entry (temp_path to_directory archive_file : string) : M unit :=
  let source_path := OsPath.join temp_path archive_file in
  let destination_path := OsPath.join to_directory archive_file in
  present <- System.path_exists destination_path ;;
  if present then
    isfile <- Os.path_isfile destination_path ;;
    if isfile then
      Os.remove destination_path ;;
      Shutil.move source_path destination_path
    else
      isdir <- Os.path_isdir destination_path ;;
      if isdir then
        try_except (merge_folders source_path destination_path)
          (fun ex => match ex with
                     | OSError _ => raise (ExtractError (str_of_exn ex))
                     | _ => raise ex
                     end)
      else ret tt
  else Shutil.move source_path destination_path.

(** [extracted[0]], where [extracted] is bound only when [merge_single]
    held. *)
Definition first_extracted (extracted : option (list string)) : M string :=
  match extracted with
  | None => raise (UnboundLocalError "local variable 'extracted' referenced before assignment")
  | Some [] => raise (IndexError "list index out of range")
  | Some (name :: _) => ret name
  end.

(** What follows the backend in [extract_archive]: the staged content is
    moved into [to_directory] and the staging directory is removed. *)
Definition merge_staged (temp_dir to_directory : string) (merge_single : bool) : M unit :=
  let temp_path := temp_dir in
  extracted <- (if merge_single then l <- Os.listdir temp_path ;; ret (Some l)
                else ret None) ;;
  let temp_path :=
    match extracted with
    | Some [name] => OsPath.join temp_path name
    | _ => temp_path
    end in
  single <- Os.path_isfile temp_path ;;
  if single then
    name <- first_extracted extracted ;;
    let destination_path := OsPath.join to_directory name in
    isfile <- Os.path_isfile destination_path ;;
    (if isfile then Os.remove destination_path else ret tt) ;;
    isdir <- Os.path_isdir destination_path ;;
    (if isdir then
       suffix <- random_id ;;
       Os.rename destination_path (destination_path +:+ suffix)
     else ret tt) ;;
    Shutil.move temp_path to_directory ;;
    Os.removedirs temp_dir
  else
    listing <- Os.listdir temp_path ;;
    for_each listing (merge_entry temp_path to_directory) ;;
    System.delete_folder temp_dir.

(** The first part of [extract_archive], up to and including the call of
    the backend: the path is made absolute, the extractor is guessed when
    none is given, the staging directory is named and the backend is run on
    it.  The value is the absolute path and the staging directory. *)
Definition extract_to_staging
    (extract_archive : string -> string -> bool -> option string -> M (string * string))
    (path to_directory : string) (extractor : option string) : M (string * string) :=
  let path := Os.abspath path in
  let extractor :=
    match extractor with
    | None => guess_extractor path
    | Some _ => extractor
    end in
  let '(opener, mode) := get_archive_opener extractor in
  r <- draw ;;
  let temp_dir := staging_path to_directory r in
  let temp_path := temp_dir in
  try_except
    (_do_extract extract_archive path temp_path opener mode extractor)
    (fun ex =>
       if caught_by_extract_archive ex
       then raise (ExtractError (str_of_exn ex))
       else raise ex) ;;
  ret (path, temp_dir).

(** [extract_archive(path, to_directory, merge_single, extractor)].
    [depth] is the number of nested calls the interpreter still allows; the
    call raises [RecursionError] when none is left. *)
Fixpoint extract_archive (depth : nat) (path to_directory : string)
    (merge_single : bool) (extractor : option string) : M (string * string) :=
  match depth with
  | O => raise (RecursionError "maximum recursion depth exceeded")
  | S depth' =>
      staged <- extract_to_staging (extract_archive depth') path to_directory extractor ;;
      let '(path, temp_dir) := staged in
      merge_staged temp_dir to_directory merge_single ;;
      ret (path, to_directory)
  end.

End Extract.

(** ** Staged content and archives *)

(** What the merge of [extract_archive] moves into the destination when the
    staging directory holds the entries [staged] and [merge_single] is set:
    the entries of the single top-level directory when there is exactly one
    top-level entry and it is a directory, and the staged entries
    themselves otherwise. *)
Definition effective_entries (staged : gmap string node) : gmap string node :=
  match map_to_list staged with
  | [(_, Dir inner)] => inner
  | _ => staged
  end.

(** All the names of a directory are names a listing can return. *)
Definition valid_names (m : gmap string node) : Prop :=
  forall k, is_Some (m !! k) -> Fs.valid_name k = true.

(** The tar library reads the bytes [data] of the file [archive], in mode
    [mode], as the top-level entries [content].  This speaks of a world
    where [archive] is a regular file with these bytes, and of a target
    [dest] that does not exist yet, in a directory that does: there the
    archive opens; for an archive without members [extractall] returns and
    creates nothing; for one with members it makes the directory [dest]
    with these entries; and [close] changes nothing.  What the library does
    when the archive is missing, or on a target that exists, where it adds
    to what is there, is left open. *)
Definition tar_unpacks {TarFile : Type}
    (tarfile_open : string -> option string -> M TarFile)
    (TarFile_extractall : TarFile -> string -> M unit)
    (TarFile_close : TarFile -> M unit)
    (archive : string) (mode : option string) (data : string)
    (content : gmap string node) : Prop :=
  forall w dest,
    Os.stat archive w = Some (File data) ->
    dest <> "" ->
    Os.stat dest w = None ->
    Fs.is_dir (Fs.lookup (List.removelast (Fs.components dest)) (root w)) = true ->
    exists handler,
      tarfile_open archive mode w = (Ok handler, w)
      /\ (content = ∅ ->
          TarFile_extractall handler dest w = (Ok tt, w)
          /\ TarFile_close handler w = (Ok tt, w))
      /\ (content <> ∅ ->
          TarFile_extractall handler dest w = (Ok tt, put_dir dest content w)
          /\ TarFile_close handler (put_dir dest content w)
             = (Ok tt, put_dir dest content w)).

(** The computation [c] leaves the regular file at the path [cp], with the
    bytes [data], as it is, whether it returns or raises. *)
Definition keeps (cp : list string) (data : string) {A} (c : M A) : Prop :=
  forall w, Fs.lookup cp (root w) = Some (File data) ->
            Fs.lookup cp (root (snd (c w))) = Some (File data).

(** The components of the path [p], as [Fs.components] reads them, are not
    the first components of [cp]: what the model does to the entry at [p]
    does not reach the entry at [cp]. *)
Definition clear_of (cp : list string) (p : string) : Prop :=
  ~ (Fs.components p `prefix_of` cp).

(** The file [path] does not lie in the directory [d] or below it.  Both
    paths are canonical, so that their components name the entries the
    system reaches by them, and [d] is neither [path] nor a directory above
    it. *)
Definition away (path d : string) : Prop :=
  Fs.canonical path = true /\ Fs.canonical d = true
  /\ clear_of (Fs.components path) d.

(** ** Concrete environments

    Tools, archives and worlds on which the functions are run in the
    examples below. *)

Module Scenario.

Definition RUNTIME_DIR : string := "/runtime".

(** No executable is found on the [PATH]. *)
Definition no_executable : string -> world -> result string :=
  fun name _ => Raise (MissingExecutableError
                         ("The executable '" +:+ name +:+ "' could not be found.")).

(** Every executable is found in [/usr/bin]. *)
Definition on_path : string -> world -> result string :=
  fun name _ => Ok ("/usr/bin/" +:+ name).

(** Only [7za] is found on the [PATH]. *)
Definition only_7za : string -> world -> result string :=
  fun name w =>
    if String.eqb name "7za" then Ok "/usr/bin/7za" else no_executable name w.

(** A [merge_folders] that fails whenever it is called. *)
Definition merge_refused : string -> string -> M unit :=
  fun _ _ => raise (OSError "merge_folders was called").

(** An archive tool that writes the entries [out] into the directory given
    by its [-o<dir>] argument and exits with [code]; every other command
    exits with [code] and writes nothing. *)
Definition tool (out : gmap string node) (code : Z) : list string -> M Z :=
  fun command w =>
    match command with
    | _ :: "x" :: _ :: o :: _ => (Ok code, put_dir (Str.drop 2 o) out w)
    | _ => (Ok code, w)
    end.

(** A tar archive that opens and unpacks to the entries [content]. *)
Definition tar_open : string -> option string -> M unit := fun _ _ => ret tt.
Definition tar_extractall (content : gmap string node) : unit -> string -> M unit :=
  fun _ dest w =>
    match map_to_list content with
    | [] => (Ok tt, w)
    | _ :: _ => (Ok tt, put_dir dest content w)
    end.
Definition tar_close : unit -> M unit := fun _ => ret tt.

(** A tar archive that cannot be read. *)
Definition tar_open_broken : string -> option string -> M unit :=
  fun _ _ => raise (TarReadError "file could not be opened successfully").

Definition gunzip_stored : string -> result string := fun data => Ok data.

(** A world with a runtime directory holding [7z], a download cache and a
    games directory. *)
Definition world0 : world :=
  World
    (Dir {[ "runtime" := Dir {[ "p7zip" := Dir {[ "7z" := File "ELF" ]} ]};
            "cache" := Dir {[ "data.zip" := File "PK"; "broken.tar.gz" := File "?";
                              "pack.tar" := File "tar"; "setup.exe" := File "MZ" ]};
            "games" := Dir {[ "tools" := Dir {[ "old.txt" := File "old" ]};
                              "readme.txt" := File "version 1" ]} ]})
    (fun k => Z.of_nat k) 0.

(** The entries of [/games] in [world0]. *)
Definition games0 : gmap string node :=
  {[ "tools" := Dir {[ "old.txt" := File "old" ]};
     "readme.txt" := File "version 1" ]}.

(** The world after a backend has put [content] into the staging directory
    [/games/.extract-00000000] (the first identifier drawn in [world0]). *)
Definition staged (content : gmap string node) : world :=
  put_dir "/games/.extract-00000000" content
    (World (root world0) (urandom world0) 1).

(** The extraction of a tar archive with the entries [content] from the
    cache into [/games]. *)
Definition extract_tar (content : gmap string node) (depth : nat)
    : result (string * string) * world :=
  extract_archive RUNTIME_DIR no_executable merge_refused (tool ∅ 0)
    unit tar_open (tar_extractall content) tar_close gunzip_stored
    depth "/cache/pack.tar" "/games" true None world0.

(** A Debian package: the entries of its AR container, and the entries of
    its data tarball, all under one top-level directory [usr]. *)
Definition deb_ar : gmap string node :=
  {[ "debian-binary" := File "2.0";
     "control.tar.gz" := File "control";
     "data.tar.xz" := File "data" ]}.

Definition deb_usr : gmap string node :=
  <[ "bin" := Dir {[ "game" := File "ELF" ]} ]> {[ "share" := Dir ∅ ]}.

Definition deb_data : gmap string node := {[ "usr" := Dir deb_usr ]}.

(** An external tool that writes nothing and exits with [code]. *)
Definition idle_tool (code : Z) : list string -> M Z := fun _ => ret code.

(** [world0] with the archive [pack.tar] lying in [/games] itself. *)
Definition world_pack_in_games : world :=
  put_dir "/games" (<[ "pack.tar" := File "tar" ]> games0) world0.

(** The extraction into [/games] of the tar archive at [path], with the
    entries [content], when the external tools are idle. *)
Definition extract_tar_idle (path : string) (content : gmap string node)
    (depth : nat) (w : world) : result (string * string) * world :=
  extract_archive RUNTIME_DIR no_executable merge_refused (idle_tool 0)
    unit tar_open (tar_extractall content) tar_close gunzip_stored
    depth path "/games" true None w.

(** A gzip codec for the examples: a compressed file is [gz:] followed by
    its bytes; anything else is refused as [gzip.BadGzipFile], an
    [OSError]. *)
Definition gunzip_prefixed : string -> result string :=
  fun data =>
    if Str.startswith data "gz:" then Ok (Str.drop 3 data)
    else Raise (OSError "Not a gzipped file").

(** [world0] with a download cache that holds a gzip file, a file that is
    not one, and an AppImage. *)
Definition world_downloads : world :=
  put_dir "/cache"
    {[ "notes.txt.gz" := File "gz:hello"; "broken.gz" := File "junk";
       "Game.AppImage" := File "ELF" ]}
    world0.

(** [world0] with an [innoextract] in the runtime directory. *)
Definition world_inno : world :=
  put_dir "/runtime"
    {[ "p7zip" := Dir {[ "7z" := File "ELF" ]};
       "innoextract-1.9" := Dir {[ "innoextract" := File "ELF" ]} ]}
    world0.

(** A world whose root directory is empty. *)
Definition world_empty : world := World (Dir ∅) (fun k => Z.of_nat k) 0.

(** A process whose output is the listing of a setup file with two
    entries, one per line. *)
Definition listing_output : list string -> M string :=
  fun _ => ret (" - app/game.exe" +:+ String "010" (" - app/data.pak" +:+ String "010" "")).

End Scenario.

(** * Properties *)

(** ** Strings *)

Module StrFacts.

Lemma length_app (a b : string) :
  String.length (a +:+ b) = String.length a + String.length b.
Proof. induction a as [|c a IH]; simpl; [reflexivity | now rewrite IH]. Qed.

Lemma app_assoc (a b c : string) : (a +:+ b) +:+ c = a +:+ (b +:+ c).
Proof. induction a as [|x a IH]; simpl; [reflexivity | now rewrite IH]. Qed.

Lemma app_nil_r (a : string) : a +:+ "" = a.
Proof. induction a as [|x a IH]; simpl; [reflexivity | now rewrite IH]. Qed.

Lemma drop_length_app (p t : string) : Str.drop (String.length p) (p +:+ t) = t.
Proof. induction p as [|c p IH]; simpl; [now destruct t | exact IH]. Qed.

Lemma take_length_app (p t : string) : Str.take (String.length p) (p +:+ t) = p.
Proof. induction p as [|c p IH]; simpl; [now destruct t | now rewrite IH]. Qed.

Lemma take_drop (n : nat) (s : string) : Str.take n s +:+ Str.drop n s = s.
Proof.
  revert s; induction n as [|n IH]; intros [|c s]; simpl; try reflexivity.
  now rewrite IH.
Qed.

Lemma length_take (n : nat) (s : string) :
  n <= String.length s -> String.length (Str.take n s) = n.
Proof.
  revert s; induction n as [|n IH]; intros [|c s]; simpl; intros H; try lia.
  rewrite IH; lia.
Qed.

(** Two ways to cut one string: the shorter suffix is a suffix of the
    longer one. *)
Lemma app_eq_suffix (p s q t : string) :
  p +:+ s = q +:+ t -> String.length t <= String.length s ->
  exists e, s = e +:+ t.
Proof.
  revert q; induction p as [|c p IH]; intros q Heq Hlen; simpl in Heq.
  - now exists q.
  - destruct q as [|c' q]; simpl in Heq.
    + apply (f_equal String.length) in Heq. simpl in Heq.
      rewrite length_app in Heq. lia.
    + injection Heq as _ Heq. now apply (IH q).
Qed.

Lemma endswith_spec (s suf : string) :
  Str.endswith s suf = true <-> exists p, s = p +:+ suf.
Proof.
  unfold Str.endswith. rewrite andb_true_iff, Nat.leb_le, String.eqb_eq. split.
  - intros [_ H]. set (k := String.length s - String.length suf) in H.
    exists (Str.take k s). rewrite <- (take_drop k s) at 1. now rewrite H.
  - intros [p ->]. rewrite length_app. split; [lia|].
    replace (String.length p + String.length suf - String.length suf)
      with (String.length p) by lia.
    apply drop_length_app.
Qed.

Lemma endswith_app (stem suf : string) : Str.endswith (stem +:+ suf) suf = true.
Proof. apply endswith_spec. now exists stem. Qed.

(** A suffix no longer than the known ending is decided on that ending. *)
Lemma endswith_app_short (stem suf t : string) :
  String.length t <= String.length suf ->
  Str.endswith (stem +:+ suf) t = Str.endswith suf t.
Proof.
  intros Hlen. apply Bool.eq_iff_eq_true. rewrite !endswith_spec. split.
  - intros [q Hq]. now apply (app_eq_suffix stem suf q t).
  - intros [e ->]. exists (stem +:+ e). now rewrite app_assoc.
Qed.

(** A longer suffix that does not itself end with the known ending cannot
    match. *)
Lemma endswith_app_long (stem suf t : string) :
  String.length suf <= String.length t ->
  Str.endswith t suf = false ->
  Str.endswith (stem +:+ suf) t = false.
Proof.
  intros Hlen Hno. apply Bool.not_true_iff_false. intros H.
  apply endswith_spec in H as [q Hq]. symmetry in Hq.
  apply app_eq_suffix in Hq as [e He]; [|exact Hlen].
  assert (Str.endswith t suf = true) by (apply endswith_spec; now exists e).
  congruence.
Qed.

End StrFacts.

(** Decide [endswith] on a path whose ending is known. *)
Ltac endswith_known :=
  repeat match goal with
    | |- context [Str.endswith (?stem +:+ ?suf) ?t] =>
        first
          [ rewrite (StrFacts.endswith_app_short stem suf t) by (simpl; lia)
          | rewrite (StrFacts.endswith_app_long stem suf t)
              by (first [ simpl; lia | reflexivity ]) ]
    end.

(** ** Format detection *)

(** C3.  [guess_extractor] follows the documented suffix table: a path that
    ends with a suffix of the table gets the kind documented for it (for the
    bare [.gz], when the path does not end with [.tar.gz], which comes
    first and yields [tgz]); a path that ends with none of the suffixes gets
    [None]. *)
Theorem guess_extractor_documented_table :
  (forall stem suffix kind,
      In (suffix, kind) documented_suffixes -> suffix <> ".gz" ->
      guess_extractor (stem +:+ suffix) = Some kind)
  /\ (forall stem, guess_extractor (stem +:+ ".tar.gz") = Some "tgz")
  /\ (forall path,
        Str.endswith path ".gz" = true -> Str.endswith path ".tar.gz" = false ->
        guess_extractor path = Some "gzip")
  /\ (forall path,
        (forall suffix kind,
            In (suffix, kind) documented_suffixes ->
            Str.endswith path suffix = false) ->
        guess_extractor path = None).
Proof.
  split; [|split; [|split]].
  - intros stem suffix kind Hin Hgz. simpl in Hin.
    repeat (destruct Hin as [Hin|Hin];
            [ injection Hin as <- <-; try congruence;
              unfold guess_extractor, Str.endswith_any; simpl existsb;
              endswith_known; reflexivity | ]).
    destruct Hin.
  - intros stem. unfold guess_extractor, Str.endswith_any; simpl existsb.
    endswith_known. reflexivity.
  - intros path Hgz Htgz.
    apply StrFacts.endswith_spec in Hgz as [stem ->].
    unfold guess_extractor, Str.endswith_any; simpl existsb.
    rewrite Htgz. endswith_known. reflexivity.
  - intros path H.
    unfold guess_extractor, Str.endswith_any; simpl existsb.
    repeat (erewrite H by (simpl; repeat (first [left; reflexivity | right]))).
    reflexivity.
Qed.

(** The table applied to three paths, and a path outside the table. *)
Lemma guess_extractor_documented_table_witness :
  guess_extractor ("/cache/game" +:+ ".tar.xz") = Some "txz"
  /\ guess_extractor "/cache/notes.gz" = Some "gzip"
  /\ guess_extractor "/cache/game.zip" = None.
Proof.
  destruct guess_extractor_documented_table as (Htable & _ & Hgz & Hnone).
  split; [|split].
  - apply Htable; [simpl; tauto | discriminate].
  - apply Hgz; reflexivity.
  - apply Hnone. intros suffix kind Hin. simpl in Hin.
    repeat (destruct Hin as [Hin|Hin]; [injection Hin as <- <-; reflexivity|]).
    destruct Hin.
Defined.

(** What [is_7zip_supported] returns in each of its three cases. *)
Lemma is_7zip_supported_cases (path : string) (extractor : option string) :
  let ext := snd (OsPath.splitext path) in
  is_7zip_supported path extractor =
    if truthy extractor
    then Some (Str.mem (Str.lower (default "" extractor)) supported_extractors)
    else if String.eqb ext "" then None
    else Some (Str.mem (Str.lower (Str.lstrip "."%char ext)) supported_extractors).
Proof.
  unfold is_7zip_supported. simpl.
  destruct (truthy extractor); [reflexivity|].
  now destruct (String.eqb (snd (OsPath.splitext path)) "").
Qed.

(** C9.  Without a hint and for a path without extension,
    [is_7zip_supported] reaches its end without a [return]: the value is
    [None], not [False].  With a hint or an extension it does return the
    boolean of the membership test. *)
Theorem is_7zip_supported_no_extension :
  is_7zip_supported "README" None = None
  /\ is_7zip_supported "/cache/.hidden" (Some "") = None
  /\ is_7zip_supported "README" (Some "ZIP") = Some true
  /\ is_7zip_supported "/cache/game.RaR" None = Some true
  /\ is_7zip_supported "/cache/game.tar.gz" None = Some false.
Proof. repeat split; reflexivity. Qed.

(** ** Random identifiers and the staging path *)

Module UuidFacts.

Lemma hex_digit_lower (d : Z) : is_lower_hex (Uuid.hex_digit d) = true.
Proof.
  destruct d as [|p|p]; [reflexivity| |reflexivity].
  do 4 (destruct p as [p|p|]; try reflexivity).
Qed.

Lemma length_hex_fixed (w : nat) (n : Z) : String.length (Uuid.hex_fixed w n) = w.
Proof. induction w as [|w IH]; simpl; [reflexivity | now rewrite IH]. Qed.

Lemma hex_fixed_lower (w : nat) (n : Z) :
  string_forallb is_lower_hex (Uuid.hex_fixed w n) = true.
Proof.
  induction w as [|w IH]; [reflexivity|].
  change (Uuid.hex_fixed (S w) n)
    with (String (Uuid.hex_digit ((n / 16 ^ Z.of_nat w) mod 16)%Z) (Uuid.hex_fixed w n)).
  simpl string_forallb. now rewrite hex_digit_lower, IH.
Qed.

Lemma forallb_take (f : ascii -> bool) (n : nat) (s : string) :
  string_forallb f s = true -> string_forallb f (Str.take n s) = true.
Proof.
  revert s; induction n as [|n IH]; intros [|c s]; simpl; try reflexivity.
  rewrite !andb_true_iff. intros [? ?]. split; [assumption | now apply IH].
Qed.

Lemma random_id_of_eq (r : Z) :
  random_id_of r = Str.take 8 (Uuid.hex_fixed 32 (Uuid.uuid4 r)).
Proof.
  unfold random_id_of, Uuid.str.
  set (hex := Uuid.hex_fixed 32 (Uuid.uuid4 r)).
  assert (Hlen : String.length (Str.take 8 hex) = 8).
  { apply StrFacts.length_take. unfold hex. rewrite length_hex_fixed. lia. }
  rewrite <- Hlen at 1. apply StrFacts.take_length_app.
Qed.

Lemma length_random_id_of (r : Z) : String.length (random_id_of r) = 8.
Proof.
  rewrite random_id_of_eq. apply StrFacts.length_take.
  rewrite length_hex_fixed. lia.
Qed.

Lemma random_id_of_lower_hex (r : Z) :
  string_forallb is_lower_hex (random_id_of r) = true.
Proof. rewrite random_id_of_eq. apply forallb_take, hex_fixed_lower. Qed.

End UuidFacts.

(** ** Paths *)

Module PathFacts.

Import Fs (slash_free).

Lemma valid_name_spec (n : string) :
  Fs.valid_name n = true <-> n <> "" /\ slash_free n = true.
Proof.
  unfold Fs.valid_name.
  rewrite andb_true_iff, negb_true_iff, String.eqb_neq. reflexivity.
Qed.

Lemma slash_free_app (a b : string) :
  slash_free (a +:+ b) = slash_free a && slash_free b.
Proof.
  unfold slash_free. induction a as [|c a IH]; simpl; [reflexivity|].
  now rewrite IH, andb_assoc.
Qed.

Lemma lower_hex_slash_free (s : string) :
  string_forallb is_lower_hex s = true -> slash_free s = true.
Proof.
  unfold slash_free. induction s as [|c s IH]; simpl; [reflexivity|].
  rewrite !andb_true_iff. intros [Hc Hs]. split; [|now apply IH].
  destruct (Ascii.eqb_spec c "/") as [->|]; [discriminate Hc | reflexivity].
Qed.

Lemma valid_name_app (n s : string) :
  Fs.valid_name n = true -> slash_free s = true -> Fs.valid_name (n +:+ s) = true.
Proof.
  rewrite !valid_name_spec, slash_free_app. intros [Hn Hf] Hs. split.
  - destruct n; [congruence | discriminate].
  - now rewrite Hf, Hs.
Qed.

Lemma split_slash_nonempty (s : string) : Fs.split_slash s <> [].
Proof.
  induction s as [|c s IH]; simpl; [discriminate|].
  destruct (Ascii.eqb c "/"); [discriminate|].
  destruct (Fs.split_slash s); [contradiction | discriminate].
Qed.

Lemma split_slash_slash_free (n : string) :
  slash_free n = true -> Fs.split_slash n = [n].
Proof.
  unfold slash_free. induction n as [|c n IH]; simpl; [reflexivity|].
  rewrite andb_true_iff, negb_true_iff. intros [-> Hn]. now rewrite IH.
Qed.

Lemma split_slash_app (a b : string) :
  Fs.split_slash (a +:+ String "/" b) = (Fs.split_slash a ++ Fs.split_slash b)%list.
Proof.
  induction a as [|c a IH]; simpl; [reflexivity|]. rewrite IH.
  destruct (Ascii.eqb c "/"); [reflexivity|].
  pose proof (split_slash_nonempty a).
  destruct (Fs.split_slash a); [contradiction | reflexivity].
Qed.

Lemma components_app (a b : string) :
  Fs.components (a +:+ String "/" b) = (Fs.components a ++ Fs.components b)%list.
Proof. unfold Fs.components. now rewrite split_slash_app, List.filter_app. Qed.

Lemma components_valid (n : string) :
  Fs.valid_name n = true -> Fs.components n = [n].
Proof.
  intros [Hn Hf]%valid_name_spec. unfold Fs.components.
  rewrite split_slash_slash_free by assumption. simpl.
  apply String.eqb_neq in Hn. now rewrite Hn.
Qed.

Lemma startswith_slash_cons (c : ascii) (n : string) :
  Str.startswith (String c n) "/" = Ascii.eqb c "/".
Proof.
  change (Str.startswith (String c n) "/")
    with (if Ascii.eqb "/" c then Str.startswith n "" else false).
  rewrite (Ascii.eqb_sym "/" c).
  destruct (Ascii.eqb c "/"); [now destruct n | reflexivity].
Qed.

Lemma startswith_slash_valid (n : string) :
  Fs.valid_name n = true -> Str.startswith n "/" = false.
Proof.
  intros [Hn Hf]%valid_name_spec. destruct n as [|c n]; [congruence|].
  unfold slash_free in Hf.
  change (negb (Ascii.eqb c "/")
          && string_forallb (fun c => negb (Ascii.eqb c "/")) n = true) in Hf.
  apply andb_true_iff in Hf as [Hc _]. apply negb_true_iff in Hc.
  now rewrite startswith_slash_cons.
Qed.

(** The three shapes of [join a n] for an entry name [n]. *)
Lemma join_cases (a n : string) :
  Fs.valid_name n = true ->
  (a = "" /\ OsPath.join a n = n)
  \/ (exists a', a = a' +:+ "/" /\ OsPath.join a n = a' +:+ String "/" n)
  \/ (a <> "" /\ Str.endswith a "/" = false /\ OsPath.join a n = a +:+ String "/" n).
Proof.
  intros Hn. unfold OsPath.join. rewrite (startswith_slash_valid n Hn).
  destruct (String.eqb_spec a "") as [->|Ha]; simpl orb.
  - now left.
  - destruct (Str.endswith a "/") eqn:He.
    + right; left. apply StrFacts.endswith_spec in He as [a' ->].
      exists a'. split; [reflexivity|]. now rewrite StrFacts.app_assoc.
    + right; right. auto.
Qed.

Lemma components_join (a n : string) :
  Fs.valid_name n = true ->
  Fs.components (OsPath.join a n) = (Fs.components a ++ [n])%list.
Proof.
  intros Hn.
  destruct (join_cases a n Hn) as [[-> ->]|[(a' & -> & ->)|(_ & _ & ->)]].
  - now rewrite components_valid.
  - rewrite !components_app, (components_valid n) by assumption.
    change (Fs.components "") with (@nil string). now rewrite List.app_nil_r.
  - now rewrite components_app, (components_valid n).
Qed.

Lemma join_nonempty (a n : string) : n <> "" -> OsPath.join a n <> "".
Proof.
  intros Hn. unfold OsPath.join.
  destruct (Str.startswith n "/"); [assumption|].
  destruct (String.eqb a "" || Str.endswith a "/").
  - destruct a; simpl; [assumption | discriminate].
  - destruct a; simpl; discriminate.
Qed.

Lemma resolve_join (a n : string) :
  Fs.valid_name n = true ->
  Fs.resolve (OsPath.join a n) = Some (Fs.components a ++ [n])%list.
Proof.
  intros Hn. unfold Fs.resolve.
  pose proof (proj1 (valid_name_spec n) Hn) as [Hne _].
  apply (join_nonempty a) in Hne. apply String.eqb_neq in Hne.
  now rewrite Hne, components_join.
Qed.

(** Appending to the last component. *)
Lemma join_app (a n s : string) :
  n <> "" -> OsPath.join a n +:+ s = OsPath.join a (n +:+ s).
Proof.
  intros Hn. unfold OsPath.join.
  destruct n as [|c n]; [congruence|].
  change (String c n +:+ s) with (String c (n +:+ s)).
  rewrite !startswith_slash_cons.
  destruct (Ascii.eqb c "/"); [reflexivity|].
  destruct (String.eqb a "" || Str.endswith a "/");
    now rewrite ?StrFacts.app_assoc.
Qed.

Lemma rfind_from_slash_free (i : Z) (t : string) :
  slash_free t = true -> Str.rfind_from i "/" t = (-1)%Z.
Proof.
  unfold slash_free. revert i; induction t as [|c t IH]; intros i Hf; [reflexivity|].
  cbn [string_forallb] in Hf. apply andb_true_iff in Hf as [Hc Hf].
  apply negb_true_iff in Hc. cbn [Str.rfind_from].
  rewrite (IH _ Hf), Hc. reflexivity.
Qed.

Lemma rfind_from_app (i : Z) (a t : string) :
  (0 <= i)%Z -> slash_free t = true ->
  Str.rfind_from i "/" (a +:+ String "/" t) = (i + Z.of_nat (String.length a))%Z.
Proof.
  revert i; induction a as [|c a IH]; intros i Hi Hf.
  - change ("" +:+ String "/" t) with (String "/" t). cbn [Str.rfind_from].
    rewrite (rfind_from_slash_free _ _ Hf), Ascii.eqb_refl. simpl. lia.
  - change (String c a +:+ String "/" t) with (String c (a +:+ String "/" t)).
    cbn [Str.rfind_from String.length]. rewrite IH by (assumption || lia).
    destruct (Z.leb_spec 0 (i + 1 + Z.of_nat (String.length a))); lia.
Qed.

Lemma split_slash_cons (c : ascii) (s : string) :
  Fs.split_slash (String c s)
  = if Ascii.eqb c "/" then "" :: Fs.split_slash s
    else match Fs.split_slash s with
         | w :: ws => String c w :: ws
         | [] => [String c ""]
         end.
Proof. reflexivity. Qed.

Lemma split_slash_rstrip (s : string) :
  exists k, Fs.split_slash s
            = (Fs.split_slash (Str.rstrip "/" s) ++ List.repeat "" k)%list.
Proof.
  induction s as [|c s [k IH]]; [now exists 0|].
  rewrite split_slash_cons, IH. cbn [Str.rstrip].
  pose proof (split_slash_nonempty (Str.rstrip "/" s)) as Hne.
  destruct (Ascii.eqb c "/") eqn:Hc.
  - destruct (Str.rstrip "/" s) as [|d r] eqn:Hr.
    + exists (S k). reflexivity.
    + exists k. rewrite (split_slash_cons c), Hc. reflexivity.
  - destruct (Str.rstrip "/" s) as [|d r] eqn:Hr.
    + exists k. rewrite (split_slash_cons c ""), Hc. reflexivity.
    + exists k. rewrite (split_slash_cons c (String d r)), Hc.
      destruct (Fs.split_slash (String d r)); [contradiction | reflexivity].
Qed.

Lemma components_rstrip (s : string) :
  Fs.components (Str.rstrip "/" s) = Fs.components s.
Proof.
  unfold Fs.components. destruct (split_slash_rstrip s) as [k ->].
  rewrite List.filter_app.
  assert (H : List.filter (fun w => negb (String.eqb w "")) (List.repeat "" k) = [])
    by (induction k; [reflexivity | assumption]).
  now rewrite H, List.app_nil_r.
Qed.

(** [split] takes an entry name off a path, and the head that is left
    resolves to the same directory. *)
Lemma split_app_name (b n : string) :
  slash_free n = true ->
  exists h, OsPath.split (b +:+ String "/" n) = (h, n)
            /\ Fs.components h = Fs.components (b +:+ "/").
Proof.
  intros Hf. unfold OsPath.split, Str.rfind, OsPath.sep.
  rewrite rfind_from_app by (assumption || lia).
  replace (Z.to_nat (0 + Z.of_nat (String.length b) + 1))
    with (String.length (b +:+ "/")) by (rewrite StrFacts.length_app; simpl; lia).
  replace (b +:+ String "/" n) with ((b +:+ "/") +:+ n)
    by (now rewrite StrFacts.app_assoc).
  rewrite StrFacts.take_length_app, StrFacts.drop_length_app.
  eexists. split; [reflexivity|].
  destruct (String.eqb (Str.rstrip "/" (b +:+ "/")) ""); [reflexivity|].
  apply components_rstrip.
Qed.

Lemma split_join (a n : string) :
  Fs.valid_name n = true ->
  exists h, OsPath.split (OsPath.join a n) = (h, n)
            /\ Fs.components h = Fs.components a.
Proof.
  intros Hn. pose proof (proj1 (valid_name_spec n) Hn) as [Hne Hf].
  destruct (join_cases a n Hn) as [[-> ->]|[(a' & -> & ->)|(_ & _ & ->)]].
  - exists "". split; [|reflexivity].
    unfold OsPath.split, Str.rfind, OsPath.sep.
    rewrite rfind_from_slash_free by assumption. reflexivity.
  - apply split_app_name; assumption.
  - destruct (split_app_name a n Hf) as (h & Hs & Hc). exists h. split; [assumption|].
    rewrite Hc, components_app. change (Fs.components "") with (@nil string).
    now rewrite List.app_nil_r.
Qed.

Lemma basename_join (a n : string) :
  Fs.valid_name n = true -> OsPath.basename (OsPath.join a n) = n.
Proof.
  intros Hn. destruct (split_join a n Hn) as (h & Hs & _).
  unfold OsPath.split in Hs. now injection Hs.
Qed.

End PathFacts.

Lemma staging_name_valid (r : Z) :
  Fs.valid_name (".extract-" +:+ random_id_of r) = true.
Proof.
  apply PathFacts.valid_name_app; [reflexivity|].
  apply PathFacts.lower_hex_slash_free, UuidFacts.random_id_of_lower_hex.
Qed.

(** C2, as stated, fails: for the destination [/home/user/games] the staging
    directory is [/home/user/games/.extract-00000000]; its parent is the
    destination itself, not the parent [/home/user] of the destination. *)
Lemma staging_path_not_in_parent :
  staging_path "/home/user/games" 0 = "/home/user/games/.extract-00000000"
  /\ OsPath.dirname (staging_path "/home/user/games" 0) = "/home/user/games"
  /\ OsPath.dirname "/home/user/games" = "/home/user"
  /\ OsPath.dirname (staging_path "/home/user/games" 0)
     <> OsPath.dirname "/home/user/games".
Proof. repeat split; try reflexivity. vm_compute. discriminate. Qed.

(** C2, amended.  The staging directory is an entry of the destination
    directory itself: its path is [to_directory] joined with a name made of
    [.extract-] and exactly 8 lowercase hexadecimal characters, and it
    resolves to the components of [to_directory] followed by that name. *)
Theorem staging_path_inside_destination (to_directory : string) (r : Z) :
  let name := ".extract-" +:+ random_id_of r in
  staging_path to_directory r = OsPath.join to_directory name
  /\ String.length (random_id_of r) = 8
  /\ string_forallb is_lower_hex (random_id_of r) = true
  /\ OsPath.basename (staging_path to_directory r) = name
  /\ Fs.components (staging_path to_directory r)
     = (Fs.components to_directory ++ [name])%list.
Proof.
  intros name. pose proof (staging_name_valid r) as Hv.
  split; [reflexivity|]. split; [apply UuidFacts.length_random_id_of|].
  split; [apply UuidFacts.random_id_of_lower_hex|]. split.
  - now apply PathFacts.basename_join.
  - now apply PathFacts.components_join.
Qed.

(** ** The file-system tree *)

Module FsFacts.

Lemma lookup_app (p q : list string) (n : node) :
  Fs.lookup (p ++ q)%list n
  = match Fs.lookup p n with Some d => Fs.lookup q d | None => None end.
Proof.
  revert n; induction p as [|c p IH]; intros n; [reflexivity|].
  simpl. destruct n as [|m]; [reflexivity|].
  destruct (m !! c); [apply IH | reflexivity].
Qed.

Lemma put_cons (c : string) (p : list string) (x : node) (m : gmap string node) :
  Fs.put (c :: p) x (Dir m)
  = match p, m !! c with
    | [], _ => Dir (<[c := x]> m)
    | _, Some n' => Dir (<[c := Fs.put p x n']> m)
    | _, None => Dir m
    end.
Proof. reflexivity. Qed.

Lemma del_cons (c : string) (p : list string) (m : gmap string node) :
  Fs.del (c :: p) (Dir m)
  = match p, m !! c with
    | [], _ => Dir (delete c m)
    | _, Some n' => Dir (<[c := Fs.del p n']> m)
    | _, None => Dir m
    end.
Proof. reflexivity. Qed.

(** An update below an existing path is an update of what is there. *)
Lemma put_app (p q : list string) (x d r : node) :
  Fs.lookup p r = Some d ->
  Fs.put (p ++ q)%list x r = Fs.put p (Fs.put q x d) r.
Proof.
  revert r; induction p as [|c p IH]; intros r Hl.
  - simpl in Hl. injection Hl as ->. reflexivity.
  - destruct r as [|m]; [discriminate|]. simpl in Hl.
    destruct (m !! c) as [n'|] eqn:Hc; [|discriminate].
    change ((c :: p) ++ q)%list with (c :: (p ++ q))%list.
    rewrite !put_cons, Hc. specialize (IH n' Hl).
    destruct p as [|c' p].
    + simpl in Hl. injection Hl as ->. simpl app.
      destruct q; [reflexivity|]. reflexivity.
    + simpl app in *. now rewrite IH.
Qed.

Lemma del_app (p q : list string) (d r : node) :
  Fs.lookup p r = Some d -> q <> [] ->
  Fs.del (p ++ q)%list r = Fs.put p (Fs.del q d) r.
Proof.
  revert r; induction p as [|c p IH]; intros r Hl Hq.
  - simpl in Hl. injection Hl as ->. reflexivity.
  - destruct r as [|m]; [discriminate|]. simpl in Hl.
    destruct (m !! c) as [n'|] eqn:Hc; [|discriminate].
    change ((c :: p) ++ q)%list with (c :: (p ++ q))%list.
    rewrite del_cons, put_cons, Hc. specialize (IH n' Hl Hq).
    destruct p as [|c' p].
    + simpl in Hl. injection Hl as ->. simpl app.
      destruct q; [contradiction | reflexivity].
    + simpl app in *. now rewrite IH.
Qed.

Lemma lookup_put_eq (p : list string) (x r : node) :
  is_Some (Fs.lookup p r) -> Fs.lookup p (Fs.put p x r) = Some x.
Proof.
  revert r; induction p as [|c p IH]; intros r [d Hl]; [reflexivity|].
  destruct r as [|m]; [discriminate|]. simpl in Hl.
  destruct (m !! c) as [n'|] eqn:Hc; [|discriminate].
  rewrite put_cons, Hc. destruct p as [|c' p].
  - simpl. now rewrite lookup_insert_eq.
  - cbn [Fs.lookup]. rewrite lookup_insert_eq. apply IH. now exists d.
Qed.

Lemma put_put (p : list string) (x y r : node) :
  Fs.put p x (Fs.put p y r) = Fs.put p x r.
Proof.
  revert r; induction p as [|c p IH]; intros r; [reflexivity|].
  destruct r as [|m]; [reflexivity|].
  rewrite (put_cons c p y). destruct p as [|c' p].
  - rewrite !put_cons. now rewrite insert_insert_eq.
  - destruct (m !! c) as [n'|] eqn:Hc.
    + rewrite !put_cons, lookup_insert_eq, Hc, IH. now rewrite insert_insert_eq.
    + reflexivity.
Qed.

Lemma put_id (p : list string) (d r : node) :
  Fs.lookup p r = Some d -> Fs.put p d r = r.
Proof.
  revert r; induction p as [|c p IH]; intros r Hl.
  - simpl in Hl. now injection Hl as ->.
  - destruct r as [|m]; [discriminate|]. simpl in Hl.
    destruct (m !! c) as [n'|] eqn:Hc; [|discriminate].
    rewrite put_cons, Hc. destruct p as [|c' p].
    + simpl in Hl. injection Hl as ->. now rewrite insert_id.
    + rewrite (IH n' Hl). now rewrite insert_id.
Qed.

Lemma mkdirs_app (p q : list string) (d r : node) :
  Fs.lookup p r = Some d ->
  Fs.mkdirs (p ++ q)%list r
  = match Fs.mkdirs q d with Some d' => Some (Fs.put p d' r) | None => None end.
Proof.
  revert r; induction p as [|c p IH]; intros r Hl.
  - simpl in Hl. injection Hl as ->. simpl. now destruct (Fs.mkdirs q d).
  - destruct r as [|m]; [discriminate|]. simpl in Hl.
    destruct (m !! c) as [n'|] eqn:Hc; [|discriminate].
    change ((c :: p) ++ q)%list with (c :: (p ++ q))%list.
    cbn [Fs.mkdirs]. rewrite Hc. simpl default. rewrite (IH n' Hl).
    destruct (Fs.mkdirs q d) as [d'|]; [|reflexivity].
    rewrite put_cons, Hc. destruct p as [|c' p]; [|reflexivity].
    simpl in Hl. injection Hl as ->. reflexivity.
Qed.

Lemma del_is_dir (p : list string) (m : gmap string node) :
  Fs.del p (Dir m) = Dir (Fs.entries (Fs.del p (Dir m))).
Proof.
  destruct p as [|c p]; [reflexivity|]. rewrite del_cons.
  destruct p; destruct (m !! c); reflexivity.
Qed.

Lemma lookup_del_same (p : list string) (r : node) :
  p <> [] -> Fs.lookup p (Fs.del p r) = None.
Proof.
  revert r; induction p as [|c p IH]; intros r Hp; [congruence|].
  destruct r as [|m]; [reflexivity|]. rewrite del_cons.
  destruct p as [|c' p].
  - simpl. now rewrite lookup_delete_eq.
  - destruct (m !! c) as [n'|] eqn:Hc.
    + cbn [Fs.lookup]. rewrite lookup_insert_eq. now apply IH.
    + cbn [Fs.lookup]. now rewrite Hc.
Qed.

Lemma lookup_del_head_ne (k c : string) (l p : list string) (m : gmap string node) :
  k <> c -> Fs.lookup (k :: l) (Fs.del (c :: p) (Dir m)) = Fs.lookup (k :: l) (Dir m).
Proof.
  intros Hk. rewrite del_cons.
  destruct p; destruct (m !! c); cbn [Fs.lookup];
    rewrite ?lookup_delete_ne, ?lookup_insert_ne by congruence; reflexivity.
Qed.

Lemma lookup_cons_delete_ne (k c : string) (l : list string) (m : gmap string node) :
  k <> c -> Fs.lookup (k :: l) (Dir (delete c m)) = Fs.lookup (k :: l) (Dir m).
Proof. intros Hk. cbn [Fs.lookup]. now rewrite lookup_delete_ne by congruence. Qed.

Lemma lookup_cons_insert_ne (k c : string) (l : list string) (x : node)
    (m : gmap string node) :
  k <> c -> Fs.lookup (k :: l) (Dir (<[c := x]> m)) = Fs.lookup (k :: l) (Dir m).
Proof. intros Hk. cbn [Fs.lookup]. now rewrite lookup_insert_ne by congruence. Qed.

Lemma lookup_del_child (q : list string) (n : string) (ms : gmap string node)
    (r : node) :
  Fs.lookup q r = Some (Dir ms) ->
  Fs.lookup q (Fs.del (q ++ [n]) r) = Some (Dir (delete n ms)).
Proof.
  intros Hl. rewrite (del_app q [n] (Dir ms) r Hl) by discriminate.
  simpl. apply lookup_put_eq. rewrite Hl. now eexists.
Qed.

Lemma lookup_head_is_dir (t : string) (q : list string) (m ms : gmap string node) :
  Fs.lookup (t :: q) (Dir m) = Some (Dir ms) -> exists mt, m !! t = Some (Dir mt).
Proof.
  simpl. destruct (m !! t) as [[data|mt]|]; [|now eexists|discriminate].
  destruct q; discriminate.
Qed.

End FsFacts.

(** ** The monad *)

Module MFacts.

Lemma bind_ok {A B} (c : M A) (k : A -> M B) (w w' : world) (a : A) :
  c w = (Ok a, w') -> bind c k w = k a w'.
Proof. unfold bind. now intros ->. Qed.

Lemma bind_raise {A B} (c : M A) (k : A -> M B) (w w' : world) (e : exn) :
  c w = (Raise e, w') -> bind c k w = (Raise e, w').
Proof. unfold bind. now intros ->. Qed.

Lemma bind_gets {A B} (f : world -> A) (k : A -> M B) (w : world) :
  bind (gets f) k w = k (f w) w.
Proof. reflexivity. Qed.

Lemma bind_ret {A B} (a : A) (k : A -> M B) (w : world) :
  bind (ret a) k w = k a w.
Proof. reflexivity. Qed.

(** Running a sequence: the first computation, then the rest. *)
Lemma bind_eq {A B} (c : M A) (k : A -> M B) (w w' : world) (a : A)
    (r : result B * world) :
  c w = (Ok a, w') -> k a w' = r -> bind c k w = r.
Proof. unfold bind. now intros -> <-. Qed.

Lemma world_eta (w : world) : World (root w) (urandom w) (drawn w) = w.
Proof. now destruct w. Qed.

End MFacts.

(** ** The [os] calls on the entries of one directory *)

Module OsFacts.

Lemma names_spec (m : gmap string node) (n : string) :
  In n (Fs.names m) <-> Fs.valid_name n = true /\ is_Some (m !! n).
Proof.
  unfold Fs.names. rewrite List.filter_In, <- list_elem_of_In, list_elem_of_fmap.
  split.
  - intros [((k & x) & -> & Hin) Hv]. split; [assumption|].
    apply elem_of_map_to_list in Hin. now exists x.
  - intros [Hv [x Hx]]. split; [|assumption].
    exists (n, x). split; [reflexivity|]. now apply elem_of_map_to_list.
Qed.

Lemma names_singleton (n : string) (x : node) :
  Fs.valid_name n = true -> Fs.names {[ n := x ]} = [n].
Proof.
  intros Hv. unfold Fs.names. rewrite map_to_list_singleton. simpl. now rewrite Hv.
Qed.

Lemma not_empty_dir (m : gmap string node) (n : string) :
  Fs.valid_name n = true -> is_Some (m !! n) -> Os.is_empty_dir m = false.
Proof.
  intros Hv Hs. unfold Os.is_empty_dir.
  assert (Hin : In n (Fs.names m)) by (apply names_spec; auto).
  now destruct (Fs.names m).
Qed.

Lemma empty_dir_empty : Os.is_empty_dir ∅ = true.
Proof. unfold Os.is_empty_dir, Fs.names. now rewrite map_to_list_empty. Qed.

Section Under.

(** A directory [D] of the world [w], with its entries [md]. *)
Variables (D : string) (w : world) (md : gmap string node).
Hypothesis HD : Os.stat D w = Some (Dir md).

Lemma resolve_dir : Fs.resolve D = Some (Fs.components D).
Proof.
  unfold Os.stat, Fs.resolve in *. now destruct (String.eqb D "").
Qed.

Lemma lookup_dir : Fs.lookup (Fs.components D) (root w) = Some (Dir md).
Proof. unfold Os.stat in HD. now rewrite resolve_dir in HD. Qed.

Lemma lookup_join (n : string) :
  Fs.valid_name n = true ->
  Fs.lookup (Fs.components D ++ [n]) (root w) = md !! n.
Proof.
  intros Hn. rewrite FsFacts.lookup_app, lookup_dir. simpl.
  now destruct (md !! n).
Qed.

Lemma stat_join (n : string) :
  Fs.valid_name n = true -> Os.stat (OsPath.join D n) w = md !! n.
Proof.
  intros Hn. unfold Os.stat. rewrite PathFacts.resolve_join by assumption.
  now apply lookup_join.
Qed.

Lemma stat_put_dir (m : gmap string node) : Os.stat D (put_dir D m w) = Some (Dir m).
Proof.
  unfold Os.stat, put_dir. rewrite resolve_dir. simpl.
  apply FsFacts.lookup_put_eq. rewrite lookup_dir. now eexists.
Qed.

Lemma put_dir_put_dir (m1 m2 : gmap string node) :
  put_dir D m2 (put_dir D m1 w) = put_dir D m2 w.
Proof. unfold put_dir, set_root. simpl. now rewrite FsFacts.put_put. Qed.

Lemma put_dir_id : put_dir D md w = w.
Proof.
  unfold put_dir, set_root. rewrite (FsFacts.put_id _ _ _ lookup_dir).
  apply MFacts.world_eta.
Qed.

Lemma put_dir_join (t : string) (ms : gmap string node) :
  Fs.valid_name t = true ->
  put_dir (OsPath.join D t) ms w = put_dir D (<[t := Dir ms]> md) w.
Proof.
  intros Ht. unfold put_dir. rewrite PathFacts.components_join by assumption.
  now rewrite (FsFacts.put_app _ _ _ _ _ lookup_dir).
Qed.

Lemma put_child (n : string) (x : node) :
  Fs.put (Fs.components D ++ [n]) x (root w)
  = Fs.put (Fs.components D) (Dir (<[n := x]> md)) (root w).
Proof. now rewrite (FsFacts.put_app _ _ _ _ _ lookup_dir). Qed.

Lemma del_child (n : string) :
  Fs.del (Fs.components D ++ [n]) (root w)
  = Fs.put (Fs.components D) (Dir (delete n md)) (root w).
Proof. now rewrite (FsFacts.del_app _ _ _ _ lookup_dir). Qed.

Lemma remove_join (n c : string) :
  Fs.valid_name n = true -> md !! n = Some (File c) ->
  Os.remove (OsPath.join D n) w = (Ok tt, put_dir D (delete n md) w).
Proof.
  intros Hn Hc. unfold Os.remove.
  rewrite PathFacts.resolve_join, lookup_join, Hc by assumption.
  unfold put_dir. now rewrite del_child.
Qed.

Lemma rmdir_join (n : string) (m' : gmap string node) :
  Fs.valid_name n = true -> md !! n = Some (Dir m') ->
  Os.is_empty_dir m' = true ->
  Os.rmdir (OsPath.join D n) w = (Ok tt, put_dir D (delete n md) w).
Proof.
  intros Hn Hc He. unfold Os.rmdir.
  rewrite PathFacts.resolve_join, lookup_join, Hc, He by assumption. simpl.
  unfold put_dir. rewrite <- del_child.
  now destruct (Fs.components D).
Qed.

End Under.

Lemma rstrip_slash_free (n : string) :
  Fs.slash_free n = true -> Str.rstrip "/" n = n.
Proof.
  unfold Fs.slash_free. induction n as [|c n IH]; [reflexivity|].
  cbn [string_forallb Str.rstrip]. rewrite andb_true_iff, negb_true_iff.
  intros [Hc Hn]. rewrite (IH Hn), Hc. now destruct n.
Qed.

Lemma rstrip_app_valid (a n : string) :
  Fs.valid_name n = true -> Str.rstrip "/" (a +:+ n) = a +:+ n.
Proof.
  intros [Hne Hf]%PathFacts.valid_name_spec.
  induction a as [|c a IH]; [now apply rstrip_slash_free|].
  change (String c a +:+ n) with (String c (a +:+ n)).
  cbn [Str.rstrip]. rewrite IH.
  destruct (a +:+ n) eqn:E; [|reflexivity].
  destruct a; [simpl in E; congruence | discriminate].
Qed.

Lemma rstrip_join (a n : string) :
  Fs.valid_name n = true -> Str.rstrip "/" (OsPath.join a n) = OsPath.join a n.
Proof.
  intros Hn.
  destruct (PathFacts.join_cases a n Hn) as [[-> ->]|[(a' & -> & ->)|(_ & _ & ->)]].
  - apply (rstrip_app_valid "" n Hn).
  - apply (rstrip_app_valid (a' +:+ "/") n) in Hn.
    now rewrite StrFacts.app_assoc in Hn.
  - apply (rstrip_app_valid (a +:+ "/") n) in Hn.
    now rewrite StrFacts.app_assoc in Hn.
Qed.

Lemma shutil_basename_join (a n : string) :
  Fs.valid_name n = true -> Shutil.basename (OsPath.join a n) = n.
Proof.
  intros Hn. unfold Shutil.basename, OsPath.sep.
  rewrite rstrip_join by assumption. now apply PathFacts.basename_join.
Qed.

Section Moves.

Variables (D : string) (w : world) (md : gmap string node).
Hypothesis HD : Os.stat D w = Some (Dir md).

Local Abbreviation cD := (Fs.components D).

Lemma app_one_inj (a b : string) : (cD ++ [a])%list = (cD ++ [b])%list -> a = b.
Proof. intros H. apply app_inv_head in H. now injection H. Qed.

Lemma prefix_one (a b : string) :
  (cD ++ [a])%list `prefix_of` (cD ++ [b])%list -> a = b.
Proof.
  intros [k Hk]. rewrite <- List.app_assoc in Hk. apply app_inv_head in Hk.
  simpl in Hk. now injection Hk.
Qed.

Lemma removelast_child (n : string) : List.removelast (cD ++ [n])%list = cD.
Proof. apply List.removelast_last. Qed.

(** Renaming an entry of [D] to a free name of [D]. *)
Lemma rename_join (a b : string) (x : node) :
  Fs.valid_name a = true -> Fs.valid_name b = true ->
  md !! a = Some x -> md !! b = None ->
  Os.rename (OsPath.join D a) (OsPath.join D b) w
  = (Ok tt, put_dir D (<[b := x]> (delete a md)) w).
Proof.
  intros Ha Hb Hx Hfree. unfold Os.rename.
  rewrite !PathFacts.resolve_join by assumption.
  pose proof (lookup_dir D w md HD) as Hl.
  rewrite (lookup_join D w md HD a Ha), Hx.
  rewrite bool_decide_eq_false_2
    by (intros E%app_one_inj; subst; congruence).
  rewrite bool_decide_eq_false_2
    by (intros E%prefix_one; subst; congruence).
  rewrite removelast_child, Hl. simpl negb. cbv iota.
  rewrite (lookup_join D w md HD b Hb), Hfree.
  assert (Hgo : Fs.put (cD ++ [b]) x (Fs.del (cD ++ [a]) (root w))
                = Fs.put cD (Dir (<[b := x]> (delete a md))) (root w)).
  { rewrite (del_child D w md HD).
    rewrite (FsFacts.put_app _ [b] x (Dir (delete a md))).
    - simpl. now rewrite FsFacts.put_put.
    - apply FsFacts.lookup_put_eq. rewrite (lookup_dir D w md HD). now eexists. }
  unfold put_dir. rewrite <- Hgo. now destruct x.
Qed.

(** Renaming an entry [n] of the subdirectory [t] of [D] to a free name
    [n'] of [D]. *)
Lemma rename_up (t n n' : string) (ms : gmap string node) (x : node) :
  Fs.valid_name t = true -> Fs.valid_name n = true -> Fs.valid_name n' = true ->
  md !! t = Some (Dir ms) -> ms !! n = Some x -> md !! n' = None ->
  Os.rename (OsPath.join (OsPath.join D t) n) (OsPath.join D n') w
  = (Ok tt, put_dir D (<[n' := x]> (<[t := Dir (delete n ms)]> md)) w).
Proof.
  intros Ht Hn Hn' Hms Hx Hfree. unfold Os.rename.
  rewrite !PathFacts.resolve_join, PathFacts.components_join by assumption.
 
  pose proof (lookup_dir D w md HD) as Hl.
  assert (Hsrc : Fs.lookup ((cD ++ [t]) ++ [n]) (root w) = Some x).
  { rewrite FsFacts.lookup_app, (lookup_join D w md HD t Ht), Hms. simpl.
    now rewrite Hx. }
  rewrite Hsrc.
  rewrite bool_decide_eq_false_2.
  2:{ intros E. apply (f_equal (@List.length string)) in E.
      rewrite !List.length_app in E. simpl in E. lia. }
  rewrite bool_decide_eq_false_2.
  2:{ intros [k E]. apply (f_equal (@List.length string)) in E.
      rewrite !List.length_app in E. simpl in E. lia. }
  rewrite removelast_child, Hl. simpl negb. cbv iota.
  rewrite (lookup_join D w md HD n' Hn'), Hfree.
  assert (Hgo : Fs.put (cD ++ [n']) x (Fs.del ((cD ++ [t]) ++ [n]) (root w))
                = Fs.put cD (Dir (<[n' := x]> (<[t := Dir (delete n ms)]> md))) (root w)).
  { rewrite <- List.app_assoc.
    rewrite (FsFacts.del_app _ ([t] ++ [n]) (Dir md)) by (exact Hl || discriminate).
    simpl app. rewrite FsFacts.del_cons, Hms. cbn [Fs.del].
    rewrite (FsFacts.put_app _ [n'] x (Dir (<[t := Dir (delete n ms)]> md))).
    - simpl. now rewrite FsFacts.put_put.
    - apply FsFacts.lookup_put_eq. rewrite (lookup_dir D w md HD). now eexists. }
  unfold put_dir. rewrite <- Hgo. now destruct x.
Qed.

(** Removing the empty subdirectory [t] of [D] with [os.removedirs]: [D]
    itself stays, since it is not empty. *)
Lemma removedirs_join (t : string) (m' : gmap string node) :
  Fs.valid_name t = true -> md !! t = Some (Dir m') ->
  Os.is_empty_dir m' = true -> Os.is_empty_dir (delete t md) = false ->
  Os.removedirs (OsPath.join D t) w = (Ok tt, put_dir D (delete t md) w).
Proof.
  intros Ht Hm He Hrest. unfold Os.removedirs.
  unfold bind at 1. rewrite (rmdir_join D w md HD t m' Ht Hm He).
  destruct (PathFacts.split_join D t Ht) as (h & Hs & Hc). rewrite Hs.
  pose proof (proj1 (PathFacts.valid_name_spec t) Ht) as [Hne _].
  apply String.eqb_neq in Hne. rewrite Hne.
  assert (Hlen : exists k, String.length (OsPath.join D t) = S k).
  { destruct (OsPath.join D t) eqn:E; [|now eexists].
    apply String.eqb_neq in Hne. now apply (PathFacts.join_nonempty D) in Hne. }
  destruct Hlen as [k ->]. cbn [Os.removedirs_up]. rewrite Hne.
  destruct (String.eqb h "") eqn:Hh; [reflexivity|]. cbn [negb andb].
  assert (Hrm : Os.rmdir h (put_dir D (delete t md) w)
                = (Raise (Os.ENOTEMPTY h), put_dir D (delete t md) w)).
  { unfold Os.rmdir, Fs.resolve. rewrite Hh, Hc.
    pose proof (stat_put_dir D w md HD (delete t md)) as Hst.
    unfold Os.stat in Hst. rewrite (resolve_dir D w md HD) in Hst.
    now rewrite Hst, Hrest. }
  unfold try_except, bind. cbv beta. now rewrite Hrm.
Qed.

Lemma components_join2_ne (t n : string) (l : list string) :
  Fs.valid_name t = true -> Fs.valid_name n = true ->
  Fs.components (OsPath.join (OsPath.join D t) n) = (cD ++ l)%list ->
  List.length l = 2.
Proof.
  intros Ht Hn. rewrite !PathFacts.components_join by assumption.
  rewrite <- List.app_assoc. intros E%app_inv_head. now subst.
Qed.

Lemma stat_join2 (t n : string) (ms : gmap string node) :
  Fs.valid_name t = true -> Fs.valid_name n = true ->
  md !! t = Some (Dir ms) ->
  Os.stat (OsPath.join (OsPath.join D t) n) w = ms !! n.
Proof.
  intros Ht Hn Hms. apply stat_join; [|assumption].
  now rewrite (stat_join D w md HD).
Qed.

(** [shutil.move] of an entry [n] of the subdirectory [t] of [D] into the
    directory [D], where the name [n] is free. *)
Lemma move_into (t n : string) (ms : gmap string node) (x : node) :
  Fs.valid_name t = true -> Fs.valid_name n = true ->
  md !! t = Some (Dir ms) -> ms !! n = Some x -> md !! n = None ->
  Shutil.move (OsPath.join (OsPath.join D t) n) D w
  = (Ok tt, put_dir D (<[n := x]> (<[t := Dir (delete n ms)]> md)) w).
Proof.
  intros Ht Hn Hms Hx Hfree. unfold Shutil.move.
  unfold Os.path_isdir, Os.path_exists. rewrite !MFacts.bind_gets, HD.
  assert (Hsame : Shutil.samefile (OsPath.join (OsPath.join D t) n) D w = false).
  { unfold Shutil.samefile. rewrite (stat_join2 t n ms), Hx, HD by assumption.
    apply bool_decide_eq_false_2. intros E.
    rewrite <- (List.app_nil_r cD) in E.
    apply (components_join2_ne t n []) in E; [discriminate | assumption..]. }
  rewrite Hsame. simpl.
  rewrite shutil_basename_join, MFacts.bind_gets, (stat_join D w md HD) by assumption.
  rewrite Hfree. unfold try_except.
  now rewrite (rename_up t n n ms x).
Qed.

(** [shutil.move] of an entry [n] of the subdirectory [t] of [D] to the
    path of the free name [n] in [D]. *)
Lemma move_onto (t n : string) (ms : gmap string node) (x : node) :
  Fs.valid_name t = true -> Fs.valid_name n = true ->
  md !! t = Some (Dir ms) -> ms !! n = Some x -> md !! n = None ->
  Shutil.move (OsPath.join (OsPath.join D t) n) (OsPath.join D n) w
  = (Ok tt, put_dir D (<[n := x]> (<[t := Dir (delete n ms)]> md)) w).
Proof.
  intros Ht Hn Hms Hx Hfree. unfold Shutil.move.
  unfold Os.path_isdir. rewrite !MFacts.bind_gets.
  rewrite (stat_join D w md HD) by assumption. rewrite Hfree. simpl.
  rewrite MFacts.bind_ret. unfold try_except.
  now rewrite (rename_up t n n ms x).
Qed.

(** Renaming an entry [n] of a directory [S] below [D] to a free name [n']
    of [D]; [q] is the path from [D] to [S]. *)
Lemma rename_under (S n n' : string) (q : list string)
    (ms : gmap string node) (x : node) :
  Fs.valid_name n = true -> Fs.valid_name n' = true ->
  Fs.components S = (cD ++ q)%list -> q <> [] ->
  Fs.lookup q (Dir md) = Some (Dir ms) -> ms !! n = Some x -> md !! n' = None ->
  Os.rename (OsPath.join S n) (OsPath.join D n') w
  = (Ok tt, put_dir D (<[n' := x]> (Fs.entries (Fs.del (q ++ [n]) (Dir md)))) w).
Proof.
  intros Hn Hn' HS Hq Hms Hx Hfree. unfold Os.rename.
  rewrite !PathFacts.resolve_join, HS by assumption.
  pose proof (lookup_dir D w md HD) as Hl.
  assert (Hsrc : Fs.lookup ((cD ++ q) ++ [n]) (root w) = Some x).
  { rewrite <- List.app_assoc, FsFacts.lookup_app, Hl, FsFacts.lookup_app, Hms.
    simpl. now rewrite Hx. }
  rewrite Hsrc.
  assert (Hlen : List.length q <> 0) by (destruct q; simpl; congruence).
  rewrite bool_decide_eq_false_2.
  2:{ intros E. apply (f_equal (@List.length string)) in E.
      rewrite !List.length_app in E. simpl in E. lia. }
  rewrite bool_decide_eq_false_2.
  2:{ intros [k E]. apply (f_equal (@List.length string)) in E.
      rewrite !List.length_app in E. simpl in E. lia. }
  rewrite removelast_child, Hl. simpl negb. cbv iota.
  rewrite (lookup_join D w md HD n' Hn'), Hfree.
  assert (Hgo : Fs.put (cD ++ [n']) x (Fs.del ((cD ++ q) ++ [n]) (root w))
                = Fs.put cD (Dir (<[n' := x]> (Fs.entries (Fs.del (q ++ [n]) (Dir md)))))
                    (root w)).
  { rewrite <- List.app_assoc.
    rewrite (FsFacts.del_app _ (q ++ [n]) (Dir md)) by (exact Hl || (destruct q; discriminate)).
    rewrite (FsFacts.del_is_dir (q ++ [n]) md) at 1.
    rewrite (FsFacts.put_app _ [n'] x (Dir (Fs.entries (Fs.del (q ++ [n]) (Dir md))))).
    - simpl. now rewrite FsFacts.put_put.
    - apply FsFacts.lookup_put_eq. rewrite Hl. now eexists. }
  unfold put_dir. rewrite <- Hgo. now destruct x.
Qed.

Lemma listdir_join (t : string) (ms : gmap string node) :
  Fs.valid_name t = true -> md !! t = Some (Dir ms) ->
  Os.listdir (OsPath.join D t) w = (Ok (Fs.names ms), w).
Proof.
  intros Ht Hms. unfold Os.listdir.
  now rewrite (stat_join D w md HD t Ht), Hms.
Qed.

(** Making a new directory [n] in [D]. *)
Lemma makedirs_join (n : string) :
  Fs.valid_name n = true -> md !! n = None ->
  Os.makedirs (OsPath.join D n) false w = (Ok tt, put_dir D (<[n := Dir ∅]> md) w).
Proof.
  intros Hn Hfree. unfold Os.makedirs.
  rewrite PathFacts.resolve_join, (lookup_join D w md HD n Hn), Hfree by assumption.
  rewrite (FsFacts.mkdirs_app _ [n] (Dir md)) by apply (lookup_dir D w md HD).
  cbn [Fs.mkdirs]. now rewrite Hfree.
Qed.

(** Removing the subdirectory [t] of [D] with all it holds. *)
Lemma rmtree_join (t : string) (mt : gmap string node) :
  Fs.valid_name t = true -> md !! t = Some (Dir mt) ->
  Shutil.rmtree (OsPath.join D t) w = (Ok tt, put_dir D (delete t md) w).
Proof.
  intros Ht Hmt. unfold Shutil.rmtree.
  rewrite PathFacts.resolve_join, (lookup_join D w md HD t Ht), Hmt by assumption.
  unfold put_dir. rewrite <- (del_child D w md HD).
  now destruct (Fs.components D).
Qed.

Lemma delete_folder_join (t : string) (mt : gmap string node) :
  Fs.valid_name t = true -> md !! t = Some (Dir mt) ->
  System.delete_folder (OsPath.join D t) w = (Ok tt, put_dir D (delete t md) w).
Proof.
  intros Ht Hmt. unfold System.delete_folder, Os.path_exists.
  rewrite MFacts.bind_gets, (stat_join D w md HD t Ht), Hmt.
  now apply rmtree_join with mt.
Qed.

(** Renaming the entry [n] of [D] into the subdirectory [t] of [D], where
    the name [n] is free. *)
Lemma rename_down (t n : string) (mt : gmap string node) (x : node) :
  Fs.valid_name t = true -> Fs.valid_name n = true -> n <> t ->
  md !! n = Some x -> md !! t = Some (Dir mt) -> mt !! n = None ->
  Os.rename (OsPath.join D n) (OsPath.join (OsPath.join D t) n) w
  = (Ok tt, put_dir D (<[t := Dir (<[n := x]> mt)]> (delete n md)) w).
Proof.
  intros Ht Hn Hnt Hx Hmt Hfree. unfold Os.rename.
  rewrite !PathFacts.resolve_join, PathFacts.components_join by assumption.
  pose proof (lookup_dir D w md HD) as Hl.
  rewrite (lookup_join D w md HD n Hn), Hx.
  rewrite bool_decide_eq_false_2.
  2:{ intros E. apply (f_equal (@List.length string)) in E.
      rewrite !List.length_app in E. simpl in E. lia. }
  rewrite bool_decide_eq_false_2.
  2:{ intros [k E]. rewrite <- !List.app_assoc in E. apply app_inv_head in E.
      simpl in E. injection E as E _. congruence. }
  rewrite List.removelast_last, (lookup_join D w md HD t Ht), Hmt.
  simpl negb. cbv iota.
  assert (Hdst : Fs.lookup ((cD ++ [t]) ++ [n]) (root w) = None).
  { rewrite FsFacts.lookup_app, (lookup_join D w md HD t Ht), Hmt. simpl.
    now rewrite Hfree. }
  rewrite Hdst.
  assert (Hgo : Fs.put ((cD ++ [t]) ++ [n]) x (Fs.del (cD ++ [n]) (root w))
                = Fs.put cD (Dir (<[t := Dir (<[n := x]> mt)]> (delete n md))) (root w)).
  { rewrite (del_child D w md HD), <- List.app_assoc.
    rewrite (FsFacts.put_app _ ([t] ++ [n]) x (Dir (delete n md))).
    - simpl app. rewrite FsFacts.put_cons, lookup_delete_ne, Hmt by congruence.
      simpl. now rewrite FsFacts.put_put.
    - apply FsFacts.lookup_put_eq. rewrite Hl. now eexists. }
  unfold put_dir. rewrite <- Hgo. now destruct x.
Qed.

(** [shutil.move] of the entry [n] of [D] into the subdirectory [t]. *)
Lemma move_down (t n : string) (mt : gmap string node) (x : node) :
  Fs.valid_name t = true -> Fs.valid_name n = true -> n <> t ->
  md !! n = Some x -> md !! t = Some (Dir mt) -> mt !! n = None ->
  Shutil.move (OsPath.join D n) (OsPath.join D t) w
  = (Ok tt, put_dir D (<[t := Dir (<[n := x]> mt)]> (delete n md)) w).
Proof.
  intros Ht Hn Hnt Hx Hmt Hfree. unfold Shutil.move, Os.path_isdir, Os.path_exists.
  rewrite !MFacts.bind_gets, (stat_join D w md HD t Ht), Hmt.
  assert (Hsame : Shutil.samefile (OsPath.join D n) (OsPath.join D t) w = false).
  { unfold Shutil.samefile.
    rewrite (stat_join D w md HD n Hn), (stat_join D w md HD t Ht), Hx, Hmt.
    apply bool_decide_eq_false_2. rewrite !PathFacts.components_join by assumption.
    intros E%app_one_inj. congruence. }
  rewrite Hsame. simpl.
  rewrite shutil_basename_join, MFacts.bind_gets by assumption.
  rewrite (stat_join2 t n mt Ht Hn Hmt), Hfree. unfold try_except.
  now rewrite (rename_down t n mt x).
Qed.

End Moves.

End OsFacts.

(** ** Exceptions and exit codes *)

Section ErrorFacts.

Variable RUNTIME_DIR : string.
Variable find_executable : string -> world -> result string.
Variable merge_folders : string -> string -> M unit.
Variable subprocess_call : list string -> M Z.
Variable TarFile : Type.
Variable tarfile_open : string -> option string -> M TarFile.
Variable TarFile_extractall : TarFile -> string -> M unit.
Variable TarFile_close : TarFile -> M unit.
Variable gunzip : string -> result string.

Local Abbreviation extract_archive_ :=
  (extract_archive RUNTIME_DIR find_executable merge_folders subprocess_call
     TarFile tarfile_open TarFile_extractall TarFile_close gunzip).
Local Abbreviation _do_extract_ :=
  (_do_extract RUNTIME_DIR find_executable subprocess_call
     TarFile tarfile_open TarFile_extractall TarFile_close gunzip).
Local Abbreviation extract_7zip_ :=
  (extract_7zip RUNTIME_DIR find_executable subprocess_call).
Local Abbreviation get_innoextract_path_ :=
  (get_innoextract_path RUNTIME_DIR find_executable).
Local Abbreviation check_inno_exe_ :=
  (check_inno_exe RUNTIME_DIR find_executable subprocess_call).
Local Abbreviation decompress_gog_ :=
  (decompress_gog RUNTIME_DIR find_executable subprocess_call).
Local Abbreviation extract_gog_ :=
  (extract_gog RUNTIME_DIR find_executable subprocess_call).
Local Abbreviation extract_exe_ :=
  (extract_exe RUNTIME_DIR find_executable subprocess_call).
Local Abbreviation extract_exe_archive_ :=
  (extract_exe_archive RUNTIME_DIR find_executable subprocess_call).

(** [extract_7zip] does not look at the exit code: when the tool is found
    and runs, the call returns normally whatever the code is. *)
Lemma extract_7zip_ignores_exit_code
    (path dest : string) (archive_type : option string) (w : world) :
  (forall command w0, exists code w1, subprocess_call command w0 = (Ok code, w1)) ->
  Os.stat (OsPath.join RUNTIME_DIR "p7zip/7z") w <> None ->
  exists w', extract_7zip_ path dest archive_type w = (Ok tt, w').
Proof.
  intros Hrun Hfound. unfold extract_7zip, System.path_exists.
  assert (Hne : String.eqb (OsPath.join RUNTIME_DIR "p7zip/7z") "" = false).
  { apply String.eqb_neq. now apply PathFacts.join_nonempty. }
  rewrite Hne. unfold Os.path_exists. rewrite MFacts.bind_gets.
  destruct (Os.stat (OsPath.join RUNTIME_DIR "p7zip/7z") w); [|congruence].
  simpl negb. cbv iota. rewrite MFacts.bind_ret.
  match goal with |- context [subprocess_call ?c] => destruct (Hrun c w) as (code & w1 & Hc) end.
  exists w1. unfold bind. now rewrite Hc.
Qed.

(** C7.  When the backend step of [extract_archive] raises an [OSError], a
    [zlib.error], a [tarfile.ReadError] or an [EOFError], [extract_archive]
    raises one [ExtractError] whose message is that of the exception raised,
    in the world the backend left; the backend is not run again. *)
Theorem extract_archive_wraps_backend_errors
    (depth : nat) (path to_directory : string) (merge_single : bool)
    (extractor : option string) (w w1 : world) (ex : exn) :
  let path' := Os.abspath path in
  let extractor' :=
    match extractor with None => guess_extractor path' | Some _ => extractor end in
  let temp_dir := staging_path to_directory (urandom w (drawn w)) in
  _do_extract_ (extract_archive_ depth) path' temp_dir
    (fst (get_archive_opener extractor')) (snd (get_archive_opener extractor'))
    extractor' (World (root w) (urandom w) (S (drawn w))) = (Raise ex, w1) ->
  (exists msg, ex = OSError msg \/ ex = ZlibError msg
               \/ ex = TarReadError msg \/ ex = EOFError msg) ->
  extract_archive_ (S depth) path to_directory merge_single extractor w
  = (Raise (ExtractError (str_of_exn ex)), w1).
Proof.
  intros path' extractor' temp_dir Hrun Hex.
  assert (Hc : caught_by_extract_archive ex = true)
    by (destruct Hex as [msg [->|[->|[->| ->]]]]; reflexivity).
  cbn [extract_archive]. unfold extract_to_staging.
  fold path' extractor'. destruct (get_archive_opener extractor') as [opener mode].
  simpl in Hrun. unfold bind, draw, try_except. fold temp_dir.
  rewrite Hrun, Hc. reflexivity.
Qed.

(** [get_innoextract_path] raises [MissingExecutableError] when the runtime
    directory has no [innoextract*] entry and the [PATH] lookup fails. *)
Lemma get_innoextract_path_missing (m : gmap string node) (msg : string) (w : world) :
  Os.stat RUNTIME_DIR w = Some (Dir m) ->
  List.filter (fun path => Str.startswith path "innoextract") (Fs.names m) = [] ->
  find_executable "innoextract" w = Raise (MissingExecutableError msg) ->
  get_innoextract_path_ w = (Raise (MissingExecutableError msg), w).
Proof.
  intros Hdir Hnone Hfind. unfold get_innoextract_path, Os.listdir, bind, reads.
  rewrite Hdir, Hnone. cbn [get_innoextract_path_loop ret]. now rewrite Hfind.
Qed.

End ErrorFacts.

(** An unreadable [tar.gz]: the [tarfile.ReadError] of the backend comes out
    of [extract_archive] as an [ExtractError] with the same message. *)
Lemma extract_archive_wraps_backend_errors_witness :
  extract_archive Scenario.RUNTIME_DIR Scenario.no_executable Scenario.merge_refused
    (Scenario.tool ∅ 0) unit Scenario.tar_open_broken (Scenario.tar_extractall ∅)
    Scenario.tar_close Scenario.gunzip_stored
    2 "/cache/broken.tar.gz" "/games" true None Scenario.world0
  = (Raise (ExtractError "file could not be opened successfully"),
     World (root Scenario.world0) (urandom Scenario.world0) 1).
Proof.
  apply (extract_archive_wraps_backend_errors
           Scenario.RUNTIME_DIR Scenario.no_executable Scenario.merge_refused
           (Scenario.tool ∅ 0) unit Scenario.tar_open_broken (Scenario.tar_extractall ∅)
           Scenario.tar_close Scenario.gunzip_stored
           1 "/cache/broken.tar.gz" "/games" true None Scenario.world0
           (World (root Scenario.world0) (urandom Scenario.world0) 1)
           (TarReadError "file could not be opened successfully")).
  - vm_compute. reflexivity.
  - exists "file could not be opened successfully". right; right; left. reflexivity.
Defined.

(** C1 fails on the code.  The archive tool unpacks one file and exits with
    code 2: [extract_7zip] returns normally, and [extract_archive] returns
    its success value with the partial content merged into the
    destination.  (The sibling [decompress_gog] does raise on a non-zero
    exit code.) *)
Theorem extract_7zip_accepts_nonzero_exit :
  let tool := Scenario.tool {[ "a.txt" := File "partial" ]} 2 in
  let run :=
    extract_archive Scenario.RUNTIME_DIR Scenario.no_executable Scenario.merge_refused
      tool unit Scenario.tar_open (Scenario.tar_extractall ∅)
      Scenario.tar_close Scenario.gunzip_stored
      2 "/cache/data.zip" "/games" true None Scenario.world0 in
  fst (extract_7zip Scenario.RUNTIME_DIR Scenario.no_executable tool
         "/cache/data.zip" "/games/.extract-00000000" None Scenario.world0) = Ok tt
  /\ tool ["/runtime/p7zip/7z"; "x"; "/cache/data.zip";
           "-o/games/.extract-00000000"; "-aoa"] Scenario.world0
     = (Ok 2%Z, put_dir "/games/.extract-00000000" {[ "a.txt" := File "partial" ]}
                  Scenario.world0)
  /\ fst run = Ok ("/cache/data.zip", "/games")
  /\ Os.stat "/games/a.txt" (snd run) = Some (File "partial")
  /\ decompress_gog Scenario.RUNTIME_DIR Scenario.on_path tool
       "/cache/setup.exe" "/games/.extract-00000000" Scenario.world0
     = (Raise (RuntimeError "innoextract failed to extract GOG setup file"),
        put_dir "/games/.extract-00000000" ∅ Scenario.world0).
Proof. vm_compute. repeat split; reflexivity. Qed.

(** ** The merge of staged content *)

(** Look up a key in a map built with [insert] and [delete]. *)
Ltac map_lookup :=
  repeat first
    [ rewrite lookup_delete_eq
    | rewrite lookup_insert_eq
    | rewrite lookup_delete_ne by congruence
    | rewrite lookup_insert_ne by congruence ].

(** Reduce the reads and returns at the head of a computation. *)
Ltac msimpl :=
  repeat first
    [ rewrite MFacts.bind_gets
    | rewrite MFacts.bind_ret
    | progress cbn [Fs.is_file Fs.is_dir negb andb orb]
    | progress cbv beta iota ].

Section MergeFacts.

Variable merge_folders : string -> string -> M unit.

Local Abbreviation merge_entry_ := (merge_entry merge_folders).
Local Abbreviation merge_staged_ := (merge_staged merge_folders).

(** The head of a path that leads to a directory is the name of a
    directory. *)
Lemma lookup_head_dir (q : list string) (md ms : gmap string node) (n c0 : string) :
  q <> [] -> Fs.lookup q (Dir md) = Some (Dir ms) -> md !! n = Some (File c0) ->
  exists t q', q = t :: q' /\ t <> n.
Proof.
  intros Hq Hl Hn. destruct q as [|t q']; [congruence|].
  exists t, q'. split; [reflexivity|]. intros ->.
  simpl in Hl. rewrite Hn in Hl. now destruct q'.
Qed.

(** One step of the merge loop on an entry whose destination is a regular
    file: the file is removed and the staged entry is renamed into its
    place; [merge_folders] is not called. *)
Lemma merge_entry_over_file (D S n c0 : string) (q : list string)
    (md ms : gmap string node) (x : node) (w : world) :
  Os.stat D w = Some (Dir md) -> Fs.valid_name n = true ->
  Fs.components S = (Fs.components D ++ q)%list -> q <> [] ->
  Fs.lookup q (Dir md) = Some (Dir ms) ->
  ms !! n = Some x -> md !! n = Some (File c0) ->
  merge_entry_ S D n w
  = (Ok tt, put_dir D (<[n := x]> (Fs.entries (Fs.del (q ++ [n]) (Dir (delete n md))))) w).
Proof.
  intros HD Hn HS Hq Hms Hx Hfile.
  destruct (lookup_head_dir q md ms n c0 Hq Hms Hfile) as (t & q' & -> & Htn).
  pose proof (proj1 (PathFacts.valid_name_spec n) Hn) as [Hne _].
  unfold merge_entry, System.path_exists.
  assert (E : String.eqb (OsPath.join D n) "" = false)
    by (apply String.eqb_neq; now apply PathFacts.join_nonempty).
  rewrite E. unfold Os.path_exists, Os.path_isfile.
  msimpl. rewrite (OsFacts.stat_join D w md HD n Hn), Hfile. msimpl.
  rewrite (OsFacts.stat_join D w md HD n Hn), Hfile. msimpl.
  unfold bind at 1.
  rewrite (OsFacts.remove_join D w md HD n c0 Hn Hfile).
  set (w1 := put_dir D (delete n md) w).
  assert (HD1 : Os.stat D w1 = Some (Dir (delete n md)))
    by apply (OsFacts.stat_put_dir D w md HD).
  unfold Shutil.move, Os.path_isdir. msimpl.
  rewrite (OsFacts.stat_join D w1 _ HD1 n Hn), lookup_delete_eq. msimpl.
  unfold try_except.
  rewrite (OsFacts.rename_under D w1 (delete n md) HD1 S n n (t :: q') ms x);
    try assumption; try discriminate.
  - unfold w1. now rewrite (OsFacts.put_dir_put_dir D w).
  - now rewrite FsFacts.lookup_cons_delete_ne.
  - apply lookup_delete_eq.
Qed.

(** C5, amended.  In the merge loop of [extract_archive], for a staged entry
    whose destination path is occupied by a regular file, the destination
    file is deleted and the staged entry, be it a file or a directory, is
    moved into its place: the step succeeds, the entry is at the
    destination and no longer in the staging area, the other entries of the
    destination are untouched, and [merge_folders] plays no part. *)
Theorem merge_entry_replaces_file (D S n c0 : string) (q : list string)
    (md ms : gmap string node) (x : node) (w : world) :
  Os.stat D w = Some (Dir md) -> Fs.valid_name n = true ->
  Fs.components S = (Fs.components D ++ q)%list -> q <> [] ->
  Fs.lookup q (Dir md) = Some (Dir ms) ->
  ms !! n = Some x -> md !! n = Some (File c0) ->
  exists w',
    merge_entry_ S D n w = (Ok tt, w')
    /\ Os.stat (OsPath.join D n) w' = Some x
    /\ Os.stat (OsPath.join S n) w' = None
    /\ (forall k, Fs.valid_name k = true -> k <> n -> List.hd_error q <> Some k ->
                  Os.stat (OsPath.join D k) w' = Os.stat (OsPath.join D k) w).
Proof.
  intros HD Hn HS Hq Hms Hx Hfile.
  destruct (lookup_head_dir q md ms n c0 Hq Hms Hfile) as (t & q' & E & Htn).
  eexists. split; [now apply (merge_entry_over_file D S n c0 q md ms x w)|].
  set (m1 := Fs.entries (Fs.del (q ++ [n]) (Dir (delete n md)))).
  pose proof (OsFacts.stat_put_dir D w md HD (<[n := x]> m1)) as HD'.
  assert (Hm1 : Dir m1 = Fs.del (q ++ [n]) (Dir (delete n md)))
    by (symmetry; apply FsFacts.del_is_dir).
  split; [|split].
  - rewrite (OsFacts.stat_join D _ _ HD' n Hn). apply lookup_insert_eq.
  - unfold Os.stat. rewrite PathFacts.resolve_join, HS by assumption.
    rewrite <- List.app_assoc, FsFacts.lookup_app.
    rewrite (OsFacts.lookup_dir D _ _ HD'). subst q. simpl app.
    rewrite FsFacts.lookup_cons_insert_ne by congruence.
    simpl app in Hm1. rewrite Hm1.
    apply FsFacts.lookup_del_same. discriminate.
  - intros k Hk Hkn Hkt. subst q. simpl in Hkt.
    rewrite (OsFacts.stat_join D _ _ HD' k Hk), (OsFacts.stat_join D w md HD k Hk).
    rewrite lookup_insert_ne by congruence.
    assert (Hl : Fs.lookup [k] (Dir m1) = Fs.lookup [k] (Dir (delete n md))).
    { rewrite Hm1. simpl app. apply FsFacts.lookup_del_head_ne. congruence. }
    simpl in Hl. rewrite lookup_delete_ne in Hl by congruence.
    destruct (m1 !! k), (md !! k); congruence.
Qed.

Lemma stat_drawn (p : string) (w : world) :
  Os.stat p (World (root w) (urandom w) (S (drawn w))) = Os.stat p w.
Proof. reflexivity. Qed.

(** The staging directory [t] of [D] holds the single file [name], and [D]
    has a directory of that name: the directory is renamed with a random
    suffix, the file is moved into [D] and the staging directory removed. *)
Lemma merge_staged_single_over_dir (D t name c : string)
    (md sub : gmap string node) (w : world) :
  let renamed := name +:+ random_id_of (urandom w (drawn w)) in
  Os.stat D w = Some (Dir md) ->
  Fs.valid_name t = true -> Fs.valid_name name = true -> name <> t ->
  md !! t = Some (Dir {[ name := File c ]}) ->
  md !! name = Some (Dir sub) -> md !! renamed = None ->
  merge_staged_ (OsPath.join D t) D true w
  = (Ok tt,
     put_dir D (delete t (<[name := File c]> (<[t := Dir ∅]>
                  (<[renamed := Dir sub]> (delete name md)))))
       (World (root w) (urandom w) (S (drawn w)))).
Proof.
  intros renamed HD Ht Hn Hnt Hst Hdir Hfree.
  assert (Hrn : renamed <> name) by (intros E; rewrite E in Hfree; congruence).
  assert (Hrt : renamed <> t) by (intros E; rewrite E in Hfree; congruence).
  assert (Hrv : Fs.valid_name renamed = true).
  { apply PathFacts.valid_name_app; [assumption|].
    apply PathFacts.lower_hex_slash_free, UuidFacts.random_id_of_lower_hex. }
  pose proof (proj1 (PathFacts.valid_name_spec name) Hn) as [Hne _].
  unfold merge_staged. cbv iota.
  eapply MFacts.bind_eq.
  { eapply MFacts.bind_eq; [|reflexivity]. unfold Os.listdir.
    rewrite (OsFacts.stat_join D w md HD t Ht), Hst.
    now rewrite (OsFacts.names_singleton name _ Hn). }
  cbv beta iota. unfold Os.path_isfile, Os.path_isdir. msimpl.
  rewrite (OsFacts.stat_join2 D w md HD t name _ Ht Hn Hst), lookup_singleton_eq.
  msimpl. cbn [first_extracted]. msimpl.
  rewrite (OsFacts.stat_join D w md HD name Hn), Hdir. msimpl.
  rewrite (OsFacts.stat_join D w md HD name Hn), Hdir. msimpl.
  set (wd := World (root w) (urandom w) (S (drawn w))).
  assert (HDd : Os.stat D wd = Some (Dir md)) by exact HD.
  set (md1 := <[renamed := Dir sub]> (delete name md)).
  eapply MFacts.bind_eq.
  { eapply MFacts.bind_eq; [reflexivity|]. cbv beta.
    rewrite (PathFacts.join_app D name _ Hne). fold renamed. fold wd.
    apply (OsFacts.rename_join D wd md HDd name renamed (Dir sub) Hn Hrv Hdir Hfree). }
  fold md1.
  assert (HD1 : Os.stat D (put_dir D md1 wd) = Some (Dir md1))
    by apply (OsFacts.stat_put_dir D wd md HDd).
  set (md2 := <[name := File c]> (<[t := Dir ∅]> md1)).
  eapply MFacts.bind_eq.
  { rewrite (OsFacts.move_into D _ md1 HD1 t name {[ name := File c ]} (File c) Ht Hn).
    - rewrite (OsFacts.put_dir_put_dir D wd), delete_singleton_eq. reflexivity.
    - unfold md1. now rewrite lookup_insert_ne, lookup_delete_ne by congruence.
    - apply lookup_singleton_eq.
    - unfold md1. rewrite lookup_insert_ne by congruence. apply lookup_delete_eq. }
  fold md2.
  assert (HD2 : Os.stat D (put_dir D md2 wd) = Some (Dir md2))
    by apply (OsFacts.stat_put_dir D wd md HDd).
  rewrite (OsFacts.removedirs_join D _ md2 HD2 t ∅ Ht).
  - now rewrite (OsFacts.put_dir_put_dir D wd).
  - unfold md2. rewrite lookup_insert_ne by congruence. apply lookup_insert_eq.
  - apply OsFacts.empty_dir_empty.
  - apply (OsFacts.not_empty_dir _ name Hn). unfold md2.
    rewrite lookup_delete_ne, lookup_insert_eq by congruence. now eexists.
Qed.

(** The staging directory [t] of [D] holds the single file [name], and [D]
    has a regular file of that name: the file is removed, the staged file
    is moved into [D] and the staging directory removed. *)
Lemma merge_staged_single_over_file (D t name c c0 : string)
    (md : gmap string node) (w : world) :
  Os.stat D w = Some (Dir md) ->
  Fs.valid_name t = true -> Fs.valid_name name = true ->
  md !! t = Some (Dir {[ name := File c ]}) ->
  md !! name = Some (File c0) ->
  merge_staged_ (OsPath.join D t) D true w
  = (Ok tt,
     put_dir D (delete t (<[name := File c]> (<[t := Dir ∅]> (delete name md)))) w).
Proof.
  intros HD Ht Hn Hst Hfile.
  assert (Hnt : name <> t) by (intros E; rewrite E in Hfile; congruence).
  unfold merge_staged. cbv iota.
  eapply MFacts.bind_eq.
  { eapply MFacts.bind_eq; [|reflexivity]. unfold Os.listdir.
    rewrite (OsFacts.stat_join D w md HD t Ht), Hst.
    now rewrite (OsFacts.names_singleton name _ Hn). }
  cbv beta iota. unfold Os.path_isfile, Os.path_isdir. msimpl.
  rewrite (OsFacts.stat_join2 D w md HD t name _ Ht Hn Hst), lookup_singleton_eq.
  msimpl. cbn [first_extracted]. msimpl.
  rewrite (OsFacts.stat_join D w md HD name Hn), Hfile. msimpl.
  set (md1 := delete name md).
  eapply MFacts.bind_eq.
  { apply (OsFacts.remove_join D w md HD name c0 Hn Hfile). }
  fold md1.
  assert (HD1 : Os.stat D (put_dir D md1 w) = Some (Dir md1))
    by apply (OsFacts.stat_put_dir D w md HD).
  msimpl. rewrite (OsFacts.stat_join D _ md1 HD1 name Hn).
  unfold md1 at 1. rewrite lookup_delete_eq. msimpl.
  set (md2 := <[name := File c]> (<[t := Dir ∅]> md1)).
  eapply MFacts.bind_eq.
  { rewrite (OsFacts.move_into D _ md1 HD1 t name {[ name := File c ]} (File c) Ht Hn).
    - rewrite (OsFacts.put_dir_put_dir D w), delete_singleton_eq. reflexivity.
    - unfold md1. now rewrite lookup_delete_ne by congruence.
    - apply lookup_singleton_eq.
    - unfold md1. apply lookup_delete_eq. }
  fold md2.
  assert (HD2 : Os.stat D (put_dir D md2 w) = Some (Dir md2))
    by apply (OsFacts.stat_put_dir D w md HD).
  rewrite (OsFacts.removedirs_join D _ md2 HD2 t ∅ Ht).
  - now rewrite (OsFacts.put_dir_put_dir D w).
  - unfold md2. rewrite lookup_insert_ne by congruence. apply lookup_insert_eq.
  - apply OsFacts.empty_dir_empty.
  - apply (OsFacts.not_empty_dir _ name Hn). unfold md2.
    rewrite lookup_delete_ne, lookup_insert_eq by congruence. now eexists.
Qed.

(** One step of the merge loop on an entry whose destination is free: the
    staged entry is renamed into the destination. *)
Lemma merge_entry_free (D S n : string) (q : list string)
    (md ms : gmap string node) (x : node) (w : world) :
  Os.stat D w = Some (Dir md) -> Fs.valid_name n = true ->
  Fs.components S = (Fs.components D ++ q)%list -> q <> [] ->
  Fs.lookup q (Dir md) = Some (Dir ms) ->
  ms !! n = Some x -> md !! n = None ->
  merge_entry_ S D n w
  = (Ok tt, put_dir D (<[n := x]> (Fs.entries (Fs.del (q ++ [n]) (Dir md)))) w).
Proof.
  intros HD Hn HS Hq Hms Hx Hfree.
  pose proof (proj1 (PathFacts.valid_name_spec n) Hn) as [Hne _].
  unfold merge_entry, System.path_exists.
  assert (E : String.eqb (OsPath.join D n) "" = false)
    by (apply String.eqb_neq; now apply PathFacts.join_nonempty).
  rewrite E. unfold Os.path_exists. msimpl.
  rewrite (OsFacts.stat_join D w md HD n Hn), Hfree. msimpl.
  unfold Shutil.move, Os.path_isdir. msimpl.
  rewrite (OsFacts.stat_join D w md HD n Hn), Hfree. msimpl.
  unfold try_except.
  now rewrite (OsFacts.rename_under D w md HD S n n q ms x).
Qed.

(** The merge loop over staged entries whose destinations are all free:
    every entry of the list arrives in [D], and nothing else changes in [D]
    but the staging area. *)
Lemma merge_loop_free (D S t : string) (q' : list string) :
  Fs.components S = (Fs.components D ++ t :: q')%list ->
  forall (l : list string) (md ms : gmap string node) (w : world),
    Os.stat D w = Some (Dir md) ->
    Fs.lookup (t :: q') (Dir md) = Some (Dir ms) ->
    List.NoDup l ->
    (forall n, In n l ->
               Fs.valid_name n = true /\ is_Some (ms !! n) /\ md !! n = None) ->
    exists md',
      for_each l (merge_entry_ S D) w = (Ok tt, put_dir D md' w)
      /\ (exists ms', Fs.lookup (t :: q') (Dir md') = Some (Dir ms'))
      /\ (forall n, In n l -> md' !! n = ms !! n)
      /\ (forall k, ~ In k l -> k <> t -> md' !! k = md !! k).
Proof.
  intros HS l. induction l as [|n l IH]; intros md ms w HD Hms Hnd Hall.
  - exists md. split; [|split; [|split]].
    + simpl. now rewrite (OsFacts.put_dir_id D w md HD).
    + now exists ms.
    + intros n [].
    + reflexivity.
  - destruct (Hall n (or_introl eq_refl)) as (Hn & [x Hx] & Hfree).
    destruct (FsFacts.lookup_head_is_dir t q' md ms Hms) as [mt Hmt].
    assert (Hnt : n <> t) by (intros ->; congruence).
    set (md1 := <[n := x]> (Fs.entries (Fs.del ((t :: q') ++ [n]) (Dir md)))).
    assert (Hdel : Dir (Fs.entries (Fs.del ((t :: q') ++ [n]) (Dir md)))
                   = Fs.del ((t :: q') ++ [n]) (Dir md))
      by (symmetry; apply FsFacts.del_is_dir).
    assert (Hstep : merge_entry_ S D n w = (Ok tt, put_dir D md1 w))
      by (apply (merge_entry_free D S n (t :: q') md ms x w); auto; discriminate).
    assert (HD1 : Os.stat D (put_dir D md1 w) = Some (Dir md1))
      by apply (OsFacts.stat_put_dir D w md HD).
    assert (Hms1 : Fs.lookup (t :: q') (Dir md1) = Some (Dir (delete n ms))).
    { unfold md1. rewrite FsFacts.lookup_cons_insert_ne by congruence.
      rewrite Hdel. now apply FsFacts.lookup_del_child. }
    assert (Hother : forall k, k <> n -> k <> t -> md1 !! k = md !! k).
    { intros k Hkn Hkt. unfold md1. rewrite lookup_insert_ne by congruence.
      assert (Hl : Fs.lookup [k] (Dir (Fs.entries (Fs.del ((t :: q') ++ [n]) (Dir md))))
                   = Fs.lookup [k] (Dir md)).
      { rewrite Hdel. simpl app. apply FsFacts.lookup_del_head_ne. congruence. }
      cbn [Fs.lookup] in Hl.
      destruct (Fs.entries (Fs.del ((t :: q') ++ [n]) (Dir md)) !! k), (md !! k);
        congruence. }
    apply List.NoDup_cons_iff in Hnd as [Hnin Hnd].
    destruct (IH md1 (delete n ms) (put_dir D md1 w) HD1 Hms1 Hnd)
      as (md' & Hrun & Hstaged & Hin & Hout).
    { intros n' Hn'. destruct (Hall n' (or_intror Hn')) as (Hv & Hs & Hf).
      assert (n' <> n) by (intros ->; contradiction).
      assert (n' <> t) by (intros ->; congruence).
      split; [assumption|]. split.
      - now rewrite lookup_delete_ne by congruence.
      - rewrite Hother by assumption. assumption. }
    exists md'. split; [|split; [|split]].
    + cbn [for_each]. eapply MFacts.bind_eq; [exact Hstep|].
      rewrite Hrun. now rewrite (OsFacts.put_dir_put_dir D w).
    + exact Hstaged.
    + intros n' [<-|Hn'].
      * rewrite Hout by assumption. unfold md1. now rewrite lookup_insert_eq.
      * rewrite (Hin n' Hn'). apply lookup_delete_ne. intros ->. contradiction.
    + intros k Hk Hkt. rewrite Hout by (try assumption; intros ?; apply Hk; now right).
      apply Hother; [|assumption]. intros ->. apply Hk. now left.
Qed.

Lemma names_NoDup (m : gmap string node) : List.NoDup (Fs.names m).
Proof. apply List.NoDup_filter, NoDup_ListNoDup, NoDup_fst_map_to_list. Qed.

Lemma names_In (m : gmap string node) (n : string) :
  valid_names m -> In n (Fs.names m) <-> is_Some (m !! n).
Proof.
  intros Hv. rewrite OsFacts.names_spec. split; [tauto|].
  intros Hs. split; [now apply Hv | assumption].
Qed.

(** The second branch of [merge_staged], on a staged root [S] below the
    staging directory [t] of [D], when no staged name is taken in [D]:
    every staged entry arrives in [D] and the staging directory is
    deleted. *)
Lemma merge_tail_free (D S t : string) (q' : list string)
    (md ms : gmap string node) (w : world) :
  Os.stat D w = Some (Dir md) -> Fs.valid_name t = true ->
  Fs.components S = (Fs.components D ++ t :: q')%list ->
  Fs.lookup (t :: q') (Dir md) = Some (Dir ms) ->
  Os.stat S w = Some (Dir ms) ->
  valid_names ms ->
  (forall k, is_Some (ms !! k) -> md !! k = None) ->
  exists md',
    (listing <- Os.listdir S ;;
     for_each listing (merge_entry_ S D) ;;
     System.delete_folder (OsPath.join D t)) w
    = (Ok tt, put_dir D md' w)
    /\ md' !! t = None
    /\ (forall k, is_Some (ms !! k) -> md' !! k = ms !! k)
    /\ (forall k, ms !! k = None -> k <> t -> md' !! k = md !! k).
Proof.
  intros HD Ht HS Hms HstatS Hv Hfree.
  destruct (merge_loop_free D S t q' HS (Fs.names ms) md ms w HD Hms (names_NoDup ms))
    as (md1 & Hrun & [ms' Hstaged] & Hin & Hout).
  { intros n Hn. apply (names_In ms n Hv) in Hn. auto. }
  destruct (FsFacts.lookup_head_is_dir t q' md1 ms' Hstaged) as [mt Hmt].
  assert (HD1 : Os.stat D (put_dir D md1 w) = Some (Dir md1))
    by apply (OsFacts.stat_put_dir D w md HD).
  exists (delete t md1). split; [|split; [|split]].
  - eapply MFacts.bind_eq.
    { unfold Os.listdir. rewrite HstatS. reflexivity. }
    eapply MFacts.bind_eq; [exact Hrun|].
    rewrite (OsFacts.delete_folder_join D _ md1 HD1 t mt Ht Hmt).
    now rewrite (OsFacts.put_dir_put_dir D w).
  - apply lookup_delete_eq.
  - intros k Hk. pose proof (Hfree k Hk) as Hnone.
    assert (k <> t).
    { intros ->. destruct (FsFacts.lookup_head_is_dir t q' md ms Hms). congruence. }
    rewrite lookup_delete_ne by congruence.
    apply Hin. now apply names_In.
  - intros k Hk Hkt. rewrite lookup_delete_ne by congruence.
    apply Hout; [|assumption]. intros Hin'. apply (names_In ms k Hv) in Hin'.
    rewrite Hk in Hin'. now destruct Hin'.
Qed.

(** The staging directory [t] of [D] holds the single file [name], and the
    name is free in [D]. *)
Lemma merge_staged_single_free (D t name c : string)
    (md : gmap string node) (w : world) :
  Os.stat D w = Some (Dir md) ->
  Fs.valid_name t = true -> Fs.valid_name name = true ->
  md !! t = Some (Dir {[ name := File c ]}) ->
  md !! name = None ->
  merge_staged_ (OsPath.join D t) D true w
  = (Ok tt, put_dir D (delete t (<[name := File c]> (<[t := Dir ∅]> md))) w).
Proof.
  intros HD Ht Hn Hst Hfree.
  assert (Hnt : name <> t) by (intros E; rewrite E in Hfree; congruence).
  unfold merge_staged. cbv iota.
  eapply MFacts.bind_eq.
  { eapply MFacts.bind_eq; [|reflexivity]. unfold Os.listdir.
    rewrite (OsFacts.stat_join D w md HD t Ht), Hst.
    now rewrite (OsFacts.names_singleton name _ Hn). }
  cbv beta iota. unfold Os.path_isfile, Os.path_isdir. msimpl.
  rewrite (OsFacts.stat_join2 D w md HD t name _ Ht Hn Hst), lookup_singleton_eq.
  msimpl. cbn [first_extracted]. msimpl.
  rewrite (OsFacts.stat_join D w md HD name Hn), Hfree. msimpl.
  rewrite (OsFacts.stat_join D w md HD name Hn), Hfree. msimpl.
  set (md2 := <[name := File c]> (<[t := Dir ∅]> md)).
  eapply MFacts.bind_eq.
  { rewrite (OsFacts.move_into D w md HD t name {[ name := File c ]} (File c) Ht Hn Hst);
      [|apply lookup_singleton_eq | assumption].
    rewrite delete_singleton_eq. reflexivity. }
  fold md2.
  assert (HD2 : Os.stat D (put_dir D md2 w) = Some (Dir md2))
    by apply (OsFacts.stat_put_dir D w md HD).
  rewrite (OsFacts.removedirs_join D _ md2 HD2 t ∅ Ht).
  - now rewrite (OsFacts.put_dir_put_dir D w).
  - unfold md2. rewrite lookup_insert_ne by congruence. apply lookup_insert_eq.
  - apply OsFacts.empty_dir_empty.
  - apply (OsFacts.not_empty_dir _ name Hn). unfold md2.
    rewrite lookup_delete_ne, lookup_insert_eq by congruence. now eexists.
Qed.

Lemma filter_all {A} (f : A -> bool) (l : list A) :
  (forall x, In x l -> f x = true) -> List.filter f l = l.
Proof.
  induction l as [|a l IH]; intros H; [reflexivity|]. simpl.
  rewrite (H a (or_introl eq_refl)), IH; [reflexivity|].
  intros x Hx. apply H. now right.
Qed.

Lemma names_all_valid (m : gmap string node) :
  valid_names m -> Fs.names m = (map_to_list m).*1.
Proof.
  intros Hv. unfold Fs.names. apply filter_all. intros k Hk.
  apply list_elem_of_In, list_elem_of_fmap in Hk as ((k' & x) & -> & Hin).
  apply elem_of_map_to_list in Hin. apply Hv. now exists x.
Qed.

Lemma map_to_list_one (m : gmap string node) (k : string) (x : node) :
  map_to_list m = [(k, x)] -> m = {[ k := x ]}.
Proof.
  intros H. rewrite <- (list_to_map_to_list m), H. simpl. apply insert_empty.
Qed.

(** C6, the merge part: [merge_staged] with [merge_single] set, on a staging
    directory [t] of [D] whose effective entries are all free names of
    [D].  The effective entries arrive in [D], the staging directory is
    gone, and nothing else changes in [D]. *)
Lemma merge_staged_free (D t : string) (md staged : gmap string node) (w : world) :
  Os.stat D w = Some (Dir md) -> Fs.valid_name t = true ->
  md !! t = Some (Dir staged) ->
  valid_names staged -> valid_names (effective_entries staged) ->
  (forall k, is_Some (effective_entries staged !! k) -> md !! k = None) ->
  exists md',
    merge_staged_ (OsPath.join D t) D true w = (Ok tt, put_dir D md' w)
    /\ md' !! t = None
    /\ (forall k, is_Some (effective_entries staged !! k) ->
                  md' !! k = effective_entries staged !! k)
    /\ (forall k, effective_entries staged !! k = None -> k <> t ->
                  md' !! k = md !! k).
Proof.
  intros HD Ht Hst Hv Hve Hfree.
  assert (Hloop : effective_entries staged = staged ->
                  (forall name, Fs.names staged <> [name]) ->
                  exists md',
                    merge_staged_ (OsPath.join D t) D true w = (Ok tt, put_dir D md' w)
                    /\ md' !! t = None
                    /\ (forall k, is_Some (staged !! k) -> md' !! k = staged !! k)
                    /\ (forall k, staged !! k = None -> k <> t -> md' !! k = md !! k)).
  { intros HE Hnames. rewrite HE in Hfree.
    destruct (merge_tail_free D (OsPath.join D t) t [] md staged w HD Ht)
      as (md' & Hrun & Hprops); try assumption.
    - now apply PathFacts.components_join.
    - simpl. now rewrite Hst.
    - now rewrite (OsFacts.stat_join D w md HD t Ht).
    - exists md'. split; [|exact Hprops].
      unfold merge_staged. cbv iota.
      eapply MFacts.bind_eq.
      { eapply MFacts.bind_eq; [|reflexivity].
        apply (OsFacts.listdir_join D w md HD t staged Ht Hst). }
      cbv beta.
      assert (Htp : match Fs.names staged with
                    | [name] => OsPath.join (OsPath.join D t) name
                    | _ => OsPath.join D t
                    end = OsPath.join D t).
      { destruct (Fs.names staged) as [|a [|b l]] eqn:E; try reflexivity.
        now destruct (Hnames a). }
      cbv iota. rewrite Htp. unfold Os.path_isfile. msimpl.
      rewrite (OsFacts.stat_join D w md HD t Ht), Hst. msimpl.
      exact Hrun. }
  rewrite (names_all_valid staged Hv) in Hloop.
  destruct (map_to_list staged) as [|[top x] [|e2 rest]] eqn:Hl.
  - assert (HE : effective_entries staged = staged)
      by (unfold effective_entries; now rewrite Hl).
    rewrite HE. apply Hloop; [assumption | discriminate].
  - apply map_to_list_one in Hl as Hs.
    assert (Htop : Fs.valid_name top = true).
    { apply Hv. rewrite Hs, lookup_singleton_eq. now eexists. }
    destruct x as [c|inner].
    + assert (HE : effective_entries staged = staged)
        by (unfold effective_entries; now rewrite Hl).
      rewrite HE in *. rewrite Hs in *.
      assert (Hfree_top : md !! top = None)
        by (apply Hfree; rewrite lookup_singleton_eq; now eexists).
      assert (Hnt : top <> t) by (intros ->; congruence).
      exists (delete t (<[top := File c]> (<[t := Dir ∅]> md))).
      split; [|split; [|split]].
      * apply (merge_staged_single_free D t top c md w HD Ht Htop Hst Hfree_top).
      * apply lookup_delete_eq.
      * intros k [y Hk]. apply lookup_singleton_Some in Hk as [<- <-].
        rewrite lookup_singleton_eq. now map_lookup.
      * intros k Hk Hkt. apply lookup_singleton_None in Hk. now map_lookup.
    + assert (HE : effective_entries staged = inner)
        by (unfold effective_entries; now rewrite Hl).
      rewrite HE in *. rewrite Hs in Hst.
      destruct (merge_tail_free D (OsPath.join (OsPath.join D t) top) t [top]
                  md inner w HD Ht)
        as (md' & Hrun & Hprops); try assumption.
      * rewrite !PathFacts.components_join by assumption.
        now rewrite <- List.app_assoc.
      * simpl. rewrite Hst. simpl. now rewrite lookup_singleton_eq.
      * rewrite (OsFacts.stat_join2 D w md HD t top _ Ht Htop Hst).
        apply lookup_singleton_eq.
      * exists md'. split; [|exact Hprops].
        unfold merge_staged. cbv iota.
        eapply MFacts.bind_eq.
        { eapply MFacts.bind_eq; [|reflexivity].
          rewrite (OsFacts.listdir_join D w md HD t _ Ht Hst).
          now rewrite (OsFacts.names_singleton top _ Htop). }
        cbv beta iota. unfold Os.path_isfile. msimpl.
        rewrite (OsFacts.stat_join2 D w md HD t top _ Ht Htop Hst).
        rewrite lookup_singleton_eq. msimpl. exact Hrun.
  - assert (HE : effective_entries staged = staged)
      by (unfold effective_entries; rewrite Hl; now destruct x).
    rewrite HE. apply Hloop; [assumption | discriminate].
Qed.

End MergeFacts.

(** ** Name conflicts of a single staged file *)

Section CollisionFacts.

Variable RUNTIME_DIR : string.
Variable find_executable : string -> world -> result string.
Variable merge_folders : string -> string -> M unit.
Variable subprocess_call : list string -> M Z.
Variable TarFile : Type.
Variable tarfile_open : string -> option string -> M TarFile.
Variable TarFile_extractall : TarFile -> string -> M unit.
Variable TarFile_close : TarFile -> M unit.
Variable gunzip : string -> result string.

Local Abbreviation extract_archive_ :=
  (extract_archive RUNTIME_DIR find_executable merge_folders subprocess_call
     TarFile tarfile_open TarFile_extractall TarFile_close gunzip).
Local Abbreviation extract_to_staging_ :=
  (extract_to_staging RUNTIME_DIR find_executable subprocess_call
     TarFile tarfile_open TarFile_extractall TarFile_close gunzip).

(** What [extract_to_staging] returns when the backend succeeds. *)
Lemma extract_to_staging_ok
    (rec : string -> string -> bool -> option string -> M (string * string))
    (path to_directory : string) (extractor : option string)
    (w w1 : world) (path' temp_dir : string) :
  extract_to_staging_ rec path to_directory extractor w = (Ok (path', temp_dir), w1) ->
  path' = Os.abspath path
  /\ temp_dir = staging_path to_directory (urandom w (drawn w)).
Proof.
  unfold extract_to_staging.
  destruct (get_archive_opener _) as [opener mode].
  unfold bind, draw, try_except.
  destruct (_do_extract _ _ _ _ _ _ _ _ _ _ _ _ _ _ _) as [[[]|ex] w2].
  - intros H. injection H as <- <- _. now split.
  - destruct (caught_by_extract_archive ex); discriminate.
Qed.

(** C4.  The backend has left a single regular file [name] in the staging
    directory.  When the destination holds a directory called [name], that
    directory is renamed to [name] followed by a random identifier, with all
    its entries, and the staged file is placed at the destination (the new
    name is assumed free, and [name] is not the staging directory itself).
    When the destination holds a regular file called [name], the staged
    file replaces it.  In both cases the call succeeds, the staging
    directory is gone and no other entry of the destination changes. *)
Theorem extract_archive_single_file_collision
    (depth : nat) (path to_directory : string) (extractor : option string)
    (w w1 : world) (path' temp_dir name c : string) (md : gmap string node) :
  let t := ".extract-" +:+ random_id_of (urandom w (drawn w)) in
  let renamed := name +:+ random_id_of (urandom w1 (drawn w1)) in
  extract_to_staging_ (extract_archive_ depth) path to_directory extractor w
  = (Ok (path', temp_dir), w1) ->
  Os.stat to_directory w1 = Some (Dir md) ->
  md !! t = Some (Dir {[ name := File c ]}) ->
  Fs.valid_name name = true ->
  (forall sub,
      md !! name = Some (Dir sub) -> name <> t -> md !! renamed = None ->
      exists w',
        extract_archive_ (S depth) path to_directory true extractor w
        = (Ok (path', to_directory), w')
        /\ Os.stat (OsPath.join to_directory renamed) w' = Some (Dir sub)
        /\ Os.stat (OsPath.join to_directory name) w' = Some (File c)
        /\ Os.stat temp_dir w' = None
        /\ (forall k, Fs.valid_name k = true ->
                      k <> name -> k <> renamed -> k <> t ->
                      Os.stat (OsPath.join to_directory k) w'
                      = Os.stat (OsPath.join to_directory k) w1))
  /\ (forall c0,
        md !! name = Some (File c0) ->
        exists w',
          extract_archive_ (S depth) path to_directory true extractor w
          = (Ok (path', to_directory), w')
          /\ Os.stat (OsPath.join to_directory name) w' = Some (File c)
          /\ Os.stat temp_dir w' = None
          /\ (forall k, Fs.valid_name k = true -> k <> name -> k <> t ->
                        Os.stat (OsPath.join to_directory k) w'
                        = Os.stat (OsPath.join to_directory k) w1)).
Proof.
  intros t renamed Hstage HD Hst Hn.
  destruct (extract_to_staging_ok _ _ _ _ _ _ _ _ Hstage) as [-> ->].
  pose proof (staging_name_valid (urandom w (drawn w))) as Ht.
  change (staging_path to_directory (urandom w (drawn w)))
    with (OsPath.join to_directory t) in *.
  fold t in Ht. split.
  - intros sub Hdir Hnt Hfree.
    assert (Hrn : renamed <> name) by (intros E; rewrite E in Hfree; congruence).
    assert (Hrt : renamed <> t) by (intros E; rewrite E in Hfree; congruence).
    assert (Hrv : Fs.valid_name renamed = true).
    { apply PathFacts.valid_name_app; [assumption|].
      apply PathFacts.lower_hex_slash_free, UuidFacts.random_id_of_lower_hex. }
    set (wd := World (root w1) (urandom w1) (S (drawn w1))).
    set (md' := delete t (<[name := File c]> (<[t := Dir ∅]>
                  (<[renamed := Dir sub]> (delete name md))))).
    assert (HD' : Os.stat to_directory (put_dir to_directory md' wd) = Some (Dir md'))
      by apply (OsFacts.stat_put_dir to_directory wd md HD).
    exists (put_dir to_directory md' wd). split; [|split; [|split; [|split]]].
    + cbn [extract_archive]. unfold bind at 1. rewrite Hstage.
      unfold bind. fold renamed.
      now rewrite (merge_staged_single_over_dir merge_folders to_directory t name c
                     md sub w1 HD Ht Hn Hnt Hst Hdir Hfree).
    + rewrite (OsFacts.stat_join _ _ _ HD' renamed Hrv). unfold md'. now map_lookup.
    + rewrite (OsFacts.stat_join _ _ _ HD' name Hn). unfold md'. now map_lookup.
    + rewrite (OsFacts.stat_join _ _ _ HD' t Ht). unfold md'. now map_lookup.
    + intros k Hk Hkn Hkr Hkt.
      rewrite (OsFacts.stat_join _ _ _ HD' k Hk), (OsFacts.stat_join _ _ _ HD k Hk).
      unfold md'. now map_lookup.
  - intros c0 Hfile.
    assert (Hnt : name <> t) by (intros E; rewrite E in Hfile; congruence).
    set (md' := delete t (<[name := File c]> (<[t := Dir ∅]> (delete name md)))).
    assert (HD' : Os.stat to_directory (put_dir to_directory md' w1) = Some (Dir md'))
      by apply (OsFacts.stat_put_dir to_directory w1 md HD).
    exists (put_dir to_directory md' w1). split; [|split; [|split]].
    + cbn [extract_archive]. unfold bind at 1. rewrite Hstage.
      unfold bind.
      now rewrite (merge_staged_single_over_file merge_folders to_directory t name c c0
                     md w1 HD Ht Hn Hst Hfile).
    + rewrite (OsFacts.stat_join _ _ _ HD' name Hn). unfold md'. now map_lookup.
    + rewrite (OsFacts.stat_join _ _ _ HD' t Ht). unfold md'. now map_lookup.
    + intros k Hk Hkn Hkt.
      rewrite (OsFacts.stat_join _ _ _ HD' k Hk), (OsFacts.stat_join _ _ _ HD k Hk).
      unfold md'. now map_lookup.
Qed.

End CollisionFacts.

(** A tar archive with the single file [tools] goes to [/games], which has
    a directory [tools]: the directory becomes [tools00000000]; and an
    archive with the single file [readme.txt] replaces the file of that
    name. *)
Lemma extract_archive_single_file_collision_witness :
  (exists w',
      Scenario.extract_tar {[ "tools" := File "binary" ]} 2
      = (Ok ("/cache/pack.tar", "/games"), w')
      /\ Os.stat (OsPath.join "/games" "tools00000000") w'
         = Some (Dir {[ "old.txt" := File "old" ]})
      /\ Os.stat (OsPath.join "/games" "tools") w' = Some (File "binary")
      /\ Os.stat "/games/.extract-00000000" w' = None
      /\ (forall k, Fs.valid_name k = true ->
                    k <> "tools" -> k <> "tools00000000" -> k <> ".extract-00000000" ->
                    Os.stat (OsPath.join "/games" k) w'
                    = Os.stat (OsPath.join "/games" k)
                        (Scenario.staged {[ "tools" := File "binary" ]})))
  /\ (exists w',
        Scenario.extract_tar {[ "readme.txt" := File "version 2" ]} 2
        = (Ok ("/cache/pack.tar", "/games"), w')
        /\ Os.stat (OsPath.join "/games" "readme.txt") w' = Some (File "version 2")
        /\ Os.stat "/games/.extract-00000000" w' = None
        /\ (forall k, Fs.valid_name k = true ->
                      k <> "readme.txt" -> k <> ".extract-00000000" ->
                      Os.stat (OsPath.join "/games" k) w'
                      = Os.stat (OsPath.join "/games" k)
                          (Scenario.staged {[ "readme.txt" := File "version 2" ]}))).
Proof.
  split.
  - refine (proj1 (extract_archive_single_file_collision
                     Scenario.RUNTIME_DIR Scenario.no_executable Scenario.merge_refused
                     (Scenario.tool ∅ 0) unit Scenario.tar_open
                     (Scenario.tar_extractall {[ "tools" := File "binary" ]})
                     Scenario.tar_close Scenario.gunzip_stored
                     1 "/cache/pack.tar" "/games" None Scenario.world0
                     (Scenario.staged {[ "tools" := File "binary" ]})
                     "/cache/pack.tar" "/games/.extract-00000000" "tools" "binary"
                     (<[ ".extract-00000000" := Dir {[ "tools" := File "binary" ]} ]>
                        Scenario.games0)
                     _ _ _ _)
                  {[ "old.txt" := File "old" ]} _ _ _).
    + vm_compute. reflexivity.
    + vm_compute. reflexivity.
    + vm_compute. reflexivity.
    + reflexivity.
    + vm_compute. reflexivity.
    + discriminate.
    + vm_compute. reflexivity.
  - refine (proj2 (extract_archive_single_file_collision
                     Scenario.RUNTIME_DIR Scenario.no_executable Scenario.merge_refused
                     (Scenario.tool ∅ 0) unit Scenario.tar_open
                     (Scenario.tar_extractall {[ "readme.txt" := File "version 2" ]})
                     Scenario.tar_close Scenario.gunzip_stored
                     1 "/cache/pack.tar" "/games" None Scenario.world0
                     (Scenario.staged {[ "readme.txt" := File "version 2" ]})
                     "/cache/pack.tar" "/games/.extract-00000000" "readme.txt" "version 2"
                     (<[ ".extract-00000000" := Dir {[ "readme.txt" := File "version 2" ]} ]>
                        Scenario.games0)
                     _ _ _ _)
                  "version 1" _).
    + vm_compute. reflexivity.
    + vm_compute. reflexivity.
    + vm_compute. reflexivity.
    + reflexivity.
    + vm_compute. reflexivity.
Defined.

(** C5, as stated, fails: the staged entry [readme.txt] is a directory and
    the destination has a regular file [readme.txt].  The step of the merge
    loop succeeds and the directory stands where the file was, with a
    [merge_folders] that would fail if it were called; the whole
    [extract_archive] succeeds as well. *)
Lemma merge_entry_directory_over_file :
  let content : gmap string node :=
    {[ "readme.txt" := Dir {[ "en.txt" := File "version 2" ]};
       "notes.txt" := File "notes" ]} in
  let step :=
    merge_entry Scenario.merge_refused "/games/.extract-00000000" "/games"
      "readme.txt" (Scenario.staged content) in
  fst step = Ok tt
  /\ Os.stat "/games/readme.txt" (Scenario.staged content) = Some (File "version 1")
  /\ Os.stat "/games/readme.txt" (snd step)
     = Some (Dir {[ "en.txt" := File "version 2" ]})
  /\ fst (Scenario.extract_tar content 2) = Ok ("/cache/pack.tar", "/games")
  /\ Os.stat "/games/readme.txt" (snd (Scenario.extract_tar content 2))
     = Some (Dir {[ "en.txt" := File "version 2" ]}).
Proof. vm_compute. repeat split; reflexivity. Qed.

(** The amended statement on the same step: a staged directory over a
    regular file of the destination. *)
Lemma merge_entry_replaces_file_witness :
  let content : gmap string node :=
    {[ "readme.txt" := Dir {[ "en.txt" := File "version 2" ]};
       "notes.txt" := File "notes" ]} in
  exists w',
    merge_entry Scenario.merge_refused "/games/.extract-00000000" "/games"
      "readme.txt" (Scenario.staged content) = (Ok tt, w')
    /\ Os.stat (OsPath.join "/games" "readme.txt") w'
       = Some (Dir {[ "en.txt" := File "version 2" ]})
    /\ Os.stat (OsPath.join "/games/.extract-00000000" "readme.txt") w' = None
    /\ (forall k, Fs.valid_name k = true -> k <> "readme.txt" ->
                  List.hd_error [".extract-00000000"] <> Some k ->
                  Os.stat (OsPath.join "/games" k) w'
                  = Os.stat (OsPath.join "/games" k) (Scenario.staged content)).
Proof.
  intros content.
  apply (merge_entry_replaces_file Scenario.merge_refused
           "/games" "/games/.extract-00000000" "readme.txt" "version 1"
           [".extract-00000000"]
           (<[ ".extract-00000000" := Dir content ]> Scenario.games0)
           content (Dir {[ "en.txt" := File "version 2" ]})
           (Scenario.staged content)).
  - vm_compute. reflexivity.
  - reflexivity.
  - reflexivity.
  - discriminate.
  - vm_compute. reflexivity.
  - vm_compute. reflexivity.
  - vm_compute. reflexivity.
Defined.

(** ** Debian packages *)

Lemma concat_slash_snoc (l : list string) (a : string) :
  String.concat "/" (l ++ [a])
  = match l with [] => a | _ => String.concat "/" l +:+ "/" +:+ a end.
Proof.
  induction l as [|x l IH]; [reflexivity|].
  change ((x :: l) ++ [a])%list with (x :: (l ++ [a]))%list.
  cbn [String.concat]. rewrite IH.
  destruct l as [|y l]; [reflexivity|].
  change ((y :: l) ++ [a])%list with (y :: (l ++ [a]))%list. cbv iota.
  now rewrite !StrFacts.app_assoc.
Qed.

(** [normpath] keeps a component that is a name other than [.] and [..]. *)
Lemma normpath_step_name (initial : nat) (acc : list string) (n : string) :
  n <> "" -> n <> "." -> n <> ".." ->
  Os.normpath_step initial acc n = (acc ++ [n])%list.
Proof.
  intros H0 H1 H2. unfold Os.normpath_step.
  apply String.eqb_neq in H0, H1, H2. now rewrite H0, H1, H2.
Qed.

Lemma join_getcwd (p : string) :
  Str.startswith p "/" = false -> OsPath.join Os.getcwd p = "/" +:+ p.
Proof. intros H. unfold OsPath.join, Os.getcwd. now rewrite H. Qed.

(** The absolute path of an entry [n] of a directory, other than [.] and
    [..], ends with the name. *)
Lemma abspath_join (dest n : string) :
  Fs.valid_name n = true -> n <> "." -> n <> ".." ->
  exists stem, Os.abspath (OsPath.join dest n) = stem +:+ "/" +:+ n.
Proof.
  intros Hn Hdot Hdots.
  pose proof (proj1 (PathFacts.valid_name_spec n) Hn) as [Hne Hsf].
  assert (HP : exists X, (if Str.startswith (OsPath.join dest n) "/"
                          then OsPath.join dest n
                          else OsPath.join Os.getcwd (OsPath.join dest n))
                         = X +:+ String "/" n).
  { assert (HJ : OsPath.join dest n = n
                 \/ exists a, OsPath.join dest n = a +:+ String "/" n).
    { destruct (PathFacts.join_cases dest n Hn)
        as [[_ H]|[(a' & _ & H)|(_ & _ & H)]]; eauto. }
    destruct (Str.startswith (OsPath.join dest n) "/") eqn:E.
    - destruct HJ as [HJ|[a HJ]]; [|now exists a].
      rewrite HJ in E. now rewrite (PathFacts.startswith_slash_valid n Hn) in E.
    - rewrite (join_getcwd _ E). destruct HJ as [-> |[a ->]];
        [now exists "" | now exists ("/" +:+ a)]. }
  destruct HP as [X HP]. unfold Os.abspath. rewrite HP. unfold Os.normpath.
  assert (Hnonempty : String.eqb (X +:+ String "/" n) "" = false)
    by (apply String.eqb_neq; destruct X; discriminate).
  rewrite Hnonempty. cbv zeta.
  rewrite PathFacts.split_slash_app, (PathFacts.split_slash_slash_free n Hsf).
  rewrite List.fold_left_app. cbn [List.fold_left].
  rewrite normpath_step_name by assumption.
  rewrite concat_slash_snoc.
  set (acc := List.fold_left _ _ _). set (pre := Str.take _ "//").
  destruct acc as [|a acc'].
  - (* nothing is kept before the name: the leading slashes end the stem *)
    assert (Hpre : exists s, pre = s +:+ "/").
    { unfold pre, Os.initial_slashes.
      assert (Hs : Str.startswith (X +:+ String "/" n) "/" = true).
      { rewrite <- HP. destruct (Str.startswith (OsPath.join dest n) "/") eqn:E;
          [exact E|]. rewrite (join_getcwd _ E).
        change ("/" +:+ OsPath.join dest n) with (String "/" (OsPath.join dest n)).
        now rewrite PathFacts.startswith_slash_cons. }
      rewrite Hs. destruct (_ && _); [now exists "/" | now exists ""]. }
    destruct Hpre as [s ->].
    assert (Hx : String.eqb ((s +:+ "/") +:+ n) "" = false)
      by (apply String.eqb_neq; destruct s; discriminate).
    rewrite Hx. exists s. now rewrite StrFacts.app_assoc.
  - set (body := String.concat "/" (a :: acc')).
    assert (Hx : String.eqb (pre +:+ (body +:+ "/" +:+ n)) "" = false).
    { apply String.eqb_neq. intros E. apply (f_equal String.length) in E.
      rewrite !StrFacts.length_app in E. simpl in E. lia. }
    rewrite Hx. exists (pre +:+ body). now rewrite !StrFacts.app_assoc.
Qed.

(** A component that [normpath] keeps in an absolute path: a name other
    than [.] and [..]. *)
Local Abbreviation kept_ :=
  (fun c : string => Fs.valid_name c = true /\ c <> "." /\ c <> "..").

Lemma split_slash_parts (p : string) :
  Forall (fun c => Fs.slash_free c = true) (Fs.split_slash p).
Proof.
  induction p as [|c p IH]; [repeat constructor|].
  rewrite PathFacts.split_slash_cons.
  destruct (Ascii.eqb c "/") eqn:E; [constructor; [reflexivity | exact IH]|].
  destruct (Fs.split_slash p) as [|x xs].
  - repeat constructor. unfold Fs.slash_free. simpl. now rewrite E.
  - inversion IH as [|? ? Hx Hxs]; subst. constructor; [|exact Hxs].
    unfold Fs.slash_free in *. simpl. now rewrite E.
Qed.

Lemma normpath_step_kept (initial : nat) (acc : list string) (c : string) :
  initial <> 0 -> Fs.slash_free c = true ->
  Forall kept_ acc -> Forall kept_ (Os.normpath_step initial acc c).
Proof.
  intros Hi Hc Hacc. unfold Os.normpath_step.
  destruct (String.eqb c "") eqn:E0; [exact Hacc|].
  destruct (String.eqb c ".") eqn:E1; [exact Hacc|]. cbn [orb].
  destruct (String.eqb c "..") eqn:E2; cbn [negb orb].
  - assert (Hn : Nat.eqb initial 0 = false) by now apply Nat.eqb_neq.
    rewrite Hn. cbn [andb orb].
    assert (Hl : String.eqb (List.last acc "") ".." = false).
    { apply String.eqb_neq. intros E.
      destruct acc as [|a acc'] using rev_ind; [discriminate E|].
      rewrite List.last_last in E. subst a.
      apply Forall_app in Hacc as [_ Hk]. inversion Hk as [|? ? [_ [_ H]] _]; subst.
      now apply H. }
    rewrite Hl. destruct acc as [|a acc'] using rev_ind; [constructor|].
    rewrite List.removelast_last. now apply Forall_app in Hacc as [H _].
  - apply Forall_app. split; [exact Hacc|]. constructor; [|constructor].
    apply String.eqb_neq in E0, E1, E2. repeat split; try assumption.
    apply PathFacts.valid_name_spec. now split.
Qed.

Lemma normpath_fold_kept (initial : nat) (cs acc : list string) :
  initial <> 0 -> Forall (fun c => Fs.slash_free c = true) cs ->
  Forall kept_ acc -> Forall kept_ (List.fold_left (Os.normpath_step initial) cs acc).
Proof.
  intros Hi Hcs. revert acc. induction Hcs as [|c cs Hc _ IH]; intros acc Hacc.
  - exact Hacc.
  - cbn [List.fold_left]. apply IH. now apply normpath_step_kept.
Qed.

Lemma components_concat (cs : list string) :
  Forall kept_ cs -> Fs.components (String.concat "/" cs) = cs.
Proof.
  induction 1 as [|c cs [Hc _] Hcs IH]; [reflexivity|].
  destruct cs as [|d cs].
  - now apply PathFacts.components_valid.
  - change (String.concat "/" (c :: d :: cs))
      with (c +:+ String "/" (String.concat "/" (d :: cs))).
    rewrite PathFacts.components_app, IH.
    now rewrite PathFacts.components_valid.
Qed.

Lemma components_slash (s : string) : Fs.components (String "/" s) = Fs.components s.
Proof. unfold Fs.components. now rewrite PathFacts.split_slash_cons. Qed.

Lemma initial_slashes_absolute (p : string) :
  Str.startswith p "/" = true ->
  (Os.initial_slashes p = 1 \/ Os.initial_slashes p = 2).
Proof.
  intros H. unfold Os.initial_slashes. rewrite H. destruct (_ && _); auto.
Qed.

(** The normal form of an absolute path is canonical. *)
Lemma normpath_canonical (p : string) :
  Str.startswith p "/" = true -> Fs.canonical (Os.normpath p) = true.
Proof.
  intros Habs. unfold Os.normpath.
  destruct (String.eqb p "") eqn:E; [apply String.eqb_eq in E; now subst p|].
  cbv zeta.
  pose proof (normpath_fold_kept (Os.initial_slashes p) (Fs.split_slash p) []) as Hk.
  set (cs := List.fold_left _ _ _) in *.
  assert (Hcs : Forall kept_ cs).
  { apply Hk; [|apply split_slash_parts|constructor].
    destruct (initial_slashes_absolute p Habs) as [-> | ->]; discriminate. }
  assert (Hgood : forallb (fun c => negb (String.eqb c ".") && negb (String.eqb c ".."))
                    cs = true).
  { apply forallb_forall. intros c Hc.
    rewrite List.Forall_forall in Hcs. destruct (Hcs c Hc) as (_ & H1 & H2).
    apply String.eqb_neq in H1, H2. now rewrite H1, H2. }
  unfold Fs.canonical.
  destruct (initial_slashes_absolute p Habs) as [-> | ->]; cbn [Str.take].
  - change ("/" +:+ String.concat "/" cs) with (String "/" (String.concat "/" cs)).
    cbn [String.eqb]. rewrite PathFacts.startswith_slash_cons, components_slash.
    now rewrite components_concat.
  - change ("//" +:+ String.concat "/" cs)
      with (String "/" (String "/" (String.concat "/" cs))).
    cbn [String.eqb]. rewrite PathFacts.startswith_slash_cons, !components_slash.
    now rewrite components_concat.
Qed.

(** A component other than [.] and [..]. *)
Local Abbreviation plain_ :=
  (fun c : string => negb (String.eqb c ".") && negb (String.eqb c "..")).

(** On components that are empty or names other than [.] and [..],
    [normpath] keeps the names. *)
Lemma normpath_fold_plain (initial : nat) (cs acc : list string) :
  forallb plain_ (List.filter (fun c => negb (String.eqb c "")) cs) = true ->
  List.fold_left (Os.normpath_step initial) cs acc
  = (acc ++ List.filter (fun c => negb (String.eqb c "")) cs)%list.
Proof.
  revert acc. induction cs as [|c cs IH]; intros acc H.
  - now rewrite List.app_nil_r.
  - cbn [List.fold_left List.filter] in *.
    destruct (String.eqb c "") eqn:E0; cbn [negb] in *.
    + unfold Os.normpath_step at 2. rewrite E0. cbn [orb]. now apply IH.
    + cbn [forallb] in H. apply andb_true_iff in H as [Hc H].
      apply andb_true_iff in Hc as [H1 H2]. apply negb_true_iff in H1, H2.
      unfold Os.normpath_step at 2. rewrite E0, H1, H2. cbn [orb negb].
      rewrite IH by assumption. now rewrite <- List.app_assoc.
Qed.


Lemma components_parts (p : string) :
  Forall (fun c => Fs.valid_name c = true) (Fs.components p).
Proof.
  unfold Fs.components. apply List.Forall_forall. intros c Hc.
  apply List.filter_In in Hc as [Hin Hne].
  apply PathFacts.valid_name_spec. split.
  - apply negb_true_iff, String.eqb_neq in Hne. exact Hne.
  - pose proof (split_slash_parts p) as H. rewrite List.Forall_forall in H. now apply H.
Qed.

Lemma components_plain_kept (p : string) :
  forallb plain_ (Fs.components p) = true -> Forall kept_ (Fs.components p).
Proof.
  intros H. apply List.Forall_forall. intros c Hc.
  pose proof (components_parts p) as Hv.
  rewrite forallb_forall in H. specialize (H c Hc).
  apply andb_true_iff in H as [H1 H2]. apply negb_true_iff in H1, H2.
  apply String.eqb_neq in H1, H2. repeat split; try assumption.
  rewrite List.Forall_forall in Hv. now apply Hv.
Qed.

(** The absolute path of a canonical path leads where the path leads. *)
Lemma abspath_canonical (p : string) :
  Fs.canonical p = true ->
  Os.abspath p <> "" /\ Fs.components (Os.abspath p) = Fs.components p.
Proof.
  unfold Fs.canonical. intros [Habs Hplain]%andb_true_iff.
  unfold Os.abspath. rewrite Habs. unfold Os.normpath.
  destruct (String.eqb p "") eqn:E; [apply String.eqb_eq in E; now subst p|].
  cbv zeta. rewrite normpath_fold_plain by exact Hplain. cbn [app].
  fold (Fs.components p).
  pose proof (components_plain_kept p Hplain) as Hk.
  destruct (initial_slashes_absolute p Habs) as [-> | ->]; cbn [Str.take].
  - change ("/" +:+ String.concat "/" (Fs.components p))
      with (String "/" (String.concat "/" (Fs.components p))).
    cbn [String.eqb]. split; [discriminate|].
    now rewrite components_slash, components_concat.
  - change ("//" +:+ String.concat "/" (Fs.components p))
      with (String "/" (String "/" (String.concat "/" (Fs.components p)))).
    cbn [String.eqb]. split; [discriminate|].
    now rewrite !components_slash, components_concat.
Qed.

Lemma stat_abspath_canonical (p : string) (w : world) :
  Fs.canonical p = true -> Os.stat (Os.abspath p) w = Os.stat p w.
Proof.
  intros Hc. destruct (abspath_canonical p Hc) as [Hne Hcs].
  assert (Hp : p <> "") by (intros ->; discriminate Hc).
  unfold Os.stat, Fs.resolve. apply String.eqb_neq in Hne, Hp.
  now rewrite Hne, Hp, Hcs.
Qed.

Lemma startswith_slash_app (a b : string) :
  Str.startswith a "/" = true -> Str.startswith (a +:+ b) "/" = true.
Proof.
  destruct a as [|c a]; [discriminate|].
  change (String c a +:+ b) with (String c (a +:+ b)).
  now rewrite !PathFacts.startswith_slash_cons.
Qed.

(** An entry of a canonical directory, other than [.] and [..], has a
    canonical path. *)
Lemma canonical_join (a n : string) :
  Fs.canonical a = true -> Fs.valid_name n = true -> n <> "." -> n <> ".." ->
  Fs.canonical (OsPath.join a n) = true.
Proof.
  unfold Fs.canonical. intros [Habs Hplain]%andb_true_iff Hn H1 H2.
  rewrite PathFacts.components_join by assumption.
  rewrite forallb_app, Hplain. cbn [forallb].
  apply String.eqb_neq in H1, H2. rewrite H1, H2. cbn [negb andb].
  rewrite andb_true_r.
  destruct (PathFacts.join_cases a n Hn) as [[-> _]|[(a' & Ha & ->)|(_ & _ & ->)]].
  - discriminate Habs.
  - subst a. change (a' +:+ String "/" n) with (a' +:+ "/" +:+ n).
    rewrite <- StrFacts.app_assoc. now apply startswith_slash_app.
  - now apply startswith_slash_app.
Qed.

Lemma guess_extractor_tar_xz (stem : string) :
  guess_extractor (stem +:+ ".tar.xz") = Some "txz".
Proof.
  unfold guess_extractor, Str.endswith_any; simpl existsb.
  endswith_known. reflexivity.
Qed.

Lemma guess_extractor_data_tar_xz (dest : string) :
  guess_extractor (Os.abspath (OsPath.join dest "data.tar.xz")) = Some "txz".
Proof.
  destruct (abspath_join dest "data.tar.xz" eq_refl ltac:(discriminate)
              ltac:(discriminate)) as [stem ->].
  change (stem +:+ "/" +:+ "data.tar.xz") with (stem +:+ "/data" +:+ ".tar.xz").
  rewrite <- StrFacts.app_assoc. apply guess_extractor_tar_xz.
Qed.

(** Unpacking a tar archive that has members into a free name [t] of the
    directory [D]. *)
Lemma tar_unpacks_staged {TarFile : Type}
    (tarfile_open : string -> option string -> M TarFile)
    (TarFile_extractall : TarFile -> string -> M unit)
    (TarFile_close : TarFile -> M unit)
    (archive : string) (mode : option string) (data : string)
    (content md : gmap string node) (D t : string) (w : world) :
  tar_unpacks tarfile_open TarFile_extractall TarFile_close archive mode data content ->
  Os.stat archive w = Some (File data) ->
  content <> ∅ ->
  Os.stat D w = Some (Dir md) -> Fs.valid_name t = true -> md !! t = None ->
  exists handler,
    tarfile_open archive mode w = (Ok handler, w)
    /\ TarFile_extractall handler (OsPath.join D t) w
       = (Ok tt, put_dir D (<[t := Dir content]> md) w)
    /\ TarFile_close handler (put_dir D (<[t := Dir content]> md) w)
       = (Ok tt, put_dir D (<[t := Dir content]> md) w).
Proof.
  intros Htar Hfile Hne HD Ht Hfree.
  destruct (Htar w (OsPath.join D t)) as (handler & Hopen & _ & Hfull).
  - exact Hfile.
  - apply PathFacts.join_nonempty.
    now destruct (proj1 (PathFacts.valid_name_spec t) Ht).
  - now rewrite (OsFacts.stat_join D w md HD t Ht).
  - rewrite PathFacts.components_join by assumption.
    rewrite List.removelast_last, (OsFacts.lookup_dir D w md HD). reflexivity.
  - destruct (Hfull Hne) as [Hall Hclose]. exists handler.
    rewrite <- (OsFacts.put_dir_join D w md HD t content Ht). auto.
Qed.

Section DebFacts.

Variable RUNTIME_DIR : string.
Variable find_executable : string -> world -> result string.
Variable merge_folders : string -> string -> M unit.
Variable subprocess_call : list string -> M Z.
Variable TarFile : Type.
Variable tarfile_open : string -> option string -> M TarFile.
Variable TarFile_extractall : TarFile -> string -> M unit.
Variable TarFile_close : TarFile -> M unit.
Variable gunzip : string -> result string.

Local Abbreviation extract_archive_ :=
  (extract_archive RUNTIME_DIR find_executable merge_folders subprocess_call
     TarFile tarfile_open TarFile_extractall TarFile_close gunzip).
Local Abbreviation extract_7zip_ :=
  (extract_7zip RUNTIME_DIR find_executable subprocess_call).
Local Abbreviation extract_deb_ :=
  (extract_deb RUNTIME_DIR find_executable subprocess_call).
Local Abbreviation tar_unpacks_ :=
  (tar_unpacks tarfile_open TarFile_extractall TarFile_close).

(** The first extension of the list whose control tarball exists is the one
    that is moved; the extensions after it are not looked at. *)
Lemma extract_deb_control_first
    (dest debian_folder ext : string) (pre post : list string) (w : world) :
  (forall e, In e pre -> Os.stat (OsPath.join dest ("control.tar" +:+ e)) w = None) ->
  Os.stat (OsPath.join dest ("control.tar" +:+ ext)) w <> None ->
  extract_deb_control dest debian_folder (pre ++ ext :: post) w
  = Shutil.move (OsPath.join dest ("control.tar" +:+ ext)) debian_folder w.
Proof.
  intros Hpre Hext. induction pre as [|e pre IH].
  - cbn [app extract_deb_control]. unfold Os.path_exists. rewrite MFacts.bind_gets.
    now destruct (Os.stat (OsPath.join dest ("control.tar" +:+ ext)) w).
  - cbn [app extract_deb_control]. unfold Os.path_exists. rewrite MFacts.bind_gets.
    rewrite (Hpre e (or_introl eq_refl)). apply IH.
    intros e' He'. apply Hpre. now right.
Qed.

(** The first extension of the list whose data tarball exists is the one
    that is extracted and then removed. *)
Lemma extract_deb_data_first
    (rec : string -> string -> bool -> option string -> M (string * string))
    (dest ext : string) (pre post : list string) (w : world) :
  (forall e, In e pre -> Os.stat (OsPath.join dest ("data.tar" +:+ e)) w = None) ->
  Os.stat (OsPath.join dest ("data.tar" +:+ ext)) w <> None ->
  extract_deb_data rec dest (pre ++ ext :: post) w
  = (rec (OsPath.join dest ("data.tar" +:+ ext)) dest true None ;;
     Os.remove (OsPath.join dest ("data.tar" +:+ ext))) w.
Proof.
  intros Hpre Hext. induction pre as [|e pre IH].
  - cbn [app extract_deb_data]. unfold Os.path_exists. rewrite MFacts.bind_gets.
    now destruct (Os.stat (OsPath.join dest ("data.tar" +:+ ext)) w).
  - cbn [app extract_deb_data]. unfold Os.path_exists. rewrite MFacts.bind_gets.
    rewrite (Hpre e (or_introl eq_refl)). apply IH.
    intros e' He'. apply Hpre. now right.
Qed.

(** The extraction of a tar archive that lies in its own destination
    directory, when the names it brings are free there. *)
Lemma extract_archive_tar_free
    (depth : nat) (dest n : string) (mode : option string) (data : string)
    (md content : gmap string node) (w : world) :
  let path := Os.abspath (OsPath.join dest n) in
  let t := ".extract-" +:+ random_id_of (urandom w (drawn w)) in
  let wd := World (root w) (urandom w) (S (drawn w)) in
  get_archive_opener (guess_extractor path) = (TarfileOpen, mode) ->
  tar_unpacks_ path mode data content -> Os.stat path w = Some (File data) ->
  content <> ∅ ->
  Os.stat dest w = Some (Dir md) -> md !! t = None ->
  valid_names content -> valid_names (effective_entries content) ->
  (forall k, is_Some (effective_entries content !! k) -> md !! k = None /\ k <> t) ->
  exists md',
    extract_archive_ (S depth) (OsPath.join dest n) dest true None w
    = (Ok (path, dest), put_dir dest md' wd)
    /\ md' !! t = None
    /\ (forall k, is_Some (effective_entries content !! k) ->
                  md' !! k = effective_entries content !! k)
    /\ (forall k, effective_entries content !! k = None -> k <> t ->
                  md' !! k = md !! k).
Proof.
  intros path t wd Hopener Htar Hfile Hmembers HD Hfreet Hv Hve Hfree.
  pose proof (staging_name_valid (urandom w (drawn w))) as Ht. fold t in Ht.
  assert (HDd : Os.stat dest wd = Some (Dir md)) by exact HD.
  assert (Hfiled : Os.stat path wd = Some (File data)) by exact Hfile.
  set (md1 := <[t := Dir content]> md).
  assert (HD1 : Os.stat dest (put_dir dest md1 wd) = Some (Dir md1))
    by apply (OsFacts.stat_put_dir dest wd md HDd).
  destruct (merge_staged_free merge_folders dest t md1 content (put_dir dest md1 wd)
              HD1 Ht)
    as (md' & Hrun & Ht' & Hin & Hout); try assumption.
  - unfold md1. apply lookup_insert_eq.
  - intros k Hk. destruct (Hfree k Hk) as [Hnone Hkt].
    unfold md1. now rewrite lookup_insert_ne by congruence.
  - exists md'. split; [|split; [|split]]; try assumption.
    + cbn [extract_archive]. eapply MFacts.bind_eq.
      { unfold extract_to_staging. fold path. rewrite Hopener.
        eapply MFacts.bind_eq; [reflexivity|]. cbv beta.
        change (staging_path dest (urandom w (drawn w))) with (OsPath.join dest t).
        fold wd.
        destruct (tar_unpacks_staged _ _ _ _ _ _ _ md dest t wd
                    Htar Hfiled Hmembers HDd Ht Hfreet)
          as (handler & Hopen & Hall & Hclose).
        eapply MFacts.bind_eq; [|reflexivity].
        unfold try_except, _do_extract. cbn [opener_is]. cbv iota.
        unfold bind. now rewrite Hopen, Hall, Hclose. }
      cbv beta iota. fold md1. eapply MFacts.bind_eq; [exact Hrun|].
      now rewrite (OsFacts.put_dir_put_dir dest wd).
    + intros k Hk Hkt. rewrite (Hout k Hk Hkt). unfold md1.
      now rewrite lookup_insert_ne by congruence.
Qed.

(** C6 (amended).  The 7-zip step has left [control.tar.gz] and
    [data.tar.xz] (and no [data.tar.gz]) in [dest], a directory given by a
    canonical path; the data tarball has members, and the names it brings
    and the staging name of the inner extraction are free in [dest].  Then [extract_deb] succeeds; the control
    tarball is in [dest/debian], with its bytes unchanged, and no longer in
    [dest]; what the data tarball holds is in [dest], merged as
    [extract_archive] merges any archive: when the tarball has a single
    top-level directory, the entries of that directory, and not the
    directory, are placed in [dest]; [data.tar.xz] and the staging
    directory of the inner extraction are gone; and nothing else changed in
    [dest].  The extensions are probed in the order of [control_file_exts]
    and [data_file_exts], and the first one whose file exists is the only
    one handled. *)
Theorem extract_deb_control_and_data
    (depth : nat) (archive dest cc dd : string)
    (ar content : gmap string node) (w w1 : world) :
  let t := ".extract-" +:+ random_id_of (urandom w1 (drawn w1)) in
  Fs.canonical dest = true ->
  extract_7zip_ archive dest (Some "ar") w = (Ok tt, w1) ->
  Os.stat dest w1 = Some (Dir ar) ->
  ar !! "control.tar.gz" = Some (File cc) ->
  ar !! "data.tar.xz" = Some (File dd) ->
  ar !! "data.tar.gz" = None ->
  ar !! "debian" = None ->
  ar !! t = None ->
  tar_unpacks_ (Os.abspath (OsPath.join dest "data.tar.xz")) (Some "r:xz") dd content ->
  content <> ∅ ->
  valid_names content -> valid_names (effective_entries content) ->
  (forall k, is_Some (effective_entries content !! k) ->
             ar !! k = None /\ k <> "debian" /\ k <> t) ->
  (control_file_exts = [".gz"; ".xz"; ".zst"; ""]
   /\ data_file_exts = [".gz"; ".xz"; ".zst"; ".bz2"; ".lzma"; ""])
  /\ (forall debian_folder ext pre post w0,
        control_file_exts = (pre ++ ext :: post)%list ->
        (forall e, In e pre ->
                   Os.stat (OsPath.join dest ("control.tar" +:+ e)) w0 = None) ->
        Os.stat (OsPath.join dest ("control.tar" +:+ ext)) w0 <> None ->
        extract_deb_control dest debian_folder control_file_exts w0
        = Shutil.move (OsPath.join dest ("control.tar" +:+ ext)) debian_folder w0)
  /\ (forall rec ext pre post w0,
        data_file_exts = (pre ++ ext :: post)%list ->
        (forall e, In e pre ->
                   Os.stat (OsPath.join dest ("data.tar" +:+ e)) w0 = None) ->
        Os.stat (OsPath.join dest ("data.tar" +:+ ext)) w0 <> None ->
        extract_deb_data rec dest data_file_exts w0
        = (rec (OsPath.join dest ("data.tar" +:+ ext)) dest true None ;;
           Os.remove (OsPath.join dest ("data.tar" +:+ ext))) w0)
  /\ exists w',
      extract_deb_ (extract_archive_ (S depth)) archive dest w = (Ok tt, w')
      /\ Os.stat (OsPath.join dest "debian") w'
         = Some (Dir {[ "control.tar.gz" := File cc ]})
      /\ Os.stat (OsPath.join dest "control.tar.gz") w' = None
      /\ Os.stat (OsPath.join dest "data.tar.xz") w' = None
      /\ Os.stat (OsPath.join dest t) w' = None
      /\ (forall k x, effective_entries content !! k = Some x ->
                      Os.stat (OsPath.join dest k) w' = Some x)
      /\ (forall k, Fs.valid_name k = true ->
                    effective_entries content !! k = None ->
                    k <> "debian" -> k <> "control.tar.gz" ->
                    k <> "data.tar.xz" -> k <> t ->
                    Os.stat (OsPath.join dest k) w'
                    = Os.stat (OsPath.join dest k) w1).
Proof.
  intros t Hcan H7z HD Hcc Hdd Hdgz Hdeb Hfreet Htar Hmembers Hv Hve Hfree.
  split; [split; reflexivity|]. split; [|split].
  { intros debian_folder ext pre post w0 ->. apply extract_deb_control_first. }
  { intros rec ext pre post w0 ->. apply extract_deb_data_first. }
  pose proof (staging_name_valid (urandom w1 (drawn w1))) as Ht. fold t in Ht.
  assert (Htd : t <> "debian") by (unfold t; intros E; discriminate E).
  assert (Htc : t <> "control.tar.gz") by (unfold t; intros E; discriminate E).
  assert (Htx : t <> "data.tar.xz") by (unfold t; intros E; discriminate E).
  assert (HE : forall k, is_Some (effective_entries content !! k) ->
                         k <> "control.tar.gz" /\ k <> "data.tar.xz").
  { intros k Hk. destruct (Hfree k Hk) as [Hnone _].
    split; intros ->; congruence. }
  set (md2 := <["debian" := Dir ∅]> ar).
  set (md3 := <["debian" := Dir (<["control.tar.gz" := File cc]> ∅)]>
                (delete "control.tar.gz" md2)).
  assert (HD2 : Os.stat dest (put_dir dest md2 w1) = Some (Dir md2))
    by apply (OsFacts.stat_put_dir dest w1 ar HD).
  assert (HD3 : Os.stat dest (put_dir dest md3 w1) = Some (Dir md3))
    by apply (OsFacts.stat_put_dir dest w1 ar HD).
  set (w3 := put_dir dest md3 w1) in *.
  assert (Hd3 : md3 !! "data.tar.xz" = Some (File dd))
    by (unfold md3, md2; now map_lookup).
  destruct (extract_archive_tar_free depth dest "data.tar.xz" (Some "r:xz") dd
              md3 content w3)
    as (md5 & Hrun & Ht5 & Hin & Hout); try assumption.
  { now rewrite guess_extractor_data_tar_xz. }
  { rewrite stat_abspath_canonical
      by (apply canonical_join; [assumption | reflexivity | discriminate | discriminate]).
    now rewrite (OsFacts.stat_join dest w3 md3 HD3 "data.tar.xz" eq_refl). }
  { change (md3 !! t = None). unfold md3, md2. now map_lookup. }
  { intros k Hk. destruct (Hfree k Hk) as (Hnone & Hkd & Hkt).
    destruct (HE k Hk) as [Hkc Hkx]. split; [|exact Hkt].
    unfold md3, md2. now map_lookup. }
  set (wd := World (root w3) (urandom w3) (S (drawn w3))) in *.
  assert (HDd : Os.stat dest wd = Some (Dir md3)) by exact HD3.
  assert (HD5 : Os.stat dest (put_dir dest md5 wd) = Some (Dir md5))
    by apply (OsFacts.stat_put_dir dest wd md3 HDd).
  assert (Hnot : forall k, ar !! k <> None -> effective_entries content !! k = None).
  { intros k Hk. destruct (effective_entries content !! k) eqn:E; [|reflexivity].
    destruct (Hfree k) as [Hnone _]; [eexists; exact E | contradiction]. }
  assert (Hnd : effective_entries content !! "debian" = None).
  { destruct (effective_entries content !! "debian") eqn:E; [|reflexivity].
    destruct (Hfree "debian") as (_ & Hkd & _); [eexists; exact E | contradiction]. }
  assert (Hd5 : md5 !! "data.tar.xz" = Some (File dd)).
  { rewrite Hout; [exact Hd3 | apply Hnot; congruence | auto]. }
  set (md6 := delete "data.tar.xz" md5).
  assert (HD6 : Os.stat dest (put_dir dest md6 wd) = Some (Dir md6))
    by apply (OsFacts.stat_put_dir dest wd md3 HDd).
  exists (put_dir dest md6 wd). split; [|split; [|split; [|split; [|split; [|split]]]]].
  - unfold extract_deb.
    eapply MFacts.bind_eq; [exact H7z|].
    eapply MFacts.bind_eq;
      [apply (OsFacts.makedirs_join dest w1 ar HD "debian" eq_refl Hdeb)|].
    fold md2. eapply MFacts.bind_eq.
    { unfold control_file_exts. cbn [extract_deb_control].
      unfold Os.path_exists. rewrite MFacts.bind_gets.
      change ("control.tar" +:+ ".gz") with "control.tar.gz".
      rewrite (OsFacts.stat_join dest _ md2 HD2 "control.tar.gz" eq_refl).
      assert (Hc2 : md2 !! "control.tar.gz" = Some (File cc))
        by (unfold md2; now map_lookup).
      rewrite Hc2.
      assert (Hdeb2 : md2 !! "debian" = Some (Dir ∅))
        by (unfold md2; now map_lookup).
      rewrite (OsFacts.move_down dest _ md2 HD2 "debian" "control.tar.gz" ∅ (File cc)
                 eq_refl eq_refl ltac:(discriminate) Hc2 Hdeb2 (lookup_empty _)).
      rewrite (OsFacts.put_dir_put_dir dest w1). reflexivity. }
    fold md3. fold w3.
    unfold data_file_exts. cbn [extract_deb_data].
    unfold Os.path_exists. rewrite MFacts.bind_gets.
    change ("data.tar" +:+ ".gz") with "data.tar.gz".
    rewrite (OsFacts.stat_join dest w3 md3 HD3 "data.tar.gz" eq_refl).
    assert (Hg3 : md3 !! "data.tar.gz" = None) by (unfold md3, md2; now map_lookup).
    rewrite Hg3. rewrite MFacts.bind_gets.
    change ("data.tar" +:+ ".xz") with "data.tar.xz".
    rewrite (OsFacts.stat_join dest w3 md3 HD3 "data.tar.xz" eq_refl), Hd3.
    eapply MFacts.bind_eq; [exact Hrun|].
    rewrite (OsFacts.remove_join dest _ md5 HD5 "data.tar.xz" dd eq_refl Hd5).
    now rewrite (OsFacts.put_dir_put_dir dest wd).
  - rewrite (OsFacts.stat_join dest _ md6 HD6 "debian" eq_refl).
    unfold md6. rewrite lookup_delete_ne by discriminate.
    rewrite Hout by auto. unfold md3. rewrite lookup_insert_eq.
    now rewrite insert_empty.
  - rewrite (OsFacts.stat_join dest _ md6 HD6 "control.tar.gz" eq_refl).
    unfold md6. rewrite lookup_delete_ne by discriminate.
    rewrite Hout; [|apply Hnot; congruence|auto].
    unfold md3. now map_lookup.
  - rewrite (OsFacts.stat_join dest _ md6 HD6 "data.tar.xz" eq_refl).
    unfold md6. apply lookup_delete_eq.
  - rewrite (OsFacts.stat_join dest _ md6 HD6 t Ht).
    unfold md6. now rewrite lookup_delete_ne by auto.
  - intros k x Hk.
    assert (Hs : is_Some (effective_entries content !! k)) by (eexists; exact Hk).
    destruct (HE k Hs) as [_ Hkx].
    rewrite (OsFacts.stat_join dest _ md6 HD6 k (Hve k Hs)).
    unfold md6. rewrite lookup_delete_ne by auto. now rewrite Hin.
  - intros k Hk Hnone Hkd Hkc Hkx Hkt.
    rewrite (OsFacts.stat_join dest _ md6 HD6 k Hk), (OsFacts.stat_join dest w1 ar HD k Hk).
    unfold md6. rewrite lookup_delete_ne by auto.
    rewrite Hout by assumption. unfold md3, md2. now map_lookup.
Qed.

End DebFacts.

Lemma effective_entries_single_dir (top : string) (inner : gmap string node) :
  effective_entries {[ top := Dir inner ]} = inner.
Proof. unfold effective_entries. now rewrite map_to_list_singleton. Qed.

Lemma scenario_tar_unpacks (archive : string) (mode : option string)
    (data : string) (content : gmap string node) :
  tar_unpacks Scenario.tar_open (Scenario.tar_extractall content) Scenario.tar_close
    archive mode data content.
Proof.
  intros w dest _ _ _ _. exists tt. split; [reflexivity|].
  unfold Scenario.tar_extractall. split; intros Hc.
  - subst content. rewrite map_to_list_empty. split; reflexivity.
  - destruct (map_to_list content) eqn:E; [|split; reflexivity].
    now apply map_to_list_empty_iff in E.
Qed.

(** C6, as stated, fails for a data tarball with one top-level directory:
    the package holds [usr/bin/game] and [usr/share], and after
    [extract_deb] the destination has no [usr]; the entries of [usr] lie
    directly in it. *)
Lemma extract_deb_flattens_data_tarball :
  let run :=
    extract_deb Scenario.RUNTIME_DIR Scenario.no_executable
      (Scenario.tool Scenario.deb_ar 0)
      (extract_archive Scenario.RUNTIME_DIR Scenario.no_executable
         Scenario.merge_refused (Scenario.tool Scenario.deb_ar 0) unit
         Scenario.tar_open (Scenario.tar_extractall Scenario.deb_data)
         Scenario.tar_close Scenario.gunzip_stored 1)
      "/cache/pkg.deb" "/games/.extract-00000000" Scenario.world0 in
  Scenario.deb_data = {[ "usr" := Dir Scenario.deb_usr ]}
  /\ fst run = Ok tt
  /\ Os.stat "/games/.extract-00000000/usr" (snd run) = None
  /\ Os.stat "/games/.extract-00000000/usr/bin/game" (snd run) = None
  /\ Os.stat "/games/.extract-00000000/bin/game" (snd run) = Some (File "ELF").
Proof. split; [reflexivity|]. vm_compute. repeat split; reflexivity. Qed.

(** A package is unpacked into [/games/.extract-00000000]: the control
    tarball goes to [debian/], and the content of [usr] in the data
    tarball goes to the destination. *)
Lemma extract_deb_control_and_data_witness :
  exists w',
    extract_deb Scenario.RUNTIME_DIR Scenario.no_executable
      (Scenario.tool Scenario.deb_ar 0)
      (extract_archive Scenario.RUNTIME_DIR Scenario.no_executable
         Scenario.merge_refused (Scenario.tool Scenario.deb_ar 0) unit
         Scenario.tar_open (Scenario.tar_extractall Scenario.deb_data)
         Scenario.tar_close Scenario.gunzip_stored 1)
      "/cache/pkg.deb" "/games/.extract-00000000" Scenario.world0
    = (Ok tt, w')
    /\ Os.stat (OsPath.join "/games/.extract-00000000" "debian") w'
       = Some (Dir {[ "control.tar.gz" := File "control" ]})
    /\ Os.stat (OsPath.join "/games/.extract-00000000" "control.tar.gz") w' = None
    /\ Os.stat (OsPath.join "/games/.extract-00000000" "data.tar.xz") w' = None
    /\ Os.stat (OsPath.join "/games/.extract-00000000" ".extract-00000000") w' = None
    /\ (forall k x, effective_entries Scenario.deb_data !! k = Some x ->
                    Os.stat (OsPath.join "/games/.extract-00000000" k) w' = Some x)
    /\ (forall k, Fs.valid_name k = true ->
                  effective_entries Scenario.deb_data !! k = None ->
                  k <> "debian" -> k <> "control.tar.gz" ->
                  k <> "data.tar.xz" -> k <> ".extract-00000000" ->
                  Os.stat (OsPath.join "/games/.extract-00000000" k) w'
                  = Os.stat (OsPath.join "/games/.extract-00000000" k)
                      (put_dir "/games/.extract-00000000" Scenario.deb_ar
                         Scenario.world0)).
Proof.
  assert (Hinner : forall k, is_Some (Scenario.deb_usr !! k) -> k = "bin" \/ k = "share").
  { intros k [x Hk]. unfold Scenario.deb_usr in Hk.
    apply lookup_insert_Some in Hk as [[<- _]|[_ Hk]]; [now left|].
    apply lookup_singleton_Some in Hk as [<- _]. now right. }
  refine (proj2 (proj2 (proj2
            (extract_deb_control_and_data
               Scenario.RUNTIME_DIR Scenario.no_executable Scenario.merge_refused
               (Scenario.tool Scenario.deb_ar 0) unit
               Scenario.tar_open (Scenario.tar_extractall Scenario.deb_data)
               Scenario.tar_close Scenario.gunzip_stored
               0 "/cache/pkg.deb" "/games/.extract-00000000" "control" "data"
               Scenario.deb_ar Scenario.deb_data Scenario.world0
               (put_dir "/games/.extract-00000000" Scenario.deb_ar Scenario.world0)
               _ _ _ _ _ _ _ _ _ _ _ _ _)))).
  - reflexivity.
  - vm_compute. reflexivity.
  - vm_compute. reflexivity.
  - vm_compute. reflexivity.
  - vm_compute. reflexivity.
  - vm_compute. reflexivity.
  - vm_compute. reflexivity.
  - vm_compute. reflexivity.
  - apply scenario_tar_unpacks.
  - unfold Scenario.deb_data. apply insert_non_empty.
  - intros k [x Hk]. unfold Scenario.deb_data in Hk.
    apply lookup_singleton_Some in Hk as [<- _]. reflexivity.
  - unfold Scenario.deb_data. rewrite effective_entries_single_dir.
    intros k Hk. destruct (Hinner k Hk) as [-> | ->]; reflexivity.
  - unfold Scenario.deb_data. rewrite effective_entries_single_dir.
    intros k Hk. destruct (Hinner k Hk) as [-> | ->];
      (split; [vm_compute; reflexivity | split; discriminate]).
Defined.

(** ** What an extraction leaves untouched *)

Module FrameFacts.

Lemma not_prefix_cons (c : string) (q cp : list string) :
  ~ (c :: q) `prefix_of` (c :: cp) -> ~ q `prefix_of` cp.
Proof. intros H Hp. apply H. now apply prefix_cons. Qed.

Lemma lookup_put_frame (q cp : list string) (x r : node) (d : string) :
  Fs.lookup cp r = Some (File d) -> ~ q `prefix_of` cp ->
  Fs.lookup cp (Fs.put q x r) = Some (File d).
Proof.
  revert cp r; induction q as [|c q IH]; intros cp r Hl Hp.
  - destruct Hp. apply prefix_nil.
  - destruct r as [|m]; [exact Hl|].
    destruct cp as [|c0 cp]; [discriminate|].
    rewrite FsFacts.put_cons. cbn [Fs.lookup] in Hl.
    destruct (decide (c = c0)) as [->|Hne].
    + destruct (m !! c0) as [n0|] eqn:Hc; [|discriminate].
      apply not_prefix_cons in Hp. destruct q as [|c' q].
      * destruct Hp. apply prefix_nil.
      * cbn [Fs.lookup]. rewrite lookup_insert_eq. now apply IH.
    + destruct q; destruct (m !! c); cbn [Fs.lookup];
        rewrite ?lookup_insert_ne by congruence; exact Hl.
Qed.

Lemma lookup_del_frame (q cp : list string) (r : node) (d : string) :
  Fs.lookup cp r = Some (File d) -> ~ q `prefix_of` cp ->
  Fs.lookup cp (Fs.del q r) = Some (File d).
Proof.
  revert cp r; induction q as [|c q IH]; intros cp r Hl Hp.
  - destruct Hp. apply prefix_nil.
  - destruct r as [|m]; [exact Hl|].
    destruct cp as [|c0 cp]; [discriminate|].
    rewrite FsFacts.del_cons. cbn [Fs.lookup] in Hl.
    destruct (decide (c = c0)) as [->|Hne].
    + destruct (m !! c0) as [n0|] eqn:Hc; [|discriminate].
      apply not_prefix_cons in Hp. destruct q as [|c' q].
      * destruct Hp. apply prefix_nil.
      * cbn [Fs.lookup]. rewrite lookup_insert_eq. now apply IH.
    + destruct q; destruct (m !! c); cbn [Fs.lookup];
        rewrite ?lookup_insert_ne, ?lookup_delete_ne by congruence; exact Hl.
Qed.

Lemma lookup_mkdirs_frame (q cp : list string) (r r' : node) (d : string) :
  Fs.mkdirs q r = Some r' -> Fs.lookup cp r = Some (File d) ->
  Fs.lookup cp r' = Some (File d).
Proof.
  revert cp r r'; induction q as [|c q IH]; intros cp r r' Hm Hl.
  - destruct r; [discriminate|]. simpl in Hm. now injection Hm as <-.
  - destruct r as [|m]; [discriminate|]. cbn [Fs.mkdirs] in Hm.
    destruct (Fs.mkdirs q (default (Dir ∅) (m !! c))) as [n'|] eqn:Hq; [|discriminate].
    injection Hm as <-.
    destruct cp as [|c0 cp]; [discriminate|]. cbn [Fs.lookup] in *.
    destruct (decide (c = c0)) as [->|Hne].
    + rewrite lookup_insert_eq.
      destruct (m !! c0) as [n0|] eqn:Hc; [|discriminate].
      simpl in Hq. now apply (IH cp n0 n').
    + now rewrite lookup_insert_ne by congruence.
Qed.

(** An empty directory is not an ancestor of a file. *)
Lemma empty_dir_clear (q cp : list string) (r : node) (m : gmap string node)
    (d : string) :
  Forall (fun c => Fs.valid_name c = true) cp ->
  Fs.lookup cp r = Some (File d) -> Fs.lookup q r = Some (Dir m) ->
  Os.is_empty_dir m = true -> ~ q `prefix_of` cp.
Proof.
  intros Hv Hl Hq He [k ->]. rewrite FsFacts.lookup_app, Hq in Hl.
  destruct k as [|c k]; [discriminate|]. cbn [Fs.lookup] in Hl.
  destruct (m !! c) as [n|] eqn:Hc; [|discriminate].
  apply Forall_app in Hv as [_ Hv]. apply Forall_cons in Hv as [Hc' _].
  rewrite (OsFacts.not_empty_dir m c Hc') in He; [discriminate|].
  eexists; exact Hc.
Qed.

Lemma components_all_valid (p : string) :
  Forall (fun c => Fs.valid_name c = true) (Fs.components p).
Proof.
  unfold Fs.components. apply Forall_forall. intros c Hc.
  apply list_elem_of_In, List.filter_In in Hc as [Hin Hne].
  apply PathFacts.valid_name_spec. split.
  - apply negb_true_iff, String.eqb_neq in Hne. exact Hne.
  - clear Hne. revert c Hin. induction p as [|a p IH]; intros c Hin.
    + simpl in Hin. destruct Hin as [<-|[]]. reflexivity.
    + rewrite PathFacts.split_slash_cons in Hin.
      destruct (Ascii.eqb a "/") eqn:Ha.
      * destruct Hin as [<-|Hin]; [reflexivity | now apply IH].
      * pose proof (PathFacts.split_slash_nonempty p) as Hne.
        destruct (Fs.split_slash p) as [|w0 ws]; [contradiction|].
        destruct Hin as [<-|Hin].
        -- unfold Fs.slash_free. cbn [string_forallb]. rewrite Ha.
           apply (IH w0). now left.
        -- apply IH. now right.
Qed.

Lemma resolve_Some (p : string) (q : list string) :
  Fs.resolve p = Some q -> q = Fs.components p.
Proof. unfold Fs.resolve. destruct (String.eqb p ""); congruence. Qed.

Section Keeps.

Variables (cp : list string) (data : string).
Hypothesis Hcp : Forall (fun c => Fs.valid_name c = true) cp.

Local Abbreviation keeps_ := (keeps cp data).
Local Abbreviation clear_ := (clear_of cp).

(** *** The monad *)

Lemma keeps_same {A} (c : M A) :
  (forall w, root (snd (c w)) = root w) -> keeps_ c.
Proof. intros H w Hl. now rewrite H. Qed.

Lemma keeps_ret {A} (a : A) : keeps_ (ret a).
Proof. now apply keeps_same. Qed.

Lemma keeps_raise {A} (e : exn) : keeps_ (@raise A e).
Proof. now apply keeps_same. Qed.

Lemma keeps_gets {A} (f : world -> A) : keeps_ (gets f).
Proof. now apply keeps_same. Qed.

Lemma keeps_reads {A} (f : world -> result A) : keeps_ (reads f).
Proof. now apply keeps_same. Qed.

Lemma keeps_lift_result {A} (r : result A) : keeps_ (lift_result r).
Proof. now apply keeps_same. Qed.

Lemma keeps_draw : keeps_ draw.
Proof. now apply keeps_same. Qed.

Lemma keeps_bind_with {A B} (P : A -> Prop) (c : M A) (k : A -> M B) :
  keeps_ c -> (forall w a w', c w = (Ok a, w') -> P a) ->
  (forall a, P a -> keeps_ (k a)) -> keeps_ (bind c k).
Proof.
  intros Hc HP Hk w Hl. unfold bind. specialize (Hc w Hl).
  destruct (c w) as [[a|e] w1] eqn:E; simpl in Hc; [|exact Hc].
  apply (Hk a (HP w a w1 E)). exact Hc.
Qed.

Lemma keeps_bind {A B} (c : M A) (k : A -> M B) :
  keeps_ c -> (forall a, keeps_ (k a)) -> keeps_ (bind c k).
Proof.
  intros Hc Hk. apply (keeps_bind_with (fun _ => True)); auto.
Qed.

Lemma keeps_try_except {A} (c : M A) (handler : exn -> M A) :
  keeps_ c -> (forall e, keeps_ (handler e)) -> keeps_ (try_except c handler).
Proof.
  intros Hc Hh w Hl. unfold try_except. specialize (Hc w Hl).
  destruct (c w) as [[a|e] w1]; simpl in Hc; [exact Hc|].
  now apply Hh.
Qed.

Lemma keeps_for_each {A} (l : list A) (body : A -> M unit) :
  (forall x, In x l -> keeps_ (body x)) -> keeps_ (for_each l body).
Proof.
  induction l as [|x l IH]; intros H; [apply keeps_ret|].
  cbn [for_each]. apply keeps_bind; [apply H; now left|].
  intros _. apply IH. intros y Hy. apply H. now right.
Qed.

(** *** The [os] and [shutil] calls *)

Lemma keeps_path_exists (p : string) : keeps_ (Os.path_exists p).
Proof. apply keeps_gets. Qed.

Lemma keeps_path_isfile (p : string) : keeps_ (Os.path_isfile p).
Proof. apply keeps_gets. Qed.

Lemma keeps_path_isdir (p : string) : keeps_ (Os.path_isdir p).
Proof. apply keeps_gets. Qed.

Lemma keeps_listdir (p : string) : keeps_ (Os.listdir p).
Proof.
  apply keeps_same. intros w. unfold Os.listdir.
  now destruct (Os.stat p w) as [[|]|].
Qed.

Lemma keeps_read_file (p : string) : keeps_ (Os.read_file p).
Proof.
  apply keeps_same. intros w. unfold Os.read_file.
  now destruct (Os.stat p w) as [[|]|].
Qed.

Lemma keeps_remove (p : string) : clear_ p -> keeps_ (Os.remove p).
Proof.
  intros Ha w Hl. unfold Os.remove.
  destruct (Fs.resolve p) as [q|] eqn:Hr; [|exact Hl].
  apply resolve_Some in Hr as ->.
  destruct (Fs.lookup (Fs.components p) (root w)) as [[|]|]; try exact Hl.
  simpl. now apply lookup_del_frame.
Qed.

Lemma keeps_rmdir (p : string) : keeps_ (Os.rmdir p).
Proof.
  intros w Hl. unfold Os.rmdir.
  destruct (Fs.resolve p) as [q|] eqn:Hr; [|exact Hl].
  destruct (Fs.lookup q (root w)) as [[|m]|] eqn:Hq; try exact Hl.
  destruct (Os.is_empty_dir m) eqn:He; [|exact Hl]. cbn [negb]. cbv iota.
  destruct q as [|c q]; [exact Hl|]. cbn [snd root set_root].
  apply lookup_del_frame; [exact Hl|].
  now apply (empty_dir_clear (c :: q) cp (root w) m data).
Qed.

Lemma keeps_rename (src dst : string) :
  clear_ src -> clear_ dst -> keeps_ (Os.rename src dst).
Proof.
  intros Hs Hd w Hl. unfold Os.rename.
  destruct (Fs.resolve src) as [cs|] eqn:Hrs; [|exact Hl].
  destruct (Fs.resolve dst) as [cd|] eqn:Hrd; [|exact Hl].
  apply resolve_Some in Hrs as ->. apply resolve_Some in Hrd as ->.
  assert (Hgo : Fs.lookup cp
                  (root (set_root
                           (Fs.put (Fs.components dst)
                              (default (File "") (Fs.lookup (Fs.components src) (root w)))
                              (Fs.del (Fs.components src) (root w))) w))
                = Some (File data)).
  { simpl. apply lookup_put_frame; [|exact Hd]. now apply lookup_del_frame. }
  destruct (Fs.lookup (Fs.components src) (root w)) as [x|]; [|exact Hl].
  simpl in Hgo.
  repeat match goal with
         | |- context [if ?b then _ else _] => destruct b
         | |- context [match ?x with _ => _ end] => destruct x
         end; simpl; first [exact Hl | exact Hgo].
Qed.

Lemma keeps_makedirs (p : string) (exist_ok : bool) : keeps_ (Os.makedirs p exist_ok).
Proof.
  intros w Hl. unfold Os.makedirs.
  destruct (Fs.resolve p) as [q|]; [|exact Hl].
  destruct (Fs.lookup q (root w)).
  - now destruct (exist_ok && _).
  - destruct (Fs.mkdirs q (root w)) as [r|] eqn:Hm; [|exact Hl].
    simpl. now apply (lookup_mkdirs_frame q cp (root w) r).
Qed.

Lemma keeps_removedirs_up (n : nat) (head tail : string) :
  keeps_ (Os.removedirs_up n head tail).
Proof.
  revert head tail; induction n as [|n IH]; intros head tail; [apply keeps_ret|].
  cbn [Os.removedirs_up].
  destruct (negb (String.eqb head "") && negb (String.eqb tail "")); [|apply keeps_ret].
  apply keeps_try_except; [|intros; apply keeps_ret].
  apply keeps_bind; [apply keeps_rmdir | intros; apply IH].
Qed.

Lemma keeps_removedirs (name : string) : keeps_ (Os.removedirs name).
Proof.
  unfold Os.removedirs. apply keeps_bind; [apply keeps_rmdir|]. intros _.
  destruct (OsPath.split name) as [head tail].
  destruct (if String.eqb tail "" then OsPath.split head else (head, tail)).
  apply keeps_removedirs_up.
Qed.

Lemma keeps_write_file (p contents : string) :
  clear_ p -> keeps_ (Os.write_file p contents).
Proof.
  intros Ha w Hl. unfold Os.write_file.
  destruct (Fs.resolve p) as [q|] eqn:Hr; [|exact Hl].
  apply resolve_Some in Hr as ->.
  destruct (Fs.is_dir _); [exact Hl|].
  destruct (Fs.is_dir _); [|exact Hl].
  simpl. now apply lookup_put_frame.
Qed.

Lemma keeps_rmtree (p : string) : clear_ p -> keeps_ (Shutil.rmtree p).
Proof.
  intros Ha w Hl. unfold Shutil.rmtree.
  destruct (Fs.resolve p) as [q|] eqn:Hr; [|exact Hl].
  apply resolve_Some in Hr as ->.
  destruct (Fs.lookup (Fs.components p) (root w)) as [[|]|]; try exact Hl.
  destruct (Fs.components p) eqn:E; [exact Hl|].
  cbn [snd root set_root]. apply lookup_del_frame; [exact Hl|].
  unfold clear_of in Ha. now rewrite E in Ha.
Qed.

Lemma keeps_copyfile (src dst : string) : clear_ dst -> keeps_ (Shutil.copyfile src dst).
Proof.
  intros Ha. unfold Shutil.copyfile. apply keeps_bind; [apply keeps_gets|].
  intros same. destruct same; [apply keeps_raise|].
  apply keeps_bind; [apply keeps_read_file|]. intros contents.
  now apply keeps_write_file.
Qed.

Lemma keeps_copytree (src dst : string) : clear_ dst -> keeps_ (Shutil.copytree src dst).
Proof.
  intros Ha. unfold Shutil.copytree.
  apply keeps_bind; [apply keeps_listdir|]. intros _.
  apply keeps_bind; [apply keeps_makedirs|]. intros _.
  intros w Hl. destruct (Os.stat src w); [|exact Hl].
  destruct (Fs.resolve dst) as [cd|] eqn:Hr; [|exact Hl].
  apply resolve_Some in Hr as ->. simpl. now apply lookup_put_frame.
Qed.

(** *** Paths below a directory that is away from the file *)

Lemma components_join_slash_free (a n : string) :
  Fs.slash_free n = true ->
  Fs.components (OsPath.join a n) = (Fs.components a ++ Fs.components n)%list.
Proof.
  intros Hf. destruct (String.eqb_spec n "") as [->|Hne].
  - change (Fs.components "") with (@nil string). rewrite List.app_nil_r.
    unfold OsPath.join. change (Str.startswith "" "/") with false. cbv iota.
    destruct (String.eqb a "" || Str.endswith a "/").
    + now rewrite StrFacts.app_nil_r.
    + change (a +:+ "/" +:+ "") with (a +:+ String "/" "").
      rewrite PathFacts.components_app. change (Fs.components "") with (@nil string).
      now rewrite List.app_nil_r.
  - assert (Hv : Fs.valid_name n = true) by (now apply PathFacts.valid_name_spec).
    now rewrite PathFacts.components_join, (PathFacts.components_valid n).
Qed.

Lemma clear_join (a n : string) :
  clear_ a -> Fs.slash_free n = true -> clear_ (OsPath.join a n).
Proof.
  unfold clear_of. intros Ha Hf Hp. apply Ha.
  rewrite components_join_slash_free in Hp by assumption.
  now apply prefix_app_l in Hp.
Qed.

Lemma clear_join_valid (a n : string) :
  clear_ a -> Fs.valid_name n = true -> clear_ (OsPath.join a n).
Proof.
  intros Ha [_ Hf]%PathFacts.valid_name_spec. now apply clear_join.
Qed.

Lemma clear_join_app (a n suffix : string) :
  clear_ a -> Fs.valid_name n = true -> Fs.slash_free suffix = true ->
  clear_ (OsPath.join a n +:+ suffix).
Proof.
  intros Ha Hn Hs.
  pose proof (proj1 (PathFacts.valid_name_spec n) Hn) as [Hne _].
  rewrite PathFacts.join_app by assumption.
  apply clear_join_valid; [assumption|]. now apply PathFacts.valid_name_app.
Qed.

(** What follows the last slash has no slash. *)
Lemma rfind_from_tail (i : Z) (s : string) :
  (0 <= i)%Z ->
  let r := Str.rfind_from i "/" s in
  (r = (-1)%Z /\ Fs.slash_free s = true)
  \/ ((i <= r)%Z /\ Fs.slash_free (Str.drop (Z.to_nat (r - i) + 1) s) = true).
Proof.
  revert i; induction s as [|a s IH]; intros i Hi; [now left|].
  cbn [Str.rfind_from]. cbv zeta.
  destruct (IH (i + 1)%Z ltac:(lia)) as [[Hr Hf]|[Hr Hf]].
  - rewrite Hr. change (0 <=? -1)%Z with false. cbv iota.
    destruct (Ascii.eqb a "/") eqn:Ha.
    + right. split; [lia|]. replace (Z.to_nat (i - i) + 1) with 1 by lia.
      exact Hf.
    + left. split; [reflexivity|]. unfold Fs.slash_free in *.
      cbn [string_forallb]. now rewrite Ha.
  - destruct (Z.leb_spec 0 (Str.rfind_from (i + 1) "/" s)) as [_|Hneg]; [|lia].
    right. split; [lia|].
    replace (Z.to_nat (Str.rfind_from (i + 1) "/" s - i) + 1)
      with (S (Z.to_nat (Str.rfind_from (i + 1) "/" s - (i + 1)) + 1)) by lia.
    exact Hf.
Qed.

Lemma basename_slash_free (p : string) : Fs.slash_free (OsPath.basename p) = true.
Proof.
  unfold OsPath.basename, Str.rfind, OsPath.sep.
  destruct (rfind_from_tail 0 p ltac:(lia)) as [[-> Hf]|[Hr Hf]]; [exact Hf|].
  replace (Z.to_nat (Str.rfind_from 0 "/" p + 1))
    with (Z.to_nat (Str.rfind_from 0 "/" p - 0) + 1) by lia.
  exact Hf.
Qed.

Lemma shutil_basename_slash_free (p : string) :
  Fs.slash_free (Shutil.basename p) = true.
Proof. apply basename_slash_free. Qed.

Lemma names_valid (m : gmap string node) (n : string) :
  In n (Fs.names m) -> Fs.valid_name n = true.
Proof. intros H. now apply OsFacts.names_spec in H. Qed.

Lemma listdir_valid (p : string) (w w' : world) (l : list string) :
  Os.listdir p w = (Ok l, w') -> forall n, In n l -> Fs.valid_name n = true.
Proof.
  unfold Os.listdir. destruct (Os.stat p w) as [[|m]|]; try discriminate.
  intros H. injection H as <- _. apply names_valid.
Qed.

Lemma keeps_copy (src dst : string) : clear_ dst -> keeps_ (Shutil.copy src dst).
Proof.
  intros Ha. unfold Shutil.copy. apply keeps_bind; [apply keeps_gets|].
  intros d. apply keeps_copyfile. destruct d; [|assumption].
  apply clear_join; [assumption | apply basename_slash_free].
Qed.

Lemma keeps_move (src dst : string) :
  clear_ src -> clear_ dst -> keeps_ (Shutil.move src dst).
Proof.
  intros Hs Hd. unfold Shutil.move.
  apply keeps_bind; [apply keeps_gets|]. intros d.
  apply keeps_bind; [apply keeps_gets|]. intros same.
  destruct (d && same); [now apply keeps_rename|].
  assert (Hreal : clear_ (if d then OsPath.join dst (Shutil.basename src) else dst)).
  { destruct d; [|assumption].
    apply clear_join; [assumption | apply shutil_basename_slash_free]. }
  apply keeps_bind; [destruct d; [apply keeps_gets | apply keeps_ret]|].
  intros e. destruct e; [apply keeps_raise|].
  apply keeps_try_except; [now apply keeps_rename|]. intros _.
  apply keeps_bind; [apply keeps_gets|]. intros sd. destruct sd.
  - destruct (Shutil.destinsrc src dst); [apply keeps_raise|].
    apply keeps_bind; [now apply keeps_copytree | intros; now apply keeps_rmtree].
  - apply keeps_bind; [now apply keeps_copyfile | intros; now apply keeps_remove].
Qed.

Lemma keeps_system_path_exists (p : string) : keeps_ (System.path_exists p).
Proof.
  unfold System.path_exists. destruct (String.eqb p ""); [apply keeps_ret | apply keeps_gets].
Qed.

Lemma keeps_create_folder (p : string) : keeps_ (System.create_folder p).
Proof.
  unfold System.create_folder.
  destruct (String.eqb p ""); [apply keeps_ret | apply keeps_makedirs].
Qed.

Lemma keeps_delete_folder (p : string) : clear_ p -> keeps_ (System.delete_folder p).
Proof.
  intros Ha. unfold System.delete_folder.
  apply keeps_bind; [apply keeps_gets|]. intros e.
  destruct e; [now apply keeps_rmtree | apply keeps_ret].
Qed.

(** *** The functions of the module

    The tools and libraries the module calls are taken to leave the file
    alone: the processes it runs, the tar library when it unpacks into a
    directory away from the file, and [merge_folders] between two such
    directories. *)

Variable RUNTIME_DIR : string.
Variable find_executable : string -> world -> result string.
Variable merge_folders : string -> string -> M unit.
Variable subprocess_call : list string -> M Z.
Variable TarFile : Type.
Variable tarfile_open : string -> option string -> M TarFile.
Variable TarFile_extractall : TarFile -> string -> M unit.
Variable TarFile_close : TarFile -> M unit.
Variable gunzip : string -> result string.

Hypothesis Hcall : forall command, keeps_ (subprocess_call command).
Hypothesis Hopen : forall archive mode, keeps_ (tarfile_open archive mode).
Hypothesis Hextractall :
  forall handler dest, clear_ dest -> keeps_ (TarFile_extractall handler dest).
Hypothesis Hclose : forall handler, keeps_ (TarFile_close handler).
Hypothesis Hmerge :
  forall source destination,
    clear_ source -> clear_ destination -> keeps_ (merge_folders source destination).

Ltac frame :=
  repeat first
    [ assumption
    | apply keeps_ret | apply keeps_raise | apply keeps_gets | apply keeps_reads
    | apply keeps_lift_result | apply keeps_draw
    | apply keeps_system_path_exists | apply keeps_create_folder
    | apply keeps_path_exists | apply keeps_path_isfile | apply keeps_path_isdir
    | apply keeps_listdir | apply keeps_read_file | apply keeps_rmdir
    | apply keeps_makedirs | apply keeps_removedirs
    | apply Hcall | apply Hopen | apply Hclose
    | apply Hextractall | apply Hmerge
    | apply keeps_remove | apply keeps_rename | apply keeps_write_file
    | apply keeps_rmtree | apply keeps_delete_folder
    | apply keeps_copy | apply keeps_move
    | apply keeps_bind; [|intros ?]
    | apply keeps_try_except; [|intros ?]
    | match goal with
      | |- keeps _ _ (if ?b then _ else _) => destruct b
      | |- keeps _ _ (match ?e with _ => _ end) => destruct e
      end ].

Lemma clear_nonempty (p : string) : clear_ p -> p <> "".
Proof. intros Ha ->. apply Ha. apply prefix_nil. Qed.

Lemma keeps_extract_7zip (path dest : string) (archive_type : option string) :
  keeps_ (extract_7zip RUNTIME_DIR find_executable subprocess_call path dest archive_type).
Proof. unfold extract_7zip. cbv zeta. frame. Qed.

Lemma keeps_get_innoextract_path_loop (inno_dirs : list string) :
  keeps_ (get_innoextract_path_loop RUNTIME_DIR inno_dirs).
Proof.
  induction inno_dirs as [|d rest IH]; cbn [get_innoextract_path_loop]; cbv zeta; frame.
Qed.

Lemma keeps_get_innoextract_path :
  keeps_ (get_innoextract_path RUNTIME_DIR find_executable).
Proof.
  unfold get_innoextract_path. cbv zeta.
  apply keeps_bind; [apply keeps_listdir|]. intros listing.
  apply keeps_bind; [apply keeps_get_innoextract_path_loop|]. intros r. frame.
Qed.

Lemma keeps_check_inno_exe (path : string) :
  keeps_ (check_inno_exe RUNTIME_DIR find_executable subprocess_call path).
Proof.
  unfold check_inno_exe. cbv zeta.
  apply keeps_bind.
  - apply keeps_try_except.
    + apply keeps_bind; [apply keeps_get_innoextract_path | intros; apply keeps_ret].
    + intros ex. destruct ex; frame.
  - intros r. frame.
Qed.

Lemma keeps_decompress_gog (file_path destination_path : string) :
  keeps_ (decompress_gog RUNTIME_DIR find_executable subprocess_call
            file_path destination_path).
Proof.
  unfold decompress_gog.
  apply keeps_bind; [apply keeps_get_innoextract_path|]. intros p. frame.
Qed.

Lemma keeps_extract_gog (path dest : string) :
  keeps_ (extract_gog RUNTIME_DIR find_executable subprocess_call path dest).
Proof.
  unfold extract_gog.
  apply keeps_bind; [apply keeps_check_inno_exe|]. intros inno.
  destruct inno; [apply keeps_decompress_gog | apply keeps_raise].
Qed.

Lemma keeps_extract_exe_archive (path dest : string) :
  keeps_ (extract_exe_archive RUNTIME_DIR find_executable subprocess_call path dest).
Proof.
  unfold extract_exe_archive. cbv zeta.
  apply keeps_bind; [apply keeps_system_path_exists|]. intros found.
  apply keeps_bind; [frame|]. intros p.
  apply keeps_bind; [apply Hcall|]. intros code.
  destruct (Z.eqb code 0); [apply keeps_extract_7zip | apply keeps_raise].
Qed.

Lemma keeps_extract_exe (path dest : string) :
  keeps_ (extract_exe RUNTIME_DIR find_executable subprocess_call path dest).
Proof.
  unfold extract_exe.
  apply keeps_bind; [apply keeps_check_inno_exe|]. intros inno.
  destruct inno; [apply keeps_decompress_gog | apply keeps_extract_exe_archive].
Qed.

Lemma keeps_extract_AppImage (path dest : string) :
  clear_ dest -> keeps_ (extract_AppImage path dest).
Proof. intros Ha. unfold extract_AppImage. frame. Qed.

Lemma keeps_decompress_gz (file_path dest_path : string) :
  clear_ dest_path -> keeps_ (decompress_gz gunzip file_path dest_path).
Proof.
  intros Ha. unfold decompress_gz. cbv zeta.
  pose proof (clear_nonempty _ Ha) as Hne. apply String.eqb_neq in Hne.
  rewrite Hne. cbn [negb].
  assert (Hf : clear_ (OsPath.join dest_path
                        (OsPath.basename
                           (Str.take (String.length file_path - 3) file_path))))
    by (apply clear_join; [assumption | apply basename_slash_free]).
  frame.
Qed.

Lemma keeps_extract_deb_control (dest debian_folder : string) (exts : list string) :
  clear_ dest -> clear_ debian_folder ->
  Forall (fun e => Fs.slash_free e = true) exts ->
  keeps_ (extract_deb_control dest debian_folder exts).
Proof.
  intros Hd Hf He. induction He as [|e exts He _ IH];
    cbn [extract_deb_control]; cbv zeta; [apply keeps_ret|].
  apply keeps_bind; [apply keeps_path_exists|]. intros found.
  destruct found; [|exact IH].
  apply keeps_move; [|assumption]. apply clear_join; [assumption|].
  rewrite PathFacts.slash_free_app, He. reflexivity.
Qed.

Lemma keeps_extract_deb_data
    (extract_archive : string -> string -> bool -> option string -> M (string * string))
    (dest : string) (exts : list string) :
  (forall p ms ex, keeps_ (extract_archive p dest ms ex)) ->
  clear_ dest -> Forall (fun e => Fs.slash_free e = true) exts ->
  keeps_ (extract_deb_data extract_archive dest exts).
Proof.
  intros Hea Hd He. induction He as [|e exts He _ IH];
    cbn [extract_deb_data]; cbv zeta; [apply keeps_ret|].
  apply keeps_bind; [apply keeps_path_exists|]. intros found.
  destruct found; [|exact IH].
  apply keeps_bind; [apply Hea|]. intros _.
  apply keeps_remove. apply clear_join; [assumption|].
  rewrite PathFacts.slash_free_app, He. reflexivity.
Qed.

Lemma keeps_extract_deb
    (extract_archive : string -> string -> bool -> option string -> M (string * string))
    (archive dest : string) :
  (forall p ms ex, keeps_ (extract_archive p dest ms ex)) ->
  clear_ dest ->
  keeps_ (extract_deb RUNTIME_DIR find_executable subprocess_call
            extract_archive archive dest).
Proof.
  intros Hea Hd. unfold extract_deb. cbv zeta.
  apply keeps_bind; [apply keeps_extract_7zip|]. intros _.
  apply keeps_bind; [apply keeps_makedirs|]. intros _.
  apply keeps_bind; [|intros _].
  - apply keeps_extract_deb_control; [assumption| |].
    + now apply clear_join.
    + unfold control_file_exts. repeat constructor.
  - apply keeps_extract_deb_data; [assumption | assumption |].
    unfold data_file_exts. repeat constructor.
Qed.

Lemma keeps__do_extract
    (extract_archive : string -> string -> bool -> option string -> M (string * string))
    (archive dest : string) (opener : opener) (mode extractor : option string) :
  (forall p ms ex, keeps_ (extract_archive p dest ms ex)) ->
  clear_ dest ->
  keeps_ (_do_extract RUNTIME_DIR find_executable subprocess_call
            TarFile tarfile_open TarFile_extractall TarFile_close gunzip
            extract_archive archive dest opener mode extractor).
Proof.
  intros Hea Hd. unfold _do_extract.
  destruct (opener_is opener "gz"); [now apply keeps_decompress_gz|].
  destruct (opener_is opener "7zip"); [apply keeps_extract_7zip|].
  destruct (opener_is opener "exe"); [apply keeps_extract_exe|].
  destruct (opener_is opener "innoextract"); [apply keeps_extract_gog|].
  destruct (opener_is opener "deb"); [now apply keeps_extract_deb|].
  destruct (opener_is opener "AppImage"); [now apply keeps_extract_AppImage|].
  destruct opener; frame.
Qed.

Lemma keeps_merge_entry (temp_path to_directory archive_file : string) :
  clear_ temp_path -> clear_ to_directory -> Fs.valid_name archive_file = true ->
  keeps_ (merge_entry merge_folders temp_path to_directory archive_file).
Proof.
  intros Ht Hd Hn. unfold merge_entry. cbv zeta.
  pose proof (clear_join_valid _ _ Ht Hn). pose proof (clear_join_valid _ _ Hd Hn).
  apply keeps_bind; [apply keeps_system_path_exists|]. intros present.
  destruct present; [|now apply keeps_move].
  apply keeps_bind; [apply keeps_path_isfile|]. intros isfile.
  destruct isfile.
  - apply keeps_bind; [now apply keeps_remove | intros _; now apply keeps_move].
  - apply keeps_bind; [apply keeps_path_isdir|]. intros isdir.
    destruct isdir; [|apply keeps_ret].
    apply keeps_try_except; [now apply Hmerge|].
    intros ex. destruct ex; apply keeps_raise.
Qed.

Lemma random_id_slash_free (w w' : world) (suffix : string) :
  random_id w = (Ok suffix, w') -> Fs.slash_free suffix = true.
Proof.
  unfold random_id, bind, draw, ret. intros H. injection H as <- _.
  apply PathFacts.lower_hex_slash_free, UuidFacts.random_id_of_lower_hex.
Qed.

Lemma keeps_merge_staged (temp_dir to_directory : string) (merge_single : bool) :
  clear_ temp_dir -> clear_ to_directory ->
  keeps_ (merge_staged merge_folders temp_dir to_directory merge_single).
Proof.
  intros Ht Hd. unfold merge_staged. cbv zeta.
  apply (keeps_bind_with
           (fun extracted => forall l, extracted = Some l ->
                                       forall n, In n l -> Fs.valid_name n = true)).
  { destruct merge_single; frame. }
  { intros w a w' H l -> n Hn. destruct merge_single.
    - unfold bind in H. destruct (Os.listdir temp_dir w) as [[l0|e] w0] eqn:Hl;
        [|discriminate].
      unfold ret in H. injection H as <- _.
      exact (listdir_valid _ _ _ _ Hl n Hn).
    - discriminate. }
  intros extracted Hex.
  set (temp_path := match extracted with
                    | Some [name] => OsPath.join temp_dir name
                    | _ => temp_dir
                    end).
  assert (Htp : clear_ temp_path).
  { subst temp_path. destruct extracted as [[|name [|]]|]; try assumption.
    apply clear_join_valid; [assumption|]. apply (Hex [name] eq_refl). now left. }
  apply keeps_bind; [apply keeps_path_isfile|]. intros single. destruct single.
  - apply (keeps_bind_with (fun name => Fs.valid_name name = true)).
    { unfold first_extracted. destruct extracted as [[|]|]; frame. }
    { intros w a w' H. unfold first_extracted in H.
      destruct extracted as [[|name rest]|]; try discriminate.
      unfold ret in H. injection H as <- _.
      apply (Hex (name :: rest) eq_refl). now left. }
    intros name Hn. pose proof (clear_join_valid _ _ Hd Hn) as Hdn.
    apply keeps_bind; [apply keeps_path_isfile|]. intros isfile.
    apply keeps_bind; [destruct isfile; [now apply keeps_remove | apply keeps_ret]|].
    intros _.
    apply keeps_bind; [apply keeps_path_isdir|]. intros isdir.
    apply keeps_bind.
    { destruct isdir; [|apply keeps_ret].
      apply (keeps_bind_with (fun suffix => Fs.slash_free suffix = true)).
      - unfold random_id. frame.
      - intros w a w' H. exact (random_id_slash_free _ _ _ H).
      - intros suffix Hs. apply keeps_rename; [assumption|].
        now apply clear_join_app. }
    intros _.
    apply keeps_bind; [now apply keeps_move | intros _; apply keeps_removedirs].
  - apply (keeps_bind_with (fun l => forall n, In n l -> Fs.valid_name n = true)).
    { apply keeps_listdir. }
    { intros w a w' H. exact (listdir_valid _ _ _ _ H). }
    intros listing Hl.
    apply keeps_bind; [|intros _; now apply keeps_delete_folder].
    apply keeps_for_each. intros n Hn. apply keeps_merge_entry; auto.
Qed.

Lemma extract_to_staging_directory
    (extract_archive : string -> string -> bool -> option string -> M (string * string))
    (path to_directory : string) (extractor : option string)
    (w w' : world) (staged : string * string) :
  extract_to_staging RUNTIME_DIR find_executable subprocess_call
    TarFile tarfile_open TarFile_extractall TarFile_close gunzip
    extract_archive path to_directory extractor w = (Ok staged, w') ->
  exists r, snd staged = staging_path to_directory r.
Proof.
  unfold extract_to_staging. cbv zeta.
  destruct (get_archive_opener _) as [opener mode].
  unfold bind at 1. unfold draw at 1.
  unfold bind at 1.
  match goal with |- context [try_except ?c ?h ?w0] =>
    destruct (try_except c h w0) as [[[]|e] w1] end; [|discriminate].
  unfold ret. intros H. injection H as <- _. eexists. reflexivity.
Qed.

Lemma keeps_extract_to_staging
    (extract_archive : string -> string -> bool -> option string -> M (string * string))
    (path to_directory : string) (extractor : option string) :
  (forall p d ms ex, clear_ d -> keeps_ (extract_archive p d ms ex)) ->
  clear_ to_directory ->
  keeps_ (extract_to_staging RUNTIME_DIR find_executable subprocess_call
            TarFile tarfile_open TarFile_extractall TarFile_close gunzip
            extract_archive path to_directory extractor).
Proof.
  intros Hea Hd. unfold extract_to_staging. cbv zeta.
  destruct (get_archive_opener _) as [opener mode].
  apply keeps_bind; [apply keeps_draw|]. intros r.
  assert (Hs : clear_ (staging_path to_directory r))
    by (apply clear_join_valid; [assumption | apply staging_name_valid]).
  apply keeps_bind; [|intros; apply keeps_ret].
  apply keeps_try_except.
  - apply keeps__do_extract; [|assumption]. intros; now apply Hea.
  - intros ex. destruct (caught_by_extract_archive ex); apply keeps_raise.
Qed.

Lemma keeps_extract_archive (depth : nat) :
  forall (path to_directory : string) (merge_single : bool) (extractor : option string),
    clear_ to_directory ->
    keeps_ (extract_archive RUNTIME_DIR find_executable merge_folders subprocess_call
              TarFile tarfile_open TarFile_extractall TarFile_close gunzip
              depth path to_directory merge_single extractor).
Proof.
  induction depth as [|depth IH]; intros path to_directory merge_single extractor Hd;
    cbn [extract_archive]; [apply keeps_raise|].
  apply (keeps_bind_with (fun staged => clear_ (snd staged))).
  - now apply keeps_extract_to_staging.
  - intros w a w' H. apply extract_to_staging_directory in H as [r ->].
    apply clear_join_valid; [assumption | apply staging_name_valid].
  - intros [p temp_dir] Ht.
    apply keeps_bind; [now apply keeps_merge_staged | intros; apply keeps_ret].
Qed.

End Keeps.

End FrameFacts.




(** * Further properties of the module *)

(** ** Format detection and dispatch *)

(** X1.  Whatever the path, [guess_extractor] answers [None] or one of nine
    kinds; a guessed kind never selects the [innoextract] backend, which is
    reached only by the explicit extractor [gog] (or through [exe]). *)
Theorem guess_extractor_kinds (path : string) :
  In (guess_extractor path)
     [ None; Some "tar"; Some "tgz"; Some "txz"; Some "tbz2"; Some "tzst";
       Some "gzip"; Some "exe"; Some "deb"; Some "AppImage" ]
  /\ fst (get_archive_opener (guess_extractor path)) <> Tag "innoextract".
Proof.
  unfold guess_extractor.
  repeat match goal with
         | |- context [if ?b then _ else _] => destruct b
         end;
    (split; [simpl; tauto | discriminate]).
Qed.

(** X2.  Every opener that [get_archive_opener] returns is one that
    [_do_extract] handles: [tarfile.open] with one of the five read modes,
    or, with no mode, one of the six backend names that [_do_extract]
    compares its opener with; so [_do_extract] never reaches its last branch
    with a string in place of the function. *)
Theorem get_archive_opener_handled (extractor : option string) :
  match get_archive_opener extractor with
  | (TarfileOpen, mode) =>
      In mode [Some "r:"; Some "r:gz"; Some "r:xz"; Some "r:bz2"; Some "r:zst"]
  | (Tag name, mode) =>
      mode = None
      /\ (opener_is (Tag name) "gz" || opener_is (Tag name) "7zip"
          || opener_is (Tag name) "exe" || opener_is (Tag name) "innoextract"
          || opener_is (Tag name) "deb" || opener_is (Tag name) "AppImage") = true
  end.
Proof.
  unfold get_archive_opener.
  repeat match goal with
         | |- context [if ?b then _ else _] => destruct b
         end;
    first [ simpl; tauto | split; reflexivity ].
Qed.

Lemma lower_char_idem (c : ascii) : Str.lower_char (Str.lower_char c) = Str.lower_char c.
Proof. destruct c as [[] [] [] [] [] [] [] []]; reflexivity. Qed.

(** [lower_char] gives a byte outside ASCII only when it is given it. *)
Lemma lower_char_high (c : ascii) (d : ascii) :
  Nat.leb 128 (nat_of_ascii d) = true -> Str.lower_char c = d -> c = d.
Proof.
  intros Hd <-. revert Hd.
  destruct c as [[] [] [] [] [] [] [] []]; vm_compute; congruence.
Qed.

Lemma lower_cons_plain (c : ascii) (s : string) :
  Ascii.eqb c "226" = false ->
  Str.lower (String c s) = String (Str.lower_char c) (Str.lower s).
Proof. intros H. cbn [Str.lower]. now rewrite H. Qed.

Lemma lower_cons_kelvin (s : string) :
  Str.lower (String "226" (String "132" (String "170" s))) = String "k" (Str.lower s).
Proof. reflexivity. Qed.

Lemma lower_cons_lead (s : string) :
  Str.kelvin_tail s = false -> Str.lower (String "226" s) = String "226" (Str.lower s).
Proof.
  intros H. cbn [Str.lower]. rewrite Ascii.eqb_refl.
  destruct s as [|c1 [|c2 s]]; try reflexivity.
  cbn [Str.kelvin_tail] in H. now rewrite H.
Qed.

(** The first byte of a lower-cased string: when it lies outside ASCII it
    is the first byte of the string, and the rest is the lower-cased rest. *)
Lemma lower_head (c : ascii) (s : string) :
  exists d t, Str.lower (String c s) = String d t
              /\ (Nat.leb 128 (nat_of_ascii d) = true -> d = c /\ t = Str.lower s).
Proof.
  destruct (Ascii.eqb c "226") eqn:E.
  - apply Ascii.eqb_eq in E. subst c.
    destruct (Str.kelvin_tail s) eqn:K.
    + destruct s as [|c1 [|c2 s]]; try discriminate K.
      cbn [Str.kelvin_tail] in K. apply andb_true_iff in K as [K1 K2].
      apply Ascii.eqb_eq in K1, K2. subst.
      exists "k"%char, (Str.lower s). split; [reflexivity|]. intros H. discriminate H.
    + rewrite (lower_cons_lead s K). eauto.
  - rewrite (lower_cons_plain c s E). exists (Str.lower_char c), (Str.lower s).
    split; [reflexivity|]. intros H. split; [|reflexivity].
    symmetry. now apply (lower_char_high c).
Qed.

(** Lower-casing makes no Kelvin sign. *)
Lemma kelvin_tail_lower (s : string) :
  Str.kelvin_tail (Str.lower s) = true -> Str.kelvin_tail s = true.
Proof.
  destruct s as [|c1 s]; [discriminate|].
  destruct (lower_head c1 s) as (d & t & -> & Hd).
  destruct t as [|d2 t']; [discriminate|]. cbn [Str.kelvin_tail].
  intros [H1 H2]%andb_true_iff. apply Ascii.eqb_eq in H1, H2. subst d d2.
  destruct (Hd eq_refl) as [<- Ht].
  destruct s as [|c2 s]; [discriminate Ht|].
  destruct (lower_head c2 s) as (e & u & Hl & He). rewrite Hl in Ht.
  injection Ht as <- _. destruct (He eq_refl) as [<- _]. reflexivity.
Qed.

Lemma lower_idem_bounded (n : nat) :
  forall s, String.length s <= n -> Str.lower (Str.lower s) = Str.lower s.
Proof.
  induction n as [|n IH]; intros s Hn.
  - destruct s; [reflexivity | simpl in Hn; lia].
  - destruct s as [|c s]; [reflexivity|]. simpl in Hn.
    destruct (Ascii.eqb c "226") eqn:E.
    + apply Ascii.eqb_eq in E. subst c.
      destruct (Str.kelvin_tail s) eqn:K.
      * destruct s as [|c1 [|c2 s]]; try discriminate K.
        cbn [Str.kelvin_tail] in K. apply andb_true_iff in K as [K1 K2].
        apply Ascii.eqb_eq in K1, K2. subst.
        rewrite lower_cons_kelvin, (lower_cons_plain "k") by reflexivity.
        rewrite IH by (simpl in Hn; lia). reflexivity.
      * rewrite (lower_cons_lead s K). rewrite lower_cons_lead.
        -- now rewrite IH by lia.
        -- destruct (Str.kelvin_tail (Str.lower s)) eqn:K'; [|reflexivity].
           apply kelvin_tail_lower in K'. congruence.
    + rewrite (lower_cons_plain c s E). rewrite lower_cons_plain.
      * now rewrite lower_char_idem, IH by lia.
      * destruct (Ascii.eqb (Str.lower_char c) "226") eqn:E'; [|reflexivity].
        apply Ascii.eqb_eq in E'. apply (lower_char_high c) in E'; [|reflexivity].
        subst c. discriminate E.
Qed.

Lemma lower_idem (s : string) : Str.lower (Str.lower s) = Str.lower s.
Proof. apply (lower_idem_bounded (String.length s)). lia. Qed.

Lemma lower_nonempty (s : string) : s <> "" -> Str.lower s <> "".
Proof.
  destruct s as [|c s]; [congruence|]. intros _.
  destruct (lower_head c s) as (d & t & -> & _). discriminate.
Qed.

(** X4.  With a non-empty extractor hint, [is_7zip_supported] does not look
    at the path, and it does not distinguish the cases of the hint's
    letters. *)
Theorem is_7zip_supported_hint (path path' e : string) :
  e <> "" ->
  is_7zip_supported path (Some e) = is_7zip_supported path' (Some (Str.lower e)).
Proof.
  intros He. pose proof (lower_nonempty e He) as Hl.
  apply String.eqb_neq in He, Hl.
  unfold is_7zip_supported, truthy. rewrite He, Hl. cbn [negb default from_option id].
  now rewrite lower_idem.
Qed.

Lemma is_7zip_supported_hint_witness :
  is_7zip_supported "/cache/a.bin" (Some "ZIP")
  = is_7zip_supported "/other/b.tar" (Some (Str.lower "ZIP")).
Proof. apply is_7zip_supported_hint. discriminate. Defined.

Module SplitextFacts.

(** The character [c] does not occur in [s]. *)
Local Abbreviation free c s := (string_forallb (fun a => negb (Ascii.eqb a c)) s = true).

Lemma rfind_from_free (i : Z) (c : ascii) (t : string) :
  free c t -> Str.rfind_from i c t = (-1)%Z.
Proof.
  revert i; induction t as [|a t IH]; intros i H; [reflexivity|].
  cbn [string_forallb] in H. apply andb_true_iff in H as [Ha Ht].
  cbn [Str.rfind_from]. rewrite (IH _ Ht). apply negb_true_iff in Ha.
  now rewrite Ha.
Qed.

Lemma rfind_from_app_free (i : Z) (c : ascii) (a t : string) :
  free c t -> Str.rfind_from i c (a +:+ t) = Str.rfind_from i c a.
Proof.
  intros Ht. revert i; induction a as [|x a IH]; intros i.
  - now apply rfind_from_free.
  - change (String x a +:+ t) with (String x (a +:+ t)).
    cbn [Str.rfind_from]. now rewrite IH.
Qed.

Lemma rfind_from_bound (i : Z) (c : ascii) (s : string) :
  (Str.rfind_from i c s = -1 \/
   i <= Str.rfind_from i c s < i + Z.of_nat (String.length s))%Z.
Proof.
  revert i; induction s as [|a s IH]; intros i; [now left|].
  cbn [Str.rfind_from String.length].
  destruct (IH (i + 1)%Z) as [-> | H].
  - change (0 <=? -1)%Z with false. cbv iota.
    destruct (Ascii.eqb a c); [right; lia | now left].
  - destruct (Z.leb_spec 0 (Str.rfind_from (i + 1) c s)).
    + right. lia.
    + destruct (Ascii.eqb a c); [right; lia | now left].
Qed.

Lemma rfind_from_last (i : Z) (c : ascii) (a t : string) :
  (0 <= i)%Z -> free c t ->
  Str.rfind_from i c (a +:+ String c t) = (i + Z.of_nat (String.length a))%Z.
Proof.
  intros Hi Ht. revert i Hi; induction a as [|x a IH]; intros i Hi.
  - change ("" +:+ String c t) with (String c t). cbn [Str.rfind_from].
    rewrite (rfind_from_free _ _ _ Ht), Ascii.eqb_refl.
    change (0 <=? -1)%Z with false. cbn [String.length]. lia.
  - change (String x a +:+ String c t) with (String x (a +:+ String c t)).
    cbn [Str.rfind_from String.length]. rewrite IH by lia.
    destruct (Z.leb_spec 0 (i + 1 + Z.of_nat (String.length a))); lia.
Qed.

(** The scan of [splitext] finds a character that is not a dot. *)
Lemma scan_found (p : string) (j : nat) :
  String.eqb (Str.take 1 (Str.drop j p)) "." = false ->
  forall n f, f <= j < f + n -> OsPath.splitext_scan p f n = true.
Proof.
  intros Hj. induction n as [|n IH]; intros f Hf; [lia|].
  cbn [OsPath.splitext_scan].
  destruct (String.eqb (Str.take 1 (Str.drop f p)) ".") eqn:E; [|reflexivity].
  cbn [negb]. apply IH.
  assert (f <> j) by (intros ->; congruence). lia.
Qed.

Lemma lstrip_free (c : ascii) (s : string) : free c s -> Str.lstrip c s = s.
Proof.
  destruct s as [|a s]; [reflexivity|]. cbn [string_forallb Str.lstrip].
  intros [Ha _]%andb_true_iff. apply negb_true_iff in Ha. now rewrite Ha.
Qed.

(** The extension of a path whose name ends with a character other than a
    dot or a slash, then a dot, then a suffix without dot or slash. *)
Lemma splitext_last_dot (b : string) (c : ascii) (ext : string) :
  c <> "."%char -> c <> "/"%char -> free "."%char ext -> free "/"%char ext ->
  OsPath.splitext (b +:+ String c ("." +:+ ext))
  = (b +:+ String c "", "." +:+ ext).
Proof.
  intros Hdot Hsep Hed Hes.
  set (stem := b +:+ String c "").
  assert (Hp : b +:+ String c ("." +:+ ext) = stem +:+ String "." ext).
  { unfold stem. rewrite StrFacts.app_assoc. reflexivity. }
  rewrite Hp. unfold OsPath.splitext, Str.rfind, OsPath.sep.
  rewrite (rfind_from_last 0 "." stem ext) by (lia || assumption).
  assert (Hsf : free "/"%char (String c ("." +:+ ext))).
  { cbn [string_forallb]. apply Ascii.eqb_neq in Hsep. rewrite Hsep.
    change ("." +:+ ext) with (String "." ext). cbn [string_forallb negb andb].
    exact Hes. }
  rewrite <- Hp, (rfind_from_app_free 0 "/" b _ Hsf), Hp.
  assert (Hlen : String.length stem = S (String.length b)).
  { unfold stem. rewrite StrFacts.length_app. simpl. lia. }
  pose proof (rfind_from_bound 0 "/" b) as Hb.
  set (sepIndex := Str.rfind_from 0 "/" b) in *.
  replace (0 + Z.of_nat (String.length stem))%Z
    with (Z.of_nat (String.length stem)) by lia.
  destruct (Z.ltb_spec sepIndex (Z.of_nat (String.length stem))) as [_|Hge]; [|lia].
  rewrite Nat2Z.id.
  rewrite (scan_found _ (String.length b)).
  - rewrite StrFacts.take_length_app, StrFacts.drop_length_app. reflexivity.
  - rewrite <- Hp, StrFacts.drop_length_app. apply Ascii.eqb_neq in Hdot.
    cbn [Str.take]. cbn. now rewrite Hdot.
  - lia.
Qed.

End SplitextFacts.

(** X5.  Without a hint, [is_7zip_supported] decides on what follows the
    last dot of the path, whatever the case of its letters: for a path
    [b c . ext], where [c] is a character other than a dot or a slash and
    [ext] holds neither, the answer is the membership of the lower-cased
    [ext] in the list of supported types.  The Kelvin sign counts as a
    [k]: [VMD] followed by it is the supported type [vmdk]. *)
Theorem is_7zip_supported_by_extension (b : string) (c : ascii) (ext : string) :
  c <> "."%char -> c <> "/"%char ->
  string_forallb (fun a => negb (Ascii.eqb a ".")) ext = true ->
  Fs.slash_free ext = true ->
  is_7zip_supported (b +:+ String c ("." +:+ ext)) None
  = Some (Str.mem (Str.lower ext) supported_extractors).
Proof.
  intros Hdot Hsep Hed Hes. unfold is_7zip_supported. cbn [truthy]. cbv zeta.
  rewrite (SplitextFacts.splitext_last_dot b c ext Hdot Hsep Hed Hes).
  cbn [snd]. change ("." +:+ ext) with (String "." ext).
  cbn [String.eqb negb Str.lstrip]. rewrite Ascii.eqb_refl.
  now rewrite SplitextFacts.lstrip_free.
Qed.

(** The extension [VMD] followed by the Kelvin sign is the type [vmdk]. *)
Example is_7zip_supported_kelvin_sign :
  is_7zip_supported
    ("/cache/disk.VMD" +:+ String "226" (String "132" (String "170" ""))) None
  = Some true.
Proof. reflexivity. Qed.

Lemma is_7zip_supported_by_extension_witness :
  is_7zip_supported ("/cache/game.tar" +:+ String "2" ("." +:+ "RAR")) None
  = Some (Str.mem (Str.lower "RAR") supported_extractors).
Proof.
  apply is_7zip_supported_by_extension;
    [discriminate | discriminate | reflexivity | reflexivity].
Defined.

(** ** The listing of a setup file *)

Module SplitFacts.

Local Abbreviation free c s := (string_forallb (fun a => negb (Ascii.eqb a c)) s = true).

Lemma split_free (c : ascii) (s : string) : free c s -> Str.split c s = [s].
Proof.
  induction s as [|a s IH]; [reflexivity|]. cbn [string_forallb Str.split].
  intros [Ha Hs]%andb_true_iff. apply negb_true_iff in Ha.
  now rewrite Ha, (IH Hs).
Qed.

Lemma split_app (c : ascii) (l rest : string) :
  free c l -> Str.split c (l +:+ String c rest) = l :: Str.split c rest.
Proof.
  induction l as [|a l IH].
  - intros _. change ("" +:+ String c rest) with (String c rest).
    cbn [Str.split]. now rewrite Ascii.eqb_refl.
  - cbn [string_forallb]. intros [Ha Hl]%andb_true_iff. apply negb_true_iff in Ha.
    change (String a l +:+ String c rest) with (String a (l +:+ String c rest)).
    cbn [Str.split]. now rewrite Ha, (IH Hl).
Qed.

(** Splitting undoes joining, for lines that do not hold the separator. *)
Lemma split_concat (c : ascii) (lines : list string) :
  Forall (fun l => free c l) lines -> lines <> [] ->
  Str.split c (String.concat (String c "") lines) = lines.
Proof.
  induction 1 as [|l lines Hl Hls IH]; [congruence|]. intros _.
  destruct lines as [|l2 lines].
  - cbn [String.concat]. now apply split_free.
  - cbn [String.concat] in *.
    change (l +:+ String c "" +:+ ?r) with (l +:+ String c r).
    rewrite (split_app c l _ Hl). now rewrite IH.
Qed.

End SplitFacts.

(** ** Backends that stage one file *)

Module StageFacts.

Section InDirectory.

Variables (D : string) (w : world) (md : gmap string node).
Hypothesis HD : Os.stat D w = Some (Dir md).

(** Writing the file [n] of [D]. *)
Lemma write_file_join (n c : string) :
  Fs.valid_name n = true -> Fs.is_dir (md !! n) = false ->
  Os.write_file (OsPath.join D n) c w = (Ok tt, put_dir D (<[n := File c]> md) w).
Proof.
  intros Hn Hnd. unfold Os.write_file.
  rewrite PathFacts.resolve_join, (OsFacts.lookup_join D w md HD n Hn), Hnd by assumption.
  rewrite List.removelast_last, (OsFacts.lookup_dir D w md HD). cbn [Fs.is_dir].
  unfold put_dir. now rewrite (OsFacts.put_child D w md HD).
Qed.

(** Making the new directory [t] of [D], under any spelling [h] of its path. *)
Lemma makedirs_fresh (h t : string) (exist_ok : bool) :
  Fs.components h = (Fs.components D ++ [t])%list ->
  Fs.valid_name t = true -> md !! t = None ->
  Os.makedirs h exist_ok w = (Ok tt, put_dir D (<[t := Dir ∅]> md) w).
Proof.
  intros Hh Ht Hfree. unfold Os.makedirs, Fs.resolve.
  assert (Hne : String.eqb h "" = false).
  { apply String.eqb_neq. intros ->. now destruct (Fs.components D). }
  rewrite Hne, Hh, (OsFacts.lookup_join D w md HD t Ht), Hfree.
  rewrite (FsFacts.mkdirs_app _ [t] (Dir md)) by apply (OsFacts.lookup_dir D w md HD).
  cbn [Fs.mkdirs]. now rewrite Hfree.
Qed.

End InDirectory.

Section Staged.

Variables (D : string) (w : world) (md : gmap string node).
Hypothesis HD : Os.stat D w = Some (Dir md).

(** The staging directory [t] of [D] gets the entries [ms']. *)
Lemma put_staged (t : string) (ms ms' : gmap string node) :
  Fs.valid_name t = true ->
  put_dir (OsPath.join D t) ms' (put_dir D (<[t := Dir ms]> md) w)
  = put_dir D (<[t := Dir ms']> md) w.
Proof.
  intros Ht.
  rewrite (OsFacts.put_dir_join D _ _ (OsFacts.stat_put_dir D w md HD _) t ms' Ht).
  now rewrite (OsFacts.put_dir_put_dir D w), insert_insert_eq.
Qed.

Lemma stat_staged (t : string) (ms : gmap string node) :
  Fs.valid_name t = true ->
  Os.stat (OsPath.join D t) (put_dir D (<[t := Dir ms]> md) w) = Some (Dir ms).
Proof.
  intros Ht.
  rewrite (OsFacts.stat_join D _ _ (OsFacts.stat_put_dir D w md HD _) t Ht).
  apply lookup_insert_eq.
Qed.

(** A file elsewhere is not affected by what happens to a new entry [t] of
    [D]. *)
Lemma stat_file_staged (p c t : string) (x : node) :
  Os.stat p w = Some (File c) -> md !! t = None -> Fs.valid_name t = true ->
  Os.stat p (put_dir D (<[t := x]> md) w) = Some (File c).
Proof.
  unfold Os.stat. destruct (Fs.resolve p) as [cp|]; [|discriminate].
  intros Hp Hfree Ht. unfold put_dir. cbn [root set_root].
  rewrite <- (OsFacts.put_child D w md HD). apply FrameFacts.lookup_put_frame; [exact Hp|].
  intros [k ->]. rewrite FsFacts.lookup_app, (OsFacts.lookup_join D w md HD t Ht), Hfree in Hp.
  discriminate.
Qed.

(** Writing the file [n] of the staging directory [t] of [D]. *)
Lemma write_file_staged (t n c : string) (ms : gmap string node) :
  Fs.valid_name t = true -> Fs.valid_name n = true -> Fs.is_dir (ms !! n) = false ->
  Os.write_file (OsPath.join (OsPath.join D t) n) c (put_dir D (<[t := Dir ms]> md) w)
  = (Ok tt, put_dir D (<[t := Dir (<[n := File c]> ms)]> md) w).
Proof.
  intros Ht Hn Hnd.
  rewrite (write_file_join (OsPath.join D t) _ ms (stat_staged t ms Ht) n c Hn Hnd).
  now rewrite put_staged.
Qed.

End Staged.

Section Backends.

Variable RUNTIME_DIR : string.
Variable find_executable : string -> world -> result string.
Variable merge_folders : string -> string -> M unit.
Variable subprocess_call : list string -> M Z.
Variable TarFile : Type.
Variable tarfile_open : string -> option string -> M TarFile.
Variable TarFile_extractall : TarFile -> string -> M unit.
Variable TarFile_close : TarFile -> M unit.
Variable gunzip : string -> result string.

Local Abbreviation extract_archive_ :=
  (extract_archive RUNTIME_DIR find_executable merge_folders subprocess_call
     TarFile tarfile_open TarFile_extractall TarFile_close gunzip).
Local Abbreviation extract_to_staging_ :=
  (extract_to_staging RUNTIME_DIR find_executable subprocess_call
     TarFile tarfile_open TarFile_extractall TarFile_close gunzip).
Local Abbreviation _do_extract_ :=
  (_do_extract RUNTIME_DIR find_executable subprocess_call
     TarFile tarfile_open TarFile_extractall TarFile_close gunzip).

(** [decompress_gz] into a new directory [t] of [D]: the output file is
    created empty, then the source is read and decompressed. *)
Lemma decompress_gz_fresh (D t p c : string) (md : gmap string node) (w : world) :
  let out := OsPath.basename (Str.take (String.length p - 3) p) in
  Os.stat D w = Some (Dir md) -> Fs.valid_name t = true -> md !! t = None ->
  Fs.valid_name out = true -> Os.stat p w = Some (File c) ->
  decompress_gz gunzip p (OsPath.join D t) w
  = match gunzip c with
    | Ok data => (Ok tt, put_dir D (<[t := Dir {[ out := File data ]}]> md) w)
    | Raise e => (Raise e, put_dir D (<[t := Dir {[ out := File "" ]}]> md) w)
    end.
Proof.
  intros out HD Ht Hfree Hout Hp. unfold decompress_gz. cbv zeta. fold out.
  assert (Hne : String.eqb (OsPath.join D t) "" = false).
  { apply String.eqb_neq, PathFacts.join_nonempty.
    now apply PathFacts.valid_name_spec in Ht as [? _]. }
  rewrite Hne. cbn [negb].
  destruct (PathFacts.split_join (OsPath.join D t) out Hout) as (h & Hs & Hh).
  unfold OsPath.dirname. rewrite Hs. cbn [fst].
  rewrite PathFacts.components_join in Hh by assumption.
  eapply MFacts.bind_eq; [apply (makedirs_fresh D w md HD h t true Hh Ht Hfree)|].
  cbv beta.
  eapply MFacts.bind_eq.
  { rewrite (write_file_staged D w md HD t out "" ∅ Ht Hout) by reflexivity.
    rewrite insert_empty. reflexivity. }
  cbv beta.
  eapply MFacts.bind_eq.
  { unfold Os.read_file.
    now rewrite (stat_file_staged D w md HD p c t _ Hp Hfree Ht). }
  cbv beta. unfold lift_result, bind at 1.
  destruct (gunzip c) as [data|e]; [|reflexivity].
  rewrite (write_file_staged D w md HD t out data _ Ht Hout)
    by (now rewrite lookup_singleton_eq).
  now rewrite insert_singleton_eq.
Qed.

(** [extract_AppImage] into a new directory [t] of [D]: the file is copied
    under its own name. *)
Lemma extract_AppImage_fresh (D t p c : string) (md : gmap string node) (w : world) :
  let name := OsPath.basename p in
  Os.stat D w = Some (Dir md) -> Fs.valid_name t = true -> md !! t = None ->
  Fs.valid_name name = true -> Os.stat p w = Some (File c) ->
  extract_AppImage p (OsPath.join D t) w
  = (Ok tt, put_dir D (<[t := Dir {[ name := File c ]}]> md) w).
Proof.
  intros name HD Ht Hfree Hname Hp. unfold extract_AppImage, System.create_folder.
  assert (Hne : String.eqb (OsPath.join D t) "" = false).
  { apply String.eqb_neq, PathFacts.join_nonempty.
    now apply PathFacts.valid_name_spec in Ht as [? _]. }
  rewrite Hne.
  eapply MFacts.bind_eq.
  { apply (makedirs_fresh D w md HD _ t true); [|assumption..].
    now apply PathFacts.components_join. }
  cbv beta. unfold Shutil.copy, Os.path_isdir. rewrite MFacts.bind_gets.
  rewrite (stat_staged D w md HD t ∅ Ht). cbn [Fs.is_dir]. cbv iota zeta. fold name.
  unfold Shutil.copyfile. rewrite MFacts.bind_gets.
  assert (Hsame : Shutil.samefile p (OsPath.join (OsPath.join D t) name)
                    (put_dir D (<[t := Dir ∅]> md) w) = false).
  { unfold Shutil.samefile.
    rewrite (OsFacts.stat_join2 D _ _ (OsFacts.stat_put_dir D w md HD _) t name ∅ Ht Hname)
      by apply lookup_insert_eq.
    rewrite (stat_file_staged D w md HD p c t _ Hp Hfree Ht).
    now rewrite lookup_empty. }
  rewrite Hsame. cbv iota.
  eapply MFacts.bind_eq.
  { unfold Os.read_file.
    now rewrite (stat_file_staged D w md HD p c t _ Hp Hfree Ht). }
  cbv beta.
  rewrite (write_file_staged D w md HD t name c ∅ Ht Hname) by reflexivity.
  now rewrite insert_empty.
Qed.

(** The run of a backend for which [_do_extract] does not call back
    [extract_archive], inside [extract_to_staging]. *)
Lemma extract_to_staging_run
    (rec : string -> string -> bool -> option string -> M (string * string))
    (path to_directory : string) (extractor : option string) (w : world) :
  let p := Os.abspath path in
  let extractor' :=
    match extractor with None => guess_extractor p | Some _ => extractor end in
  let temp_dir := staging_path to_directory (urandom w (drawn w)) in
  let wd := World (root w) (urandom w) (S (drawn w)) in
  extract_to_staging_ rec path to_directory extractor w
  = match _do_extract_ rec p temp_dir (fst (get_archive_opener extractor'))
            (snd (get_archive_opener extractor')) extractor' wd with
    | (Ok _, w1) => (Ok (p, temp_dir), w1)
    | (Raise ex, w1) =>
        (Raise (if caught_by_extract_archive ex
                then ExtractError (str_of_exn ex) else ex), w1)
    end.
Proof.
  intros p extractor' temp_dir wd. unfold extract_to_staging.
  fold p extractor'. destruct (get_archive_opener extractor') as [opener mode].
  cbn [fst snd]. unfold bind, draw, try_except. fold temp_dir wd.
  destruct (_do_extract _ _ _ _ _ _ _ _ _ _ _ _ _ _ _) as [[[]|ex] w1];
    [reflexivity|].
  now destruct (caught_by_extract_archive ex).
Qed.

(** The merge of a staging directory [t] of [D] that holds the single file
    [name], a name free in [D]. *)
Lemma merge_single_file_free (D t name c : string)
    (md : gmap string node) (w : world) :
  Os.stat D w = Some (Dir md) -> Fs.valid_name t = true -> Fs.valid_name name = true ->
  md !! t = None -> md !! name = None -> name <> t ->
  merge_staged merge_folders (OsPath.join D t) D true
    (put_dir D (<[t := Dir {[ name := File c ]}]> md) w)
  = (Ok tt, put_dir D (<[name := File c]> md) w).
Proof.
  intros HD Ht Hn Hft Hfn Hnt.
  rewrite (merge_staged_single_free merge_folders D t name c _ _
             (OsFacts.stat_put_dir D w md HD _) Ht Hn).
  - rewrite (OsFacts.put_dir_put_dir D w). f_equal. f_equal.
    apply map_eq. intros k.
    destruct (decide (k = t)) as [->|Hkt]; [now map_lookup|].
    destruct (decide (k = name)) as [->|Hkn]; now map_lookup.
  - apply lookup_insert_eq.
  - now rewrite lookup_insert_ne by congruence.
Qed.

End Backends.

End StageFacts.

Section StagedFileFacts.

Variable RUNTIME_DIR : string.
Variable find_executable : string -> world -> result string.
Variable merge_folders : string -> string -> M unit.
Variable subprocess_call : list string -> M Z.
Variable TarFile : Type.
Variable tarfile_open : string -> option string -> M TarFile.
Variable TarFile_extractall : TarFile -> string -> M unit.
Variable TarFile_close : TarFile -> M unit.
Variable gunzip : string -> result string.

Local Abbreviation extract_archive_ :=
  (extract_archive RUNTIME_DIR find_executable merge_folders subprocess_call
     TarFile tarfile_open TarFile_extractall TarFile_close gunzip).



(** X8.  The extraction of an AppImage (extractor [AppImage], given or
    guessed) into a directory where its name is free: the file is copied,
    not unpacked; the destination has gained one file with the base name
    and the bytes of the source, the staging directory is gone, and the
    source file is still in place. *)
Theorem extract_archive_AppImage
    (depth : nat) (path to_directory : string) (extractor : option string)
    (c : string) (md : gmap string node) (w : world) :
  let p := Os.abspath path in
  let extractor' :=
    match extractor with None => guess_extractor p | Some _ => extractor end in
  let name := OsPath.basename p in
  let t := ".extract-" +:+ random_id_of (urandom w (drawn w)) in
  let wd := World (root w) (urandom w) (S (drawn w)) in
  extractor' = Some "AppImage" ->
  Os.stat to_directory w = Some (Dir md) -> md !! t = None ->
  Fs.valid_name name = true -> md !! name = None -> name <> t ->
  Os.stat p w = Some (File c) ->
  extract_archive_ (S depth) path to_directory true extractor w
  = (Ok (p, to_directory), put_dir to_directory (<[name := File c]> md) wd)
  /\ Os.stat p (put_dir to_directory (<[name := File c]> md) wd) = Some (File c).
Proof.
  intros p extractor' name t wd Hex HD Hft Hname Hfn Hnt Hp.
  pose proof (staging_name_valid (urandom w (drawn w))) as Ht. fold t in Ht.
  split; [|now apply (StageFacts.stat_file_staged to_directory wd md HD)].
  cbn [extract_archive]. eapply MFacts.bind_eq.
  { rewrite StageFacts.extract_to_staging_run. fold p extractor'. rewrite Hex.
    change (get_archive_opener (Some "AppImage")) with (Tag "AppImage", @None string).
    cbn [fst snd]. unfold _do_extract.
    change (opener_is (Tag "AppImage") "gz") with false.
    change (opener_is (Tag "AppImage") "7zip") with false.
    change (opener_is (Tag "AppImage") "exe") with false.
    change (opener_is (Tag "AppImage") "innoextract") with false.
    change (opener_is (Tag "AppImage") "deb") with false.
    change (opener_is (Tag "AppImage") "AppImage") with true. cbv iota.
    change (staging_path to_directory (urandom w (drawn w)))
      with (OsPath.join to_directory t).
    fold wd.
    rewrite (StageFacts.extract_AppImage_fresh to_directory t p c md wd HD Ht Hft Hname Hp).
    reflexivity. }
  cbv beta iota. eapply MFacts.bind_eq; [|reflexivity].
  now apply StageFacts.merge_single_file_free.
Qed.

End StagedFileFacts.



(** [Game.AppImage] of the download cache is copied to [/games]. *)
Lemma extract_archive_AppImage_witness :
  let wd := World (root Scenario.world_downloads) (urandom Scenario.world_downloads) 1 in
  extract_archive Scenario.RUNTIME_DIR Scenario.no_executable Scenario.merge_refused
    (Scenario.idle_tool 0) unit Scenario.tar_open (Scenario.tar_extractall ∅)
    Scenario.tar_close Scenario.gunzip_prefixed
    1 "/cache/Game.AppImage" "/games" true None Scenario.world_downloads
  = (Ok ("/cache/Game.AppImage", "/games"),
     put_dir "/games" (<[ "Game.AppImage" := File "ELF" ]> Scenario.games0) wd)
  /\ Os.stat "/cache/Game.AppImage"
       (put_dir "/games" (<[ "Game.AppImage" := File "ELF" ]> Scenario.games0) wd)
     = Some (File "ELF").
Proof.
  refine (extract_archive_AppImage
            Scenario.RUNTIME_DIR Scenario.no_executable Scenario.merge_refused
            (Scenario.idle_tool 0) unit Scenario.tar_open (Scenario.tar_extractall ∅)
            Scenario.tar_close Scenario.gunzip_prefixed
            0 "/cache/Game.AppImage" "/games" None "ELF"
            Scenario.games0 Scenario.world_downloads _ _ _ _ _ _ _).
  - vm_compute. reflexivity.
  - vm_compute. reflexivity.
  - vm_compute. reflexivity.
  - vm_compute. reflexivity.
  - vm_compute. reflexivity.
  - vm_compute. discriminate.
  - vm_compute. reflexivity.
Defined.

(** ** Nested calls, results and exceptions *)

Lemma bind_ext {A B} (c1 c2 : M A) (k1 k2 : A -> M B) (w : world) :
  c1 w = c2 w -> (forall a w', k1 a w' = k2 a w') -> bind c1 k1 w = bind c2 k2 w.
Proof. intros Hc Hk. unfold bind. rewrite Hc. destruct (c2 w) as [[a|e] w']; auto. Qed.

(** The data tarball of a Debian package is always opened with [tarfile]. *)
Lemma data_tar_opener (dest ext : string) :
  In ext data_file_exts ->
  fst (get_archive_opener
         (guess_extractor (Os.abspath (OsPath.join dest ("data.tar" +:+ ext)))))
  = TarfileOpen.
Proof.
  intros Hin. unfold data_file_exts in Hin. simpl in Hin.
  assert (Hv : Fs.valid_name ("data.tar" +:+ ext) = true)
    by (repeat (destruct Hin as [<-|Hin]; [reflexivity|]); destruct Hin).
  assert (Hdot : "data.tar" +:+ ext <> "." /\ "data.tar" +:+ ext <> "..")
    by (repeat (destruct Hin as [<-|Hin]; [split; discriminate|]); destruct Hin).
  destruct (abspath_join dest _ Hv (proj1 Hdot) (proj2 Hdot)) as [stem ->].
  change (stem +:+ "/" +:+ "data.tar" +:+ ext)
    with (stem +:+ "/data" +:+ ".tar" +:+ ext).
  rewrite <- StrFacts.app_assoc. set (s := stem +:+ "/data").
  repeat (destruct Hin as [<-|Hin];
          [ unfold guess_extractor, Str.endswith_any; simpl existsb;
            cbn [String.append]; endswith_known; reflexivity | ]).
  destruct Hin.
Qed.

Section DepthFacts.

Variable RUNTIME_DIR : string.
Variable find_executable : string -> world -> result string.
Variable merge_folders : string -> string -> M unit.
Variable subprocess_call : list string -> M Z.
Variable TarFile : Type.
Variable tarfile_open : string -> option string -> M TarFile.
Variable TarFile_extractall : TarFile -> string -> M unit.
Variable TarFile_close : TarFile -> M unit.
Variable gunzip : string -> result string.

Local Abbreviation extract_archive_ :=
  (extract_archive RUNTIME_DIR find_executable merge_folders subprocess_call
     TarFile tarfile_open TarFile_extractall TarFile_close gunzip).
Local Abbreviation extract_to_staging_ :=
  (extract_to_staging RUNTIME_DIR find_executable subprocess_call
     TarFile tarfile_open TarFile_extractall TarFile_close gunzip).
Local Abbreviation _do_extract_ :=
  (_do_extract RUNTIME_DIR find_executable subprocess_call
     TarFile tarfile_open TarFile_extractall TarFile_close gunzip).
Local Abbreviation extract_deb_ :=
  (extract_deb RUNTIME_DIR find_executable subprocess_call).

Local Abbreviation callback :=
  (string -> string -> bool -> option string -> M (string * string)).

(** Two callbacks that agree on the data tarballs of every directory. *)
Local Abbreviation agree_on_data rec1 rec2 :=
  (forall dest ext w,
      In ext data_file_exts ->
      rec1 (OsPath.join dest ("data.tar" +:+ ext)) dest true None w
      = rec2 (OsPath.join dest ("data.tar" +:+ ext)) dest true None w).

Lemma extract_deb_data_agree (rec1 rec2 : callback) (dest : string)
    (exts : list string) :
  (forall ext w0, In ext exts ->
     rec1 (OsPath.join dest ("data.tar" +:+ ext)) dest true None w0
     = rec2 (OsPath.join dest ("data.tar" +:+ ext)) dest true None w0) ->
  forall w, extract_deb_data rec1 dest exts w = extract_deb_data rec2 dest exts w.
Proof.
  induction exts as [|e exts IH]; intros H w; [reflexivity|].
  cbn [extract_deb_data]. cbv zeta. apply bind_ext; [reflexivity|].
  intros found w'. destruct found.
  - apply bind_ext; [apply H; now left | reflexivity].
  - apply IH. intros ext w0 Hin. apply H. now right.
Qed.

Lemma _do_extract_agree (rec1 rec2 : callback) (archive dest : string)
    (opener : opener) (mode extractor : option string) (w : world) :
  agree_on_data rec1 rec2 ->
  _do_extract_ rec1 archive dest opener mode extractor w
  = _do_extract_ rec2 archive dest opener mode extractor w.
Proof.
  intros H. unfold _do_extract.
  repeat match goal with
         | |- context [if ?b then _ else _] => destruct b; try reflexivity
         end.
  unfold extract_deb. cbv zeta.
  do 3 (apply bind_ext; [reflexivity | intros ? ?]).
  apply extract_deb_data_agree. intros ext w0 Hin. now apply H.
Qed.

Lemma extract_to_staging_agree (rec1 rec2 : callback) (path to_directory : string)
    (extractor : option string) (w : world) :
  agree_on_data rec1 rec2 ->
  extract_to_staging_ rec1 path to_directory extractor w
  = extract_to_staging_ rec2 path to_directory extractor w.
Proof.
  intros H. unfold extract_to_staging.
  destruct (get_archive_opener _) as [opener mode].
  apply bind_ext; [reflexivity|]. intros r w1.
  apply bind_ext; [|reflexivity].
  unfold try_except. now rewrite (_do_extract_agree rec1 rec2).
Qed.

(** With a [tarfile] opener the backend does not call back. *)
Lemma extract_to_staging_tar (rec1 rec2 : callback) (path to_directory : string)
    (w : world) :
  fst (get_archive_opener (guess_extractor (Os.abspath path))) = TarfileOpen ->
  extract_to_staging_ rec1 path to_directory None w
  = extract_to_staging_ rec2 path to_directory None w.
Proof.
  intros H. unfold extract_to_staging.
  destruct (get_archive_opener _) as [opener mode]. cbn [fst] in H. subst opener.
  reflexivity.
Qed.

Lemma extract_archive_data_tar (n : nat) :
  agree_on_data (extract_archive_ (S n)) (extract_archive_ 1).
Proof.
  intros dest ext w Hin. cbn [extract_archive].
  apply bind_ext; [|reflexivity].
  apply extract_to_staging_tar. now apply data_tar_opener.
Qed.

(** X10.  Two nested calls are all that [extract_archive] ever makes: the
    only call back is that of [extract_deb] on [data.tar*], whose guessed
    extractor is a [tarfile] kind, which does not call back.  So the result
    of a call does not depend on how many more nested calls the interpreter
    would allow beyond two. *)
Theorem extract_archive_depth_two (n : nat) (path to_directory : string)
    (merge_single : bool) (extractor : option string) (w : world) :
  extract_archive_ (S (S n)) path to_directory merge_single extractor w
  = extract_archive_ 2 path to_directory merge_single extractor w.
Proof.
  change (extract_archive_ (S (S n)) path to_directory merge_single extractor w)
    with ((staged <- extract_to_staging_ (extract_archive_ (S n)) path to_directory
                       extractor ;;
           let '(path, temp_dir) := staged in
           merge_staged merge_folders temp_dir to_directory merge_single ;;
           ret (path, to_directory)) w).
  change (extract_archive_ 2 path to_directory merge_single extractor w)
    with ((staged <- extract_to_staging_ (extract_archive_ 1) path to_directory
                       extractor ;;
           let '(path, temp_dir) := staged in
           merge_staged merge_folders temp_dir to_directory merge_single ;;
           ret (path, to_directory)) w).
  apply bind_ext; [|reflexivity].
  apply extract_to_staging_agree, extract_archive_data_tar.
Qed.



(** X13.  An exception of the backend that is not one of the four wrapped
    classes ([RuntimeError] of the [exe] and [gog] backends,
    [MissingExecutableError], ...) comes out of [extract_archive] as it is,
    in the world the backend left. *)
Theorem extract_archive_propagates_other_errors
    (depth : nat) (path to_directory : string) (merge_single : bool)
    (extractor : option string) (w w1 : world) (ex : exn) :
  let path' := Os.abspath path in
  let extractor' :=
    match extractor with None => guess_extractor path' | Some _ => extractor end in
  let temp_dir := staging_path to_directory (urandom w (drawn w)) in
  _do_extract_ (extract_archive_ depth) path' temp_dir
    (fst (get_archive_opener extractor')) (snd (get_archive_opener extractor'))
    extractor' (World (root w) (urandom w) (S (drawn w))) = (Raise ex, w1) ->
  caught_by_extract_archive ex = false ->
  extract_archive_ (S depth) path to_directory merge_single extractor w
  = (Raise ex, w1).
Proof.
  intros path' extractor' temp_dir Hrun Hc.
  cbn [extract_archive]. unfold bind at 1.
  rewrite StageFacts.extract_to_staging_run. fold path' extractor' temp_dir.
  now rewrite Hrun, Hc.
Qed.

End DepthFacts.



(** No [innoextract] anywhere: the [gog] backend raises a [RuntimeError],
    and this is what [extract_archive] raises. *)
Lemma extract_archive_propagates_other_errors_witness :
  extract_archive Scenario.RUNTIME_DIR Scenario.no_executable Scenario.merge_refused
    (Scenario.idle_tool 0) unit Scenario.tar_open (Scenario.tar_extractall ∅)
    Scenario.tar_close Scenario.gunzip_stored
    1 "/cache/setup.exe" "/games" true (Some "gog") Scenario.world0
  = (Raise (RuntimeError "specified exe is not a GOG setup file"),
     World (root Scenario.world0) (urandom Scenario.world0) 1).
Proof.
  refine (extract_archive_propagates_other_errors
            Scenario.RUNTIME_DIR Scenario.no_executable Scenario.merge_refused
            (Scenario.idle_tool 0) unit Scenario.tar_open (Scenario.tar_extractall ∅)
            Scenario.tar_close Scenario.gunzip_stored
            0 "/cache/setup.exe" "/games" true (Some "gog") Scenario.world0
            (World (root Scenario.world0) (urandom Scenario.world0) 1)
            (RuntimeError "specified exe is not a GOG setup file") _ _).
  - vm_compute. reflexivity.
  - reflexivity.
Defined.

(** ** Tools, packages and the merge *)

Section ToolFacts.

Variable RUNTIME_DIR : string.
Variable find_executable : string -> world -> result string.
Variable merge_folders : string -> string -> M unit.
Variable subprocess_call : list string -> M Z.
Variable TarFile : Type.
Variable tarfile_open : string -> option string -> M TarFile.
Variable TarFile_extractall : TarFile -> string -> M unit.
Variable TarFile_close : TarFile -> M unit.
Variable gunzip : string -> result string.

Local Abbreviation extract_archive_ :=
  (extract_archive RUNTIME_DIR find_executable merge_folders subprocess_call
     TarFile tarfile_open TarFile_extractall TarFile_close gunzip).
Local Abbreviation extract_to_staging_ :=
  (extract_to_staging RUNTIME_DIR find_executable subprocess_call
     TarFile tarfile_open TarFile_extractall TarFile_close gunzip).
Local Abbreviation _do_extract_ :=
  (_do_extract RUNTIME_DIR find_executable subprocess_call
     TarFile tarfile_open TarFile_extractall TarFile_close gunzip).
Local Abbreviation extract_7zip_ :=
  (extract_7zip RUNTIME_DIR find_executable subprocess_call).
Local Abbreviation get_innoextract_path_ :=
  (get_innoextract_path RUNTIME_DIR find_executable).
Local Abbreviation check_inno_exe_ :=
  (check_inno_exe RUNTIME_DIR find_executable subprocess_call).
Local Abbreviation extract_exe_ :=
  (extract_exe RUNTIME_DIR find_executable subprocess_call).
Local Abbreviation extract_gog_ :=
  (extract_gog RUNTIME_DIR find_executable subprocess_call).
Local Abbreviation decompress_gog_ :=
  (decompress_gog RUNTIME_DIR find_executable subprocess_call).
Local Abbreviation extract_deb_ :=
  (extract_deb RUNTIME_DIR find_executable subprocess_call).

Local Abbreviation candidate d :=
  (OsPath.join (OsPath.join RUNTIME_DIR d) "innoextract").

Lemma system_path_exists_join (a n : string) (w : world) :
  n <> "" ->
  System.path_exists (OsPath.join a n) w
  = (Ok (match Os.stat (OsPath.join a n) w with Some _ => true | None => false end), w).
Proof.
  intros Hn. unfold System.path_exists.
  pose proof (PathFacts.join_nonempty a n Hn) as Hne. apply String.eqb_neq in Hne.
  now rewrite Hne.
Qed.

(** The loop of [get_innoextract_path] returns the first candidate that
    exists, and changes nothing. *)
Lemma get_innoextract_path_loop_first (inno_dirs : list string) (w : world) :
  (exists pre d post,
      inno_dirs = (pre ++ d :: post)%list
      /\ (forall d', In d' pre -> Os.stat (candidate d') w = None)
      /\ Os.stat (candidate d) w <> None
      /\ get_innoextract_path_loop RUNTIME_DIR inno_dirs w = (Ok (Some (candidate d)), w))
  \/ ((forall d, In d inno_dirs -> Os.stat (candidate d) w = None)
      /\ get_innoextract_path_loop RUNTIME_DIR inno_dirs w = (Ok None, w)).
Proof.
  induction inno_dirs as [|d rest IH].
  - right. split; [intros d []|reflexivity].
  - cbn [get_innoextract_path_loop]. cbv zeta. unfold bind.
    rewrite system_path_exists_join by discriminate.
    destruct (Os.stat (candidate d) w) as [x|] eqn:Hd.
    + left. exists [], d, rest. repeat split; [intros d' [] | congruence].
    + destruct IH as [(pre & d0 & post & -> & Hpre & Hd0 & Hrun) | [Hnone Hrun]].
      * left. exists (d :: pre), d0, post. repeat split; try assumption.
        intros d' [<-|Hin]; [assumption | now apply Hpre].
      * right. split; [|assumption].
        intros d' [<-|Hin]; [assumption | now apply Hnone].
Qed.

(** X15.  When [get_innoextract_path] returns a path, it has changed
    nothing, and the path is either that of the first [innoextract*] entry
    of the runtime directory, in the order of the listing, that holds an
    [innoextract], or, when no entry holds one, the executable found on the
    [PATH]: the runtime directory takes precedence. *)
Theorem get_innoextract_path_found (w w' : world) (p : string) :
  get_innoextract_path_ w = (Ok p, w') ->
  w' = w
  /\ exists m,
       Os.stat RUNTIME_DIR w = Some (Dir m)
       /\ let inno_dirs :=
            List.filter (fun d => Str.startswith d "innoextract") (Fs.names m) in
          (exists pre d post,
              inno_dirs = (pre ++ d :: post)%list
              /\ (forall d', In d' pre -> Os.stat (candidate d') w = None)
              /\ p = candidate d /\ Os.stat p w <> None)
          \/ ((forall d, In d inno_dirs -> Os.stat (candidate d) w = None)
              /\ find_executable "innoextract" w = Ok p).
Proof.
  unfold get_innoextract_path, bind at 1, Os.listdir.
  destruct (Os.stat RUNTIME_DIR w) as [[|m]|] eqn:HR; try discriminate.
  unfold bind.
  destruct (get_innoextract_path_loop_first
              (List.filter (fun d => Str.startswith d "innoextract") (Fs.names m)) w)
    as [(pre & d & post & Hsplit & Hpre & Hd & Hrun) | [Hnone Hrun]];
    rewrite Hrun.
  - unfold ret. intros H. injection H as <- <-. split; [reflexivity|].
    exists m. split; [reflexivity|]. left. now exists pre, d, post.
  - unfold reads. destruct (find_executable "innoextract" w) as [q|e] eqn:Hf;
      [|discriminate].
    intros H. injection H as <- <-. split; [reflexivity|].
    exists m. split; [reflexivity|]. now right.
Qed.

(** X16.  When the runtime directory itself does not exist, the
    [FileNotFoundError] of [os.listdir] is not the [MissingExecutableError]
    that [check_inno_exe] catches: the probe raises it instead of answering
    [False], and so do [extract_exe] and [extract_gog], before any process
    is run. *)
Theorem check_inno_exe_runtime_dir_missing (path dest : string) (w : world) :
  Os.stat RUNTIME_DIR w = None ->
  check_inno_exe_ path w = (Raise (Os.ENOENT RUNTIME_DIR), w)
  /\ extract_exe_ path dest w = (Raise (Os.ENOENT RUNTIME_DIR), w)
  /\ extract_gog_ path dest w = (Raise (Os.ENOENT RUNTIME_DIR), w).
Proof.
  intros HR.
  assert (Hpath : get_innoextract_path_ w = (Raise (Os.ENOENT RUNTIME_DIR), w)).
  { unfold get_innoextract_path, bind, Os.listdir. now rewrite HR. }
  assert (Hprobe : check_inno_exe_ path w = (Raise (Os.ENOENT RUNTIME_DIR), w)).
  { unfold check_inno_exe, bind, try_except. now rewrite Hpath. }
  split; [exact Hprobe|]. split.
  - unfold extract_exe, bind. now rewrite Hprobe.
  - unfold extract_gog, bind. now rewrite Hprobe.
Qed.

(** X14.  The 7-zip backend without its tool: when the runtime directory
    has no [p7zip/7z] and the lookup on the [PATH] raises, [extract_archive]
    raises that exception (wrapped only if it is of a wrapped class), no
    process has been run and nothing has been created in the destination:
    the world is as before, but for the random draw. *)
Theorem extract_archive_7zip_missing
    (depth : nat) (path to_directory : string) (merge_single : bool)
    (extractor : option string) (ex : exn) (w : world) :
  let p := Os.abspath path in
  let extractor' :=
    match extractor with None => guess_extractor p | Some _ => extractor end in
  let wd := World (root w) (urandom w) (S (drawn w)) in
  get_archive_opener extractor' = (Tag "7zip", None) ->
  Os.stat (OsPath.join RUNTIME_DIR "p7zip/7z") w = None ->
  find_executable "7z" wd = Raise ex ->
  extract_archive_ (S depth) path to_directory merge_single extractor w
  = (Raise (if caught_by_extract_archive ex then ExtractError (str_of_exn ex) else ex),
     wd).
Proof.
  intros p extractor' wd Hopener Hnone Hfind.
  cbn [extract_archive]. unfold bind at 1.
  rewrite StageFacts.extract_to_staging_run. fold p extractor' wd. rewrite Hopener.
  cbn [fst snd]. unfold _do_extract.
  change (opener_is (Tag "7zip") "gz") with false.
  change (opener_is (Tag "7zip") "7zip") with true. cbv iota.
  unfold extract_7zip. cbv zeta. unfold bind at 1.
  rewrite system_path_exists_join by discriminate.
  change (Os.stat (OsPath.join RUNTIME_DIR "p7zip/7z") wd)
    with (Os.stat (OsPath.join RUNTIME_DIR "p7zip/7z") w).
  rewrite Hnone. cbn [negb]. unfold bind at 1, reads. rewrite Hfind. reflexivity.
Qed.

(** X3.  An extractor name that [get_archive_opener] does not know goes to
    the 7-zip backend, and [_do_extract] hands it to the tool as the archive
    type: the command run is [7z x <archive> -o<dest> -aoa], followed by
    [-t<name>] unless the name is empty or [auto]. *)
Theorem unknown_extractor_passed_to_7zip
    (rec : string -> string -> bool -> option string -> M (string * string))
    (archive dest e : string) (w : world) :
  ~ In e [ "tar"; "tgz"; "txz"; "tbz2"; "bz2"; "tzst"; "gzip"; "gog"; "exe"; "deb";
           "AppImage" ] ->
  Os.stat (OsPath.join RUNTIME_DIR "p7zip/7z") w <> None ->
  get_archive_opener (Some e) = (Tag "7zip", None)
  /\ _do_extract_ rec archive dest (Tag "7zip") None (Some e) w
     = (subprocess_call
          ([OsPath.join RUNTIME_DIR "p7zip/7z"; "x"; archive; "-o" +:+ dest; "-aoa"]
           ++ (if String.eqb e "" || String.eqb e "auto" then [] else ["-t" +:+ e])) ;;
        ret tt) w.
Proof.
  clear merge_folders. intros Hun Hfound. split.
  - unfold get_archive_opener, extractor_is.
    repeat match goal with
           | |- context [String.eqb e ?s] =>
               let H := fresh in
               assert (H : String.eqb e s = false)
                 by (apply String.eqb_neq; intros ->; apply Hun; simpl; tauto);
               rewrite H; clear H
           end.
    reflexivity.
  - unfold _do_extract.
    change (opener_is (Tag "7zip") "gz") with false.
    change (opener_is (Tag "7zip") "7zip") with true. cbv iota.
    unfold extract_7zip. cbv zeta. unfold bind at 1.
    rewrite system_path_exists_join by discriminate.
    destruct (Os.stat (OsPath.join RUNTIME_DIR "p7zip/7z") w); [|congruence].
    cbn [negb]. unfold bind at 1, ret at 1.
    unfold truthy, extractor_is. cbn [default from_option id].
    destruct (String.eqb e ""), (String.eqb e "auto"); reflexivity.
Qed.

(** X18.  [extract_deb] creates [dest/debian] with [os.makedirs] and no
    [exist_ok]: when the package itself holds an entry called [debian], the
    call raises [FileExistsError] right after the 7-zip step, and neither
    tarball is looked at. *)
Theorem extract_deb_debian_exists
    (rec : string -> string -> bool -> option string -> M (string * string))
    (archive dest : string) (w w1 : world) (x : node) :
  extract_7zip_ archive dest (Some "ar") w = (Ok tt, w1) ->
  Os.stat (OsPath.join dest "debian") w1 = Some x ->
  extract_deb_ rec archive dest w
  = (Raise (Os.EEXIST (OsPath.join dest "debian")), w1).
Proof.
  intros H7z Hx. unfold extract_deb. cbv zeta. unfold bind at 1. rewrite H7z.
  unfold bind at 1, Os.makedirs. unfold Os.stat in Hx.
  destruct (Fs.resolve (OsPath.join dest "debian")) as [cp|]; [|discriminate].
  rewrite Hx. reflexivity.
Qed.

Lemma extract_deb_control_none (dest debian_folder : string) (exts : list string)
    (w : world) :
  (forall e, In e exts -> Os.stat (OsPath.join dest ("control.tar" +:+ e)) w = None) ->
  extract_deb_control dest debian_folder exts w = (Ok tt, w).
Proof.
  induction exts as [|e exts IH]; intros H; [reflexivity|].
  cbn [extract_deb_control]. cbv zeta. unfold Os.path_exists.
  rewrite MFacts.bind_gets, (H e (or_introl eq_refl)).
  apply IH. intros e' He'. apply H. now right.
Qed.

Lemma extract_deb_data_none
    (rec : string -> string -> bool -> option string -> M (string * string))
    (dest : string) (exts : list string) (w : world) :
  (forall e, In e exts -> Os.stat (OsPath.join dest ("data.tar" +:+ e)) w = None) ->
  extract_deb_data rec dest exts w = (Ok tt, w).
Proof.
  induction exts as [|e exts IH]; intros H; [reflexivity|].
  cbn [extract_deb_data]. cbv zeta. unfold Os.path_exists.
  rewrite MFacts.bind_gets, (H e (or_introl eq_refl)).
  apply IH. intros e' He'. apply H. now right.
Qed.

(** X19.  A package in which the 7-zip step finds neither a control nor a
    data tarball is accepted silently: [extract_deb] succeeds, having only
    added an empty [debian] directory, and never calls [extract_archive]
    back. *)
Theorem extract_deb_without_tarballs
    (rec : string -> string -> bool -> option string -> M (string * string))
    (archive dest : string) (w w1 : world) (ar : gmap string node) :
  extract_7zip_ archive dest (Some "ar") w = (Ok tt, w1) ->
  Os.stat dest w1 = Some (Dir ar) ->
  ar !! "debian" = None ->
  (forall e, In e control_file_exts -> ar !! ("control.tar" +:+ e) = None) ->
  (forall e, In e data_file_exts -> ar !! ("data.tar" +:+ e) = None) ->
  extract_deb_ rec archive dest w
  = (Ok tt, put_dir dest (<[ "debian" := Dir ∅ ]> ar) w1).
Proof.
  intros H7z HD Hdeb Hcontrol Hdata. unfold extract_deb. cbv zeta.
  eapply MFacts.bind_eq; [exact H7z|]. cbv beta.
  eapply MFacts.bind_eq; [now apply (OsFacts.makedirs_join dest w1 ar HD)|]. cbv beta.
  pose proof (OsFacts.stat_put_dir dest w1 ar HD (<[ "debian" := Dir ∅ ]> ar)) as HD2.
  eapply MFacts.bind_eq.
  { apply extract_deb_control_none. intros e He.
    assert (Hv : Fs.valid_name ("control.tar" +:+ e) = true).
    { unfold control_file_exts in He. simpl in He.
      repeat (destruct He as [<-|He]; [reflexivity|]). destruct He. }
    rewrite (OsFacts.stat_join dest _ _ HD2 _ Hv).
    rewrite lookup_insert_ne; [now apply Hcontrol|].
    unfold control_file_exts in He. simpl in He.
    repeat (destruct He as [<-|He]; [discriminate|]). destruct He. }
  cbv beta.
  apply extract_deb_data_none. intros e He.
  assert (Hv : Fs.valid_name ("data.tar" +:+ e) = true).
  { unfold data_file_exts in He. simpl in He.
    repeat (destruct He as [<-|He]; [reflexivity|]). destruct He. }
  rewrite (OsFacts.stat_join dest _ _ HD2 _ Hv).
  rewrite lookup_insert_ne; [now apply Hdata|].
  unfold data_file_exts in He. simpl in He.
  repeat (destruct He as [<-|He]; [discriminate|]). destruct He.
Qed.

(** X9.  The extraction of a tar archive that has members (a [tarfile]
    opener, from the extractor given or guessed) into a directory where the
    names it brings and the staging name are free, with [merge_single] set:
    the call succeeds and returns the
    absolute source path and the destination; the entries of the archive
    (those of its single top-level directory, when it has just one) are in
    the destination, the staging directory is gone and no other entry of
    the destination has changed. *)
Theorem extract_archive_tar_merges
    (depth : nat) (path to_directory : string) (extractor mode : option string)
    (data : string) (md content : gmap string node) (w : world) :
  let p := Os.abspath path in
  let extractor' :=
    match extractor with None => guess_extractor p | Some _ => extractor end in
  let t := ".extract-" +:+ random_id_of (urandom w (drawn w)) in
  let wd := World (root w) (urandom w) (S (drawn w)) in
  get_archive_opener extractor' = (TarfileOpen, mode) ->
  tar_unpacks tarfile_open TarFile_extractall TarFile_close p mode data content ->
  Os.stat p w = Some (File data) ->
  content <> ∅ ->
  Os.stat to_directory w = Some (Dir md) -> md !! t = None ->
  valid_names content -> valid_names (effective_entries content) ->
  (forall k, is_Some (effective_entries content !! k) -> md !! k = None /\ k <> t) ->
  exists md',
    extract_archive_ (S depth) path to_directory true extractor w
    = (Ok (p, to_directory), put_dir to_directory md' wd)
    /\ md' !! t = None
    /\ (forall k, is_Some (effective_entries content !! k) ->
                  md' !! k = effective_entries content !! k)
    /\ (forall k, effective_entries content !! k = None -> k <> t ->
                  md' !! k = md !! k).
Proof.
  intros p extractor' t wd Hopener Htar Hfile Hmembers HD Hfreet Hv Hve Hfree.
  assert (Hfiled : Os.stat p wd = Some (File data)) by exact Hfile.
  pose proof (staging_name_valid (urandom w (drawn w))) as Ht. fold t in Ht.
  assert (HDd : Os.stat to_directory wd = Some (Dir md)) by exact HD.
  set (md1 := <[t := Dir content]> md).
  assert (HD1 : Os.stat to_directory (put_dir to_directory md1 wd) = Some (Dir md1))
    by apply (OsFacts.stat_put_dir to_directory wd md HDd).
  destruct (merge_staged_free merge_folders to_directory t md1 content
              (put_dir to_directory md1 wd) HD1 Ht)
    as (md' & Hrun & Ht' & Hin & Hout); try assumption.
  - unfold md1. apply lookup_insert_eq.
  - intros k Hk. destruct (Hfree k Hk) as [Hnone Hkt].
    unfold md1. now rewrite lookup_insert_ne by congruence.
  - exists md'. split; [|split; [|split]]; try assumption.
    + cbn [extract_archive]. eapply MFacts.bind_eq.
      { rewrite StageFacts.extract_to_staging_run. fold p extractor' wd.
        rewrite Hopener. cbn [fst snd].
        change (staging_path to_directory (urandom w (drawn w)))
          with (OsPath.join to_directory t).
        destruct (tar_unpacks_staged _ _ _ _ _ _ _ md to_directory t wd
                    Htar Hfiled Hmembers HDd Ht Hfreet)
          as (handler & Hopen & Hall & Hclose).
        unfold _do_extract. cbn [opener_is]. cbv iota.
        unfold bind. now rewrite Hopen, Hall, Hclose. }
      cbv beta iota. fold md1. eapply MFacts.bind_eq; [exact Hrun|].
      now rewrite (OsFacts.put_dir_put_dir to_directory wd).
    + intros k Hk Hkt. rewrite (Hout k Hk Hkt). unfold md1.
      now rewrite lookup_insert_ne by congruence.
Qed.

(** X20.  In the merge loop, a staged entry whose destination is an
    existing directory is handed to [merge_folders], whatever the staged
    entry is; an [OSError] of [merge_folders] becomes an [ExtractError]
    with the same message, and any other outcome is passed on. *)
Theorem merge_entry_over_directory
    (temp_path to_directory archive_file : string) (sub : gmap string node)
    (w : world) :
  archive_file <> "" ->
  Os.stat (OsPath.join to_directory archive_file) w = Some (Dir sub) ->
  merge_entry merge_folders temp_path to_directory archive_file w
  = match merge_folders (OsPath.join temp_path archive_file)
            (OsPath.join to_directory archive_file) w with
    | (Raise (OSError msg), w') => (Raise (ExtractError msg), w')
    | r => r
    end.
Proof.
  intros Hne Hdir. unfold merge_entry. cbv zeta. unfold bind at 1.
  rewrite system_path_exists_join, Hdir by assumption.
  unfold Os.path_isfile, Os.path_isdir. msimpl. rewrite Hdir. msimpl.
  rewrite Hdir. msimpl. unfold try_except.
  destruct (merge_folders _ _ w) as [[[]|ex] w']; [reflexivity|].
  now destruct ex.
Qed.

End ToolFacts.

Section ListingFacts.

Variable RUNTIME_DIR : string.
Variable find_executable : string -> world -> result string.
Variable read_process_output : list string -> M string.

(** X17.  [get_innoextract_list] runs [innoextract -lmq] on the file and
    makes one name of each non-empty line of the output, by dropping its
    first three characters; empty lines, and so a final newline, give no
    name. *)
Theorem get_innoextract_list_lines
    (file_path innoextract_path : string) (lines : list string) (w w1 w2 : world) :
  get_innoextract_path RUNTIME_DIR find_executable w = (Ok innoextract_path, w1) ->
  read_process_output [innoextract_path; "-lmq"; file_path] w1
  = (Ok (String.concat (String "010" "") lines), w2) ->
  Forall (fun l => string_forallb (fun a => negb (Ascii.eqb a "010")) l = true) lines ->
  get_innoextract_list RUNTIME_DIR find_executable read_process_output file_path w
  = (Ok (List.map (Str.drop 3)
           (List.filter (fun line => negb (String.eqb line "")) lines)), w2).
Proof.
  intros Hpath Hout Hlines. unfold get_innoextract_list, bind.
  rewrite Hpath, Hout. unfold ret, innoextract_list_of.
  destruct lines as [|l lines]; [reflexivity|].
  now rewrite SplitFacts.split_concat.
Qed.

End ListingFacts.



(** The extractor [zip] on [world0], where the runtime has its [7z]. *)
Lemma unknown_extractor_passed_to_7zip_witness :
  let rec :=
    extract_archive Scenario.RUNTIME_DIR Scenario.no_executable Scenario.merge_refused
      (Scenario.idle_tool 0) unit Scenario.tar_open (Scenario.tar_extractall ∅)
      Scenario.tar_close Scenario.gunzip_stored 0 in
  get_archive_opener (Some "zip") = (Tag "7zip", None)
  /\ _do_extract Scenario.RUNTIME_DIR Scenario.no_executable (Scenario.idle_tool 0)
       unit Scenario.tar_open (Scenario.tar_extractall ∅)
       Scenario.tar_close Scenario.gunzip_stored
       rec "/cache/data.zip" "/games/out" (Tag "7zip") None (Some "zip") Scenario.world0
     = (Scenario.idle_tool 0
          ["/runtime/p7zip/7z"; "x"; "/cache/data.zip"; "-o/games/out"; "-aoa"; "-tzip"] ;;
        ret tt) Scenario.world0.
Proof.
  refine (unknown_extractor_passed_to_7zip
            Scenario.RUNTIME_DIR Scenario.no_executable (Scenario.idle_tool 0)
            unit Scenario.tar_open (Scenario.tar_extractall ∅)
            Scenario.tar_close Scenario.gunzip_stored
            _ "/cache/data.zip" "/games/out" "zip" Scenario.world0 _ _).
  - simpl. intros H. repeat (destruct H as [H|H]; [discriminate H|]). exact H.
  - vm_compute. discriminate.
Defined.

(** A tar archive with two entries goes to [/games]. *)
Lemma extract_archive_tar_merges_witness :
  let content : gmap string node :=
    {[ "a.txt" := File "a"; "docs" := Dir {[ "b.txt" := File "b" ]} ]} in
  exists md',
    Scenario.extract_tar content 1
    = (Ok ("/cache/pack.tar", "/games"),
       put_dir "/games" md'
         (World (root Scenario.world0) (urandom Scenario.world0) 1))
    /\ md' !! ".extract-00000000" = None
    /\ (forall k, is_Some (effective_entries content !! k) ->
                  md' !! k = effective_entries content !! k)
    /\ (forall k, effective_entries content !! k = None -> k <> ".extract-00000000" ->
                  md' !! k = Scenario.games0 !! k).
Proof.
  intros content.
  assert (Hkeys : forall k, is_Some (content !! k) -> k = "a.txt" \/ k = "docs").
  { intros k [x Hk]. unfold content in Hk.
    apply lookup_insert_Some in Hk as [[<- _]|[_ Hk]]; [now left|].
    apply lookup_singleton_Some in Hk as [<- _]. now right. }
  assert (Heff : effective_entries content = content) by (vm_compute; reflexivity).
  refine (extract_archive_tar_merges
            Scenario.RUNTIME_DIR Scenario.no_executable Scenario.merge_refused
            (Scenario.tool ∅ 0) unit Scenario.tar_open (Scenario.tar_extractall content)
            Scenario.tar_close Scenario.gunzip_stored
            0 "/cache/pack.tar" "/games" None (Some "r:") "tar" Scenario.games0 content
            Scenario.world0 _ _ _ _ _ _ _ _ _).
  - vm_compute. reflexivity.
  - apply scenario_tar_unpacks.
  - vm_compute. reflexivity.
  - unfold content. apply insert_non_empty.
  - vm_compute. reflexivity.
  - vm_compute. reflexivity.
  - intros k Hk. destruct (Hkeys k Hk) as [-> | ->]; reflexivity.
  - rewrite Heff. intros k Hk. destruct (Hkeys k Hk) as [-> | ->]; reflexivity.
  - rewrite Heff. intros k Hk. destruct (Hkeys k Hk) as [-> | ->];
      (split; [vm_compute; reflexivity | discriminate]).
Defined.

(** No runtime directory and nothing on the [PATH]: the extraction of a zip
    file raises [MissingExecutableError]. *)
Lemma extract_archive_7zip_missing_witness :
  extract_archive Scenario.RUNTIME_DIR Scenario.no_executable Scenario.merge_refused
    (Scenario.idle_tool 0) unit Scenario.tar_open (Scenario.tar_extractall ∅)
    Scenario.tar_close Scenario.gunzip_stored
    1 "/cache/data.zip" "/games" true None Scenario.world_empty
  = (Raise (MissingExecutableError "The executable '7z' could not be found."),
     World (root Scenario.world_empty) (urandom Scenario.world_empty) 1).
Proof.
  refine (extract_archive_7zip_missing
            Scenario.RUNTIME_DIR Scenario.no_executable Scenario.merge_refused
            (Scenario.idle_tool 0) unit Scenario.tar_open (Scenario.tar_extractall ∅)
            Scenario.tar_close Scenario.gunzip_stored
            0 "/cache/data.zip" "/games" true None
            (MissingExecutableError "The executable '7z' could not be found.")
            Scenario.world_empty _ _ _).
  - vm_compute. reflexivity.
  - vm_compute. reflexivity.
  - reflexivity.
Defined.

(** The runtime directory holds [innoextract-1.9/innoextract]; the [PATH]
    has one too, which is not the one returned. *)
Lemma get_innoextract_path_found_witness :
  let w := Scenario.world_inno in
  let p := "/runtime/innoextract-1.9/innoextract" in
  w = w
  /\ exists m,
       Os.stat Scenario.RUNTIME_DIR w = Some (Dir m)
       /\ let inno_dirs :=
            List.filter (fun d => Str.startswith d "innoextract") (Fs.names m) in
          (exists pre d post,
              inno_dirs = (pre ++ d :: post)%list
              /\ (forall d', In d' pre ->
                    Os.stat (OsPath.join (OsPath.join Scenario.RUNTIME_DIR d') "innoextract") w
                    = None)
              /\ p = OsPath.join (OsPath.join Scenario.RUNTIME_DIR d) "innoextract"
              /\ Os.stat p w <> None)
          \/ ((forall d, In d inno_dirs ->
                  Os.stat (OsPath.join (OsPath.join Scenario.RUNTIME_DIR d) "innoextract") w
                  = None)
              /\ Scenario.on_path "innoextract" w = Ok p).
Proof.
  refine (get_innoextract_path_found Scenario.RUNTIME_DIR Scenario.on_path
            Scenario.world_inno Scenario.world_inno
            "/runtime/innoextract-1.9/innoextract" _).
  vm_compute. reflexivity.
Defined.

(** In a world without [/runtime], the probe of a setup file raises. *)
Lemma check_inno_exe_runtime_dir_missing_witness :
  check_inno_exe Scenario.RUNTIME_DIR Scenario.on_path (Scenario.idle_tool 0)
    "/cache/setup.exe" Scenario.world_empty
  = (Raise (Os.ENOENT Scenario.RUNTIME_DIR), Scenario.world_empty)
  /\ extract_exe Scenario.RUNTIME_DIR Scenario.on_path (Scenario.idle_tool 0)
       "/cache/setup.exe" "/games/out" Scenario.world_empty
     = (Raise (Os.ENOENT Scenario.RUNTIME_DIR), Scenario.world_empty)
  /\ extract_gog Scenario.RUNTIME_DIR Scenario.on_path (Scenario.idle_tool 0)
       "/cache/setup.exe" "/games/out" Scenario.world_empty
     = (Raise (Os.ENOENT Scenario.RUNTIME_DIR), Scenario.world_empty).
Proof.
  apply (check_inno_exe_runtime_dir_missing Scenario.RUNTIME_DIR Scenario.on_path
           (Scenario.idle_tool 0) "/cache/setup.exe" "/games/out" Scenario.world_empty).
  vm_compute. reflexivity.
Defined.

(** A listing of two entries, with its final newline. *)
Lemma get_innoextract_list_lines_witness :
  get_innoextract_list Scenario.RUNTIME_DIR Scenario.on_path Scenario.listing_output
    "/cache/setup.exe" Scenario.world0
  = (Ok ["app/game.exe"; "app/data.pak"], Scenario.world0).
Proof.
  refine (get_innoextract_list_lines Scenario.RUNTIME_DIR Scenario.on_path
            Scenario.listing_output "/cache/setup.exe" "/usr/bin/innoextract"
            [" - app/game.exe"; " - app/data.pak"; ""]
            Scenario.world0 Scenario.world0 Scenario.world0 _ _ _).
  - vm_compute. reflexivity.
  - reflexivity.
  - repeat constructor.
Defined.

(** A package that holds an entry [debian]. *)
Lemma extract_deb_debian_exists_witness :
  let tool := Scenario.tool {[ "debian" := Dir ∅; "data.tar.xz" := File "data" ]} 0 in
  extract_deb Scenario.RUNTIME_DIR Scenario.no_executable tool
    (extract_archive Scenario.RUNTIME_DIR Scenario.no_executable Scenario.merge_refused
       tool unit Scenario.tar_open (Scenario.tar_extractall ∅)
       Scenario.tar_close Scenario.gunzip_stored 1)
    "/cache/pkg.deb" "/games/pkg" Scenario.world0
  = (Raise (Os.EEXIST (OsPath.join "/games/pkg" "debian")),
     put_dir "/games/pkg" {[ "debian" := Dir ∅; "data.tar.xz" := File "data" ]}
       Scenario.world0).
Proof.
  intros tool.
  refine (extract_deb_debian_exists Scenario.RUNTIME_DIR Scenario.no_executable tool
            _ "/cache/pkg.deb" "/games/pkg" Scenario.world0 _ (Dir ∅) _ _).
  - vm_compute. reflexivity.
  - vm_compute. reflexivity.
Defined.

(** A package that holds [debian-binary] only. *)
Lemma extract_deb_without_tarballs_witness :
  let tool := Scenario.tool {[ "debian-binary" := File "2.0" ]} 0 in
  extract_deb Scenario.RUNTIME_DIR Scenario.no_executable tool
    (extract_archive Scenario.RUNTIME_DIR Scenario.no_executable Scenario.merge_refused
       tool unit Scenario.tar_open (Scenario.tar_extractall ∅)
       Scenario.tar_close Scenario.gunzip_stored 1)
    "/cache/pkg.deb" "/games/pkg" Scenario.world0
  = (Ok tt,
     put_dir "/games/pkg"
       (<[ "debian" := Dir ∅ ]> {[ "debian-binary" := File "2.0" ]})
       (put_dir "/games/pkg" {[ "debian-binary" := File "2.0" ]} Scenario.world0)).
Proof.
  intros tool.
  refine (extract_deb_without_tarballs Scenario.RUNTIME_DIR Scenario.no_executable tool
            _ "/cache/pkg.deb" "/games/pkg" Scenario.world0 _
            {[ "debian-binary" := File "2.0" ]} _ _ _ _ _).
  - vm_compute. reflexivity.
  - vm_compute. reflexivity.
  - reflexivity.
  - intros e He. simpl in He.
    repeat (destruct He as [<-|He]; [reflexivity|]). destruct He.
  - intros e He. simpl in He.
    repeat (destruct He as [<-|He]; [reflexivity|]). destruct He.
Defined.

(** The staged directory [tools] meets the directory [tools] of [/games],
    and [merge_folders] fails. *)
Lemma merge_entry_over_directory_witness :
  let content : gmap string node := {[ "tools" := Dir {[ "new.txt" := File "new" ]} ]} in
  merge_entry Scenario.merge_refused "/games/.extract-00000000" "/games" "tools"
    (Scenario.staged content)
  = (Raise (ExtractError "merge_folders was called"), Scenario.staged content).
Proof.
  intros content.
  refine (merge_entry_over_directory Scenario.merge_refused
            "/games/.extract-00000000" "/games" "tools"
            {[ "old.txt" := File "old" ]} (Scenario.staged content) _ _).
  - discriminate.
  - vm_compute. reflexivity.
Defined.

(** ** The merge of what a tool or a tar archive brings *)

Section PlainMergeFacts.

Variable RUNTIME_DIR : string.
Variable find_executable : string -> world -> result string.
Variable merge_folders : string -> string -> M unit.
Variable subprocess_call : list string -> M Z.
Variable TarFile : Type.
Variable tarfile_open : string -> option string -> M TarFile.
Variable TarFile_extractall : TarFile -> string -> M unit.
Variable TarFile_close : TarFile -> M unit.
Variable gunzip : string -> result string.

Local Abbreviation extract_archive_ :=
  (extract_archive RUNTIME_DIR find_executable merge_folders subprocess_call
     TarFile tarfile_open TarFile_extractall TarFile_close gunzip).

(** The merge without [merge_single]: the staged entries themselves are
    moved, all of them free names of [D]. *)
Lemma merge_staged_plain_free (D t : string) (md staged : gmap string node) (w : world) :
  Os.stat D w = Some (Dir md) -> Fs.valid_name t = true ->
  md !! t = Some (Dir staged) ->
  valid_names staged ->
  (forall k, is_Some (staged !! k) -> md !! k = None) ->
  exists md',
    merge_staged merge_folders (OsPath.join D t) D false w = (Ok tt, put_dir D md' w)
    /\ md' !! t = None
    /\ (forall k, is_Some (staged !! k) -> md' !! k = staged !! k)
    /\ (forall k, staged !! k = None -> k <> t -> md' !! k = md !! k).
Proof.
  intros HD Ht Hst Hv Hfree.
  destruct (merge_tail_free merge_folders D (OsPath.join D t) t [] md staged w HD Ht)
    as (md' & Hrun & Hprops); try assumption.
  - now apply PathFacts.components_join.
  - simpl. now rewrite Hst.
  - now rewrite (OsFacts.stat_join D w md HD t Ht).
  - exists md'. split; [|exact Hprops].
    unfold merge_staged. cbv iota. rewrite MFacts.bind_ret. cbv beta iota.
    unfold Os.path_isfile. msimpl.
    rewrite (OsFacts.stat_join D w md HD t Ht), Hst. msimpl. exact Hrun.
Qed.

(** X22.  Without [merge_single], what a tar archive with members brings is
    moved to the destination as it is staged: a single top-level directory
    stays a directory of the destination and is not replaced by its
    entries.  The names brought and the staging name are free in the
    destination; the call succeeds, the staging directory is gone and no
    other entry has changed. *)
Theorem extract_archive_tar_keeps_top_level
    (depth : nat) (path to_directory : string) (extractor mode : option string)
    (data : string) (md content : gmap string node) (w : world) :
  let p := Os.abspath path in
  let extractor' :=
    match extractor with None => guess_extractor p | Some _ => extractor end in
  let t := ".extract-" +:+ random_id_of (urandom w (drawn w)) in
  let wd := World (root w) (urandom w) (S (drawn w)) in
  get_archive_opener extractor' = (TarfileOpen, mode) ->
  tar_unpacks tarfile_open TarFile_extractall TarFile_close p mode data content ->
  Os.stat p w = Some (File data) ->
  content <> ∅ ->
  Os.stat to_directory w = Some (Dir md) -> md !! t = None ->
  valid_names content ->
  (forall k, is_Some (content !! k) -> md !! k = None /\ k <> t) ->
  exists md',
    extract_archive_ (S depth) path to_directory false extractor w
    = (Ok (p, to_directory), put_dir to_directory md' wd)
    /\ md' !! t = None
    /\ (forall k, is_Some (content !! k) -> md' !! k = content !! k)
    /\ (forall k, content !! k = None -> k <> t -> md' !! k = md !! k).
Proof.
  intros p extractor' t wd Hopener Htar Hfile Hmembers HD Hfreet Hv Hfree.
  assert (Hfiled : Os.stat p wd = Some (File data)) by exact Hfile.
  pose proof (staging_name_valid (urandom w (drawn w))) as Ht. fold t in Ht.
  assert (HDd : Os.stat to_directory wd = Some (Dir md)) by exact HD.
  set (md1 := <[t := Dir content]> md).
  assert (HD1 : Os.stat to_directory (put_dir to_directory md1 wd) = Some (Dir md1))
    by apply (OsFacts.stat_put_dir to_directory wd md HDd).
  destruct (merge_staged_plain_free to_directory t md1 content
              (put_dir to_directory md1 wd) HD1 Ht)
    as (md' & Hrun & Ht' & Hin & Hout); try assumption.
  - unfold md1. apply lookup_insert_eq.
  - intros k Hk. destruct (Hfree k Hk) as [Hnone Hkt].
    unfold md1. now rewrite lookup_insert_ne by congruence.
  - exists md'. split; [|split; [|split]]; try assumption.
    + cbn [extract_archive]. eapply MFacts.bind_eq.
      { rewrite StageFacts.extract_to_staging_run. fold p extractor' wd.
        rewrite Hopener. cbn [fst snd].
        change (staging_path to_directory (urandom w (drawn w)))
          with (OsPath.join to_directory t).
        destruct (tar_unpacks_staged _ _ _ _ _ _ _ md to_directory t wd
                    Htar Hfiled Hmembers HDd Ht Hfreet)
          as (handler & Hopen & Hall & Hclose).
        unfold _do_extract. cbn [opener_is]. cbv iota.
        unfold bind. now rewrite Hopen, Hall, Hclose. }
      cbv beta iota. fold md1. eapply MFacts.bind_eq; [exact Hrun|].
      now rewrite (OsFacts.put_dir_put_dir to_directory wd).
    + intros k Hk Hkt. rewrite (Hout k Hk Hkt). unfold md1.
      now rewrite lookup_insert_ne by congruence.
Qed.

(** X23.  The 7-zip backend, with the tool of the runtime directory: the
    command is [7z x <source> -o<staging> -aoa], with [-t<type>] for a given
    type other than [auto]; whatever the exit code of the tool, what it
    wrote into the staging directory is merged into the destination as for
    any archive (the names brought are free there), and the call
    succeeds. *)
Theorem extract_archive_7zip_merges
    (depth : nat) (path to_directory : string) (extractor : option string)
    (code : Z) (md content : gmap string node) (w : world) :
  let p := Os.abspath path in
  let extractor' :=
    match extractor with None => guess_extractor p | Some _ => extractor end in
  let t := ".extract-" +:+ random_id_of (urandom w (drawn w)) in
  let wd := World (root w) (urandom w) (S (drawn w)) in
  let command :=
    [OsPath.join RUNTIME_DIR "p7zip/7z"; "x"; p;
     "-o" +:+ OsPath.join to_directory t; "-aoa"] in
  let command :=
    if truthy extractor' && negb (extractor_is extractor' "auto")
    then (command ++ ["-t" +:+ default "" extractor'])%list
    else command in
  get_archive_opener extractor' = (Tag "7zip", None) ->
  Os.stat (OsPath.join RUNTIME_DIR "p7zip/7z") w <> None ->
  subprocess_call command wd = (Ok code, put_dir (OsPath.join to_directory t) content wd) ->
  Os.stat to_directory w = Some (Dir md) ->
  valid_names content -> valid_names (effective_entries content) ->
  (forall k, is_Some (effective_entries content !! k) -> md !! k = None /\ k <> t) ->
  exists md',
    extract_archive_ (S depth) path to_directory true extractor w
    = (Ok (p, to_directory), put_dir to_directory md' wd)
    /\ md' !! t = None
    /\ (forall k, is_Some (effective_entries content !! k) ->
                  md' !! k = effective_entries content !! k)
    /\ (forall k, effective_entries content !! k = None -> k <> t ->
                  md' !! k = md !! k).
Proof.
  intros p extractor' t wd base command Hopener Hfound Hcall HD Hv Hve Hfree.
  pose proof (staging_name_valid (urandom w (drawn w))) as Ht. fold t in Ht.
  assert (HDd : Os.stat to_directory wd = Some (Dir md)) by exact HD.
  set (md1 := <[t := Dir content]> md).
  assert (HD1 : Os.stat to_directory (put_dir to_directory md1 wd) = Some (Dir md1))
    by apply (OsFacts.stat_put_dir to_directory wd md HDd).
  destruct (merge_staged_free merge_folders to_directory t md1 content
              (put_dir to_directory md1 wd) HD1 Ht)
    as (md' & Hrun & Ht' & Hin & Hout); try assumption.
  - unfold md1. apply lookup_insert_eq.
  - intros k Hk. destruct (Hfree k Hk) as [Hnone Hkt].
    unfold md1. now rewrite lookup_insert_ne by congruence.
  - exists md'. split; [|split; [|split]]; try assumption.
    + cbn [extract_archive]. eapply MFacts.bind_eq.
      { rewrite StageFacts.extract_to_staging_run. fold p extractor' wd.
        rewrite Hopener. cbn [fst snd].
        change (staging_path to_directory (urandom w (drawn w)))
          with (OsPath.join to_directory t).
        unfold _do_extract.
        change (opener_is (Tag "7zip") "gz") with false.
        change (opener_is (Tag "7zip") "7zip") with true. cbv iota.
        unfold extract_7zip. cbv zeta. unfold bind at 1.
        rewrite system_path_exists_join by discriminate.
        change (Os.stat (OsPath.join RUNTIME_DIR "p7zip/7z") wd)
          with (Os.stat (OsPath.join RUNTIME_DIR "p7zip/7z") w).
        destruct (Os.stat (OsPath.join RUNTIME_DIR "p7zip/7z") w); [|congruence].
        cbn [negb]. unfold bind at 1, ret at 1. unfold bind.
        fold base command. rewrite Hcall. unfold ret.
        rewrite (OsFacts.put_dir_join to_directory wd md HDd t content Ht). reflexivity. }
      cbv beta iota. fold md1. eapply MFacts.bind_eq; [exact Hrun|].
      now rewrite (OsFacts.put_dir_put_dir to_directory wd).
    + intros k Hk Hkt. rewrite (Hout k Hk Hkt). unfold md1.
      now rewrite lookup_insert_ne by congruence.
Qed.

End PlainMergeFacts.

(** An archive with the single directory [pkg], extracted without
    [merge_single]: [/games/pkg] is that directory. *)
Lemma extract_archive_tar_keeps_top_level_witness :
  let content : gmap string node := {[ "pkg" := Dir {[ "b.txt" := File "b" ]} ]} in
  exists md',
    extract_archive Scenario.RUNTIME_DIR Scenario.no_executable Scenario.merge_refused
      (Scenario.idle_tool 0) unit Scenario.tar_open (Scenario.tar_extractall content)
      Scenario.tar_close Scenario.gunzip_stored
      1 "/cache/pack.tar" "/games" false None Scenario.world0
    = (Ok ("/cache/pack.tar", "/games"),
       put_dir "/games" md'
         (World (root Scenario.world0) (urandom Scenario.world0) 1))
    /\ md' !! ".extract-00000000" = None
    /\ (forall k, is_Some (content !! k) -> md' !! k = content !! k)
    /\ (forall k, content !! k = None -> k <> ".extract-00000000" ->
                  md' !! k = Scenario.games0 !! k).
Proof.
  intros content.
  assert (Hkeys : forall k, is_Some (content !! k) -> k = "pkg").
  { intros k [x Hk]. unfold content in Hk.
    now apply lookup_singleton_Some in Hk as [<- _]. }
  refine (extract_archive_tar_keeps_top_level
            Scenario.RUNTIME_DIR Scenario.no_executable Scenario.merge_refused
            (Scenario.idle_tool 0) unit Scenario.tar_open (Scenario.tar_extractall content)
            Scenario.tar_close Scenario.gunzip_stored
            0 "/cache/pack.tar" "/games" None (Some "r:") "tar" Scenario.games0 content
            Scenario.world0 _ _ _ _ _ _ _ _).
  - vm_compute. reflexivity.
  - apply scenario_tar_unpacks.
  - vm_compute. reflexivity.
  - unfold content. apply insert_non_empty.
  - vm_compute. reflexivity.
  - vm_compute. reflexivity.
  - intros k Hk. rewrite (Hkeys k Hk). reflexivity.
  - intros k Hk. rewrite (Hkeys k Hk). split; [vm_compute; reflexivity | discriminate].
Defined.

(** A zip file whose tool unpacks two entries and exits with code 2. *)
Lemma extract_archive_7zip_merges_witness :
  let content : gmap string node :=
    {[ "a.txt" := File "a"; "docs" := Dir {[ "b.txt" := File "b" ]} ]} in
  exists md',
    extract_archive Scenario.RUNTIME_DIR Scenario.no_executable Scenario.merge_refused
      (Scenario.tool content 2) unit Scenario.tar_open (Scenario.tar_extractall ∅)
      Scenario.tar_close Scenario.gunzip_stored
      1 "/cache/data.zip" "/games" true None Scenario.world0
    = (Ok ("/cache/data.zip", "/games"),
       put_dir "/games" md'
         (World (root Scenario.world0) (urandom Scenario.world0) 1))
    /\ md' !! ".extract-00000000" = None
    /\ (forall k, is_Some (effective_entries content !! k) ->
                  md' !! k = effective_entries content !! k)
    /\ (forall k, effective_entries content !! k = None -> k <> ".extract-00000000" ->
                  md' !! k = Scenario.games0 !! k).
Proof.
  intros content.
  assert (Hkeys : forall k, is_Some (content !! k) -> k = "a.txt" \/ k = "docs").
  { intros k [x Hk]. unfold content in Hk.
    apply lookup_insert_Some in Hk as [[<- _]|[_ Hk]]; [now left|].
    apply lookup_singleton_Some in Hk as [<- _]. now right. }
  assert (Heff : effective_entries content = content) by (vm_compute; reflexivity).
  refine (extract_archive_7zip_merges
            Scenario.RUNTIME_DIR Scenario.no_executable Scenario.merge_refused
            (Scenario.tool content 2) unit Scenario.tar_open (Scenario.tar_extractall ∅)
            Scenario.tar_close Scenario.gunzip_stored
            0 "/cache/data.zip" "/games" None 2%Z Scenario.games0 content
            Scenario.world0 _ _ _ _ _ _ _).
  - vm_compute. reflexivity.
  - vm_compute. discriminate.
  - vm_compute. reflexivity.
  - vm_compute. reflexivity.
  - intros k Hk. destruct (Hkeys k Hk) as [-> | ->]; reflexivity.
  - rewrite Heff. intros k Hk. destruct (Hkeys k Hk) as [-> | ->]; reflexivity.
  - rewrite Heff. intros k Hk. destruct (Hkeys k Hk) as [-> | ->];
      (split; [vm_compute; reflexivity | discriminate]).
Defined.
